(** * The LLMR extraction pipeline of [generate_llmr.py]

    A shallow embedding of the HTML metadata extractor
    ([UniversalHTMLParser]), the content-type classifier
    ([ContentTypeDetector]), the keyword extractor ([KeywordExtractor]),
    the hash embedding ([EmbeddingGenerator], [HashEmbeddings]) and the
    record compressor and site aggregator ([LLMRGenerator]), followed by
    the properties stated for them.

    Conventions.
    - A Python [str] is a [string]; the development covers ASCII text
      (one [ascii] per character).  [None] is the [None] of an [option].
    - A Python [int] is a [Z]; a length or a counter that only grows is
      read back with [Z.of_nat].
    - A Python [float] that is a decimal fraction is the rational it
      prints as ([Q]).
    - A raised exception is the [Raise] of the [result] monad.
    - Library calls are not part of the program: [json.loads] and
      [hashlib.md5] are parameters of the development, the iteration
      order of a [set] is a parameter constrained to enumerate the
      distinct members, and the tokenizer of [html.parser] is replaced by
      the stream of handler calls it makes.  Reference implementations
      of the decoder and of the hash ([JsonRef], [Md5Ref]) instantiate
      the parameters on concrete documents. *)

From Stdlib Require Import ZArith QArith Qround Lia Ascii String List Permutation.
From stdpp Require Import gmap strings list sorting.

Set Warnings "-register-all,-clear-no-such-hyp".

Local Open Scope string_scope.
Local Open Scope nat_scope.

(** ** Exceptions *)

Inductive exn : Set :=
| NameError
| TypeError
| AttributeError
| IndexError
| KeyError
| JSONDecodeError
| RecursionError.

Inductive result (A : Type) : Type :=
| Ok (a : A)
| Raise (e : exn).
Arguments Ok {A} a.
Arguments Raise {A} e.

#[global] Instance result_ret : MRet result := fun A a => Ok a.
#[global] Instance result_bind : MBind result := fun A B f m =>
  match m with
  | Ok a => f a
  | Raise e => Raise e
  end.

(** ** Python string and sequence primitives *)

Module PyStr.

(** [str.isspace] on ASCII: TAB..CR, FS..US and the space. *)
Definition is_space (c : ascii) : bool :=
  let n := nat_of_ascii c in
  ((9 <=? n) && (n <=? 13)) || ((28 <=? n) && (n <=? 32)).

Definition is_lower (c : ascii) : bool :=
  let n := nat_of_ascii c in (97 <=? n) && (n <=? 122).

Definition is_upper (c : ascii) : bool :=
  let n := nat_of_ascii c in (65 <=? n) && (n <=? 90).

Definition is_digit (c : ascii) : bool :=
  let n := nat_of_ascii c in (48 <=? n) && (n <=? 57).

(** The class [\w] of [re] on ASCII. *)
Definition is_word (c : ascii) : bool :=
  is_lower c || is_upper c || is_digit c || Ascii.eqb c "_"%char.

Definition lower_char (c : ascii) : ascii :=
  if is_upper c then ascii_of_nat (nat_of_ascii c + 32) else c.

(** [s.lower()] *)
Fixpoint lower (s : string) : string :=
  match s with
  | EmptyString => EmptyString
  | String c s' => String (lower_char c) (lower s')
  end.

Fixpoint lstrip (s : string) : string :=
  match s with
  | EmptyString => EmptyString
  | String c s' => if is_space c then lstrip s' else s
  end.

Fixpoint rstrip (s : string) : string :=
  match s with
  | EmptyString => EmptyString
  | String c s' =>
      match rstrip s' with
      | EmptyString => if is_space c then EmptyString else String c EmptyString
      | r => String c r
      end
  end.

(** [s.strip()] *)
Definition strip (s : string) : string := rstrip (lstrip s).

(** The maximal runs of characters that are not separators. *)
Fixpoint runs (sep : ascii -> bool) (s : string) : list string :=
  match s with
  | EmptyString => []
  | String c s' =>
      if sep c then runs sep s'
      else match s' with
           | EmptyString => [String c EmptyString]
           | String c' _ =>
               if sep c' then String c EmptyString :: runs sep s'
               else match runs sep s' with
                    | w :: ws => String c w :: ws
                    | [] => [String c EmptyString]
                    end
           end
  end.

(** [s.split()]: the maximal runs of non-space characters. *)
Definition split_ws (s : string) : list string := runs is_space s.

Fixpoint all_chars (p : ascii -> bool) (s : string) : bool :=
  match s with
  | EmptyString => true
  | String c s' => p c && all_chars p s'
  end.

(** [re.findall(r'\b[a-z]{3,}\b', s)] on ASCII text.  A match starts and
    ends at a word boundary and holds only letters a-z, so it is a whole
    maximal run of word characters; the runs that hold another word
    character (a digit, an underscore, a capital) or fewer than three
    letters give no match. *)
Definition findall_lower3 (s : string) : list string :=
  filter (fun w => (3 <=? String.length w) && all_chars is_lower w)
    (runs (fun c => negb (is_word c)) s).

(** [s.split(sep)] for a one-character separator: never empty. *)
Fixpoint split_on (sep : ascii) (s : string) : list string :=
  match s with
  | EmptyString => [EmptyString]
  | String c s' =>
      if Ascii.eqb c sep then EmptyString :: split_on sep s'
      else match split_on sep s' with
           | w :: ws => String c w :: ws
           | [] => [String c EmptyString]
           end
  end.

(** [sep.join(parts)] *)
Fixpoint join (sep : string) (parts : list string) : string :=
  match parts with
  | [] => EmptyString
  | [p] => p
  | p :: rest => p ++ sep ++ join sep rest
  end.

(** [needle in hay] *)
Fixpoint contains (needle hay : string) : bool :=
  String.prefix needle hay ||
  match hay with
  | EmptyString => false
  | String _ hay' => contains needle hay'
  end.

(** Number of items kept by the slice [[:n]] of a sequence of length
    [len]: a negative bound counts from the end. *)
Definition slice_to (n : Z) (len : nat) : nat :=
  if (n <? 0)%Z then len - Z.to_nat (- n) else Nat.min (Z.to_nat n) len.

(** [s[:n]] on a string. *)
Definition str_take (n : Z) (s : string) : string :=
  String.substring 0 (slice_to n (String.length s)) s.

(** [l[:n]] on a list. *)
Definition list_take {A} (n : Z) (l : list A) : list A :=
  take (slice_to n (length l)) l.

End PyStr.

(** ** JSON values, as [json.loads] returns them

    A number keeps the literal it was read from when it is not an
    integer; an object keeps its members in document order. *)

Inductive json : Type :=
| JNull
| JBool (b : bool)
| JInt (n : Z)
| JFloat (literal : string)
| JStr (s : string)
| JArr (items : list json)
| JObj (members : list (string * json)).

Module PyJson.

(** [d.get(key)] on the members of a JSON object. *)
Fixpoint lookup (key : string) (members : list (string * json)) : option json :=
  match members with
  | [] => None
  | (k, v) :: rest => if String.eqb k key then Some v else lookup key rest
  end.

Definition is_str (key : string) (v : json) : bool :=
  match v with
  | JStr s => String.eqb s key
  | _ => false
  end.

(** [key in v] for a string [key]: key membership on a dict, substring
    test on a str, element equality on a list, [TypeError] otherwise. *)
Definition contains (key : string) (v : json) : result bool :=
  match v with
  | JObj members => Ok (bool_decide (is_Some (lookup key members)))
  | JStr s => Ok (PyStr.contains key s)
  | JArr items => Ok (existsb (is_str key) items)
  | JNull | JBool _ | JInt _ | JFloat _ => Raise TypeError
  end.

(** [v[key]] for a string [key]: only a dict can be indexed by a
    string. *)
Definition getitem (key : string) (v : json) : result json :=
  match v with
  | JObj members =>
      match lookup key members with
      | Some x => Ok x
      | None => Raise KeyError
      end
  | _ => Raise TypeError
  end.

End PyJson.

(** ** [UniversalHTMLParser]: the extraction record and its handlers *)

Module UniversalHTMLParser.

(** An attribute list as [html.parser] passes it: a name with its value,
    [None] when the attribute is written without a value. *)
Definition attrs_t : Type := list (string * option string).

(** [dict(attrs)]: a later pair overrides an earlier one. *)
Definition dict (attrs : attrs_t) : gmap string (option string) :=
  foldl (fun d kv => <[kv.1 := kv.2]> d) ∅ attrs.

(** [key in d] *)
Definition has_key (d : gmap string (option string)) (key : string) : bool :=
  bool_decide (is_Some (d !! key)).

(** [d.get(key, default)] with the empty string as default. *)
Definition get (d : gmap string (option string)) (key : string) : option string :=
  default (Some EmptyString) (d !! key).

(** [d[key]], read under the guard [key in d]. *)
Definition item (d : gmap string (option string)) (key : string) : option string :=
  default None (d !! key).

(** [v.lower()] on an attribute value: [None] has no such method. *)
Definition lower (v : option string) : result string :=
  match v with
  | Some s => Ok (PyStr.lower s)
  | None => Raise AttributeError
  end.

Record Link : Type := mkLink {
  link_url : option string;
  link_text : string;
  link_rel : option string;
  link_title : option string
}.

Record Image : Type := mkImage {
  image_src : option string;
  image_alt : option string;
  image_title : option string
}.

Record Video : Type := mkVideo {
  video_src : option string;
  video_poster : option string
}.

Record CodeBlock : Type := mkCodeBlock {
  code_tag : string;
  code_content : string
}.

Record Microdata : Type := mkMicrodata {
  item_type : option string;
  item_properties : list (option string * option string)
}.

Record Rdfa : Type := mkRdfa {
  rdfa_property : option string;
  rdfa_typeof : option string;
  rdfa_content : option string
}.

(** [self.in_script] takes the values [False], [True] and ["json-ld"]. *)
Inductive ScriptMode : Set :=
| NoScript
| PlainScript
| JsonLdScript.

Definition script_truthy (m : ScriptMode) : bool :=
  match m with NoScript => false | _ => true end.

Record Parser : Type := mkParser {
  base_url : string;
  title : string;
  description : string;
  keywords : list string;
  author : string;
  language : option string;
  canonical_url : option string;
  headings : gmap string (list string);
  paragraphs : list string;
  links : list Link;
  images : list Image;
  videos : list Video;
  code_blocks : list CodeBlock;
  lists : list string;
  json_ld_data : list json;
  microdata_items : list Microdata;
  rdfa_data : list Rdfa;
  current_tag : option string;
  tag_stack : list string;
  in_script : ScriptMode;
  in_style : bool;
  current_content : list string;
  word_count : Z;
  estimated_read_time : Z;
  og_type : option string
}.

(** Attribute assignment [self.f = v], one function per assigned attribute. *)
Definition set_title (v : string) (s : Parser) : Parser :=
  mkParser (base_url s) v (description s) (keywords s) (author s)
    (language s) (canonical_url s) (headings s) (paragraphs s) (links s)
    (images s) (videos s) (code_blocks s) (lists s) (json_ld_data s)
    (microdata_items s) (rdfa_data s) (current_tag s) (tag_stack s)
    (in_script s) (in_style s) (current_content s) (word_count s)
    (estimated_read_time s) (og_type s).
Definition set_description (v : string) (s : Parser) : Parser :=
  mkParser (base_url s) (title s) v (keywords s) (author s) (language s)
    (canonical_url s) (headings s) (paragraphs s) (links s) (images s)
    (videos s) (code_blocks s) (lists s) (json_ld_data s)
    (microdata_items s) (rdfa_data s) (current_tag s) (tag_stack s)
    (in_script s) (in_style s) (current_content s) (word_count s)
    (estimated_read_time s) (og_type s).
Definition set_keywords (v : list string) (s : Parser) : Parser :=
  mkParser (base_url s) (title s) (description s) v (author s) (language s)
    (canonical_url s) (headings s) (paragraphs s) (links s) (images s)
    (videos s) (code_blocks s) (lists s) (json_ld_data s)
    (microdata_items s) (rdfa_data s) (current_tag s) (tag_stack s)
    (in_script s) (in_style s) (current_content s) (word_count s)
    (estimated_read_time s) (og_type s).
Definition set_author (v : string) (s : Parser) : Parser :=
  mkParser (base_url s) (title s) (description s) (keywords s) v
    (language s) (canonical_url s) (headings s) (paragraphs s) (links s)
    (images s) (videos s) (code_blocks s) (lists s) (json_ld_data s)
    (microdata_items s) (rdfa_data s) (current_tag s) (tag_stack s)
    (in_script s) (in_style s) (current_content s) (word_count s)
    (estimated_read_time s) (og_type s).
Definition set_language (v : option string) (s : Parser) : Parser :=
  mkParser (base_url s) (title s) (description s) (keywords s) (author s) v
    (canonical_url s) (headings s) (paragraphs s) (links s) (images s)
    (videos s) (code_blocks s) (lists s) (json_ld_data s)
    (microdata_items s) (rdfa_data s) (current_tag s) (tag_stack s)
    (in_script s) (in_style s) (current_content s) (word_count s)
    (estimated_read_time s) (og_type s).
Definition set_canonical_url (v : option string) (s : Parser) : Parser :=
  mkParser (base_url s) (title s) (description s) (keywords s) (author s)
    (language s) v (headings s) (paragraphs s) (links s) (images s)
    (videos s) (code_blocks s) (lists s) (json_ld_data s)
    (microdata_items s) (rdfa_data s) (current_tag s) (tag_stack s)
    (in_script s) (in_style s) (current_content s) (word_count s)
    (estimated_read_time s) (og_type s).
Definition set_headings (v : gmap string (list string)) (s : Parser) : Parser :=
  mkParser (base_url s) (title s) (description s) (keywords s) (author s)
    (language s) (canonical_url s) v (paragraphs s) (links s) (images s)
    (videos s) (code_blocks s) (lists s) (json_ld_data s)
    (microdata_items s) (rdfa_data s) (current_tag s) (tag_stack s)
    (in_script s) (in_style s) (current_content s) (word_count s)
    (estimated_read_time s) (og_type s).
Definition set_paragraphs (v : list string) (s : Parser) : Parser :=
  mkParser (base_url s) (title s) (description s) (keywords s) (author s)
    (language s) (canonical_url s) (headings s) v (links s) (images s)
    (videos s) (code_blocks s) (lists s) (json_ld_data s)
    (microdata_items s) (rdfa_data s) (current_tag s) (tag_stack s)
    (in_script s) (in_style s) (current_content s) (word_count s)
    (estimated_read_time s) (og_type s).
Definition set_links (v : list Link) (s : Parser) : Parser :=
  mkParser (base_url s) (title s) (description s) (keywords s) (author s)
    (language s) (canonical_url s) (headings s) (paragraphs s) v (images s)
    (videos s) (code_blocks s) (lists s) (json_ld_data s)
    (microdata_items s) (rdfa_data s) (current_tag s) (tag_stack s)
    (in_script s) (in_style s) (current_content s) (word_count s)
    (estimated_read_time s) (og_type s).
Definition set_images (v : list Image) (s : Parser) : Parser :=
  mkParser (base_url s) (title s) (description s) (keywords s) (author s)
    (language s) (canonical_url s) (headings s) (paragraphs s) (links s) v
    (videos s) (code_blocks s) (lists s) (json_ld_data s)
    (microdata_items s) (rdfa_data s) (current_tag s) (tag_stack s)
    (in_script s) (in_style s) (current_content s) (word_count s)
    (estimated_read_time s) (og_type s).
Definition set_videos (v : list Video) (s : Parser) : Parser :=
  mkParser (base_url s) (title s) (description s) (keywords s) (author s)
    (language s) (canonical_url s) (headings s) (paragraphs s) (links s)
    (images s) v (code_blocks s) (lists s) (json_ld_data s)
    (microdata_items s) (rdfa_data s) (current_tag s) (tag_stack s)
    (in_script s) (in_style s) (current_content s) (word_count s)
    (estimated_read_time s) (og_type s).
Definition set_code_blocks (v : list CodeBlock) (s : Parser) : Parser :=
  mkParser (base_url s) (title s) (description s) (keywords s) (author s)
    (language s) (canonical_url s) (headings s) (paragraphs s) (links s)
    (images s) (videos s) v (lists s) (json_ld_data s) (microdata_items s)
    (rdfa_data s) (current_tag s) (tag_stack s) (in_script s) (in_style s)
    (current_content s) (word_count s) (estimated_read_time s) (og_type s).
Definition set_json_ld_data (v : list json) (s : Parser) : Parser :=
  mkParser (base_url s) (title s) (description s) (keywords s) (author s)
    (language s) (canonical_url s) (headings s) (paragraphs s) (links s)
    (images s) (videos s) (code_blocks s) (lists s) v (microdata_items s)
    (rdfa_data s) (current_tag s) (tag_stack s) (in_script s) (in_style s)
    (current_content s) (word_count s) (estimated_read_time s) (og_type s).
Definition set_microdata_items (v : list Microdata) (s : Parser) : Parser :=
  mkParser (base_url s) (title s) (description s) (keywords s) (author s)
    (language s) (canonical_url s) (headings s) (paragraphs s) (links s)
    (images s) (videos s) (code_blocks s) (lists s) (json_ld_data s) v
    (rdfa_data s) (current_tag s) (tag_stack s) (in_script s) (in_style s)
    (current_content s) (word_count s) (estimated_read_time s) (og_type s).
Definition set_rdfa_data (v : list Rdfa) (s : Parser) : Parser :=
  mkParser (base_url s) (title s) (description s) (keywords s) (author s)
    (language s) (canonical_url s) (headings s) (paragraphs s) (links s)
    (images s) (videos s) (code_blocks s) (lists s) (json_ld_data s)
    (microdata_items s) v (current_tag s) (tag_stack s) (in_script s)
    (in_style s) (current_content s) (word_count s) (estimated_read_time s)
    (og_type s).
Definition set_current_tag (v : option string) (s : Parser) : Parser :=
  mkParser (base_url s) (title s) (description s) (keywords s) (author s)
    (language s) (canonical_url s) (headings s) (paragraphs s) (links s)
    (images s) (videos s) (code_blocks s) (lists s) (json_ld_data s)
    (microdata_items s) (rdfa_data s) v (tag_stack s) (in_script s)
    (in_style s) (current_content s) (word_count s) (estimated_read_time s)
    (og_type s).
Definition set_tag_stack (v : list string) (s : Parser) : Parser :=
  mkParser (base_url s) (title s) (description s) (keywords s) (author s)
    (language s) (canonical_url s) (headings s) (paragraphs s) (links s)
    (images s) (videos s) (code_blocks s) (lists s) (json_ld_data s)
    (microdata_items s) (rdfa_data s) (current_tag s) v (in_script s)
    (in_style s) (current_content s) (word_count s) (estimated_read_time s)
    (og_type s).
Definition set_in_script (v : ScriptMode) (s : Parser) : Parser :=
  mkParser (base_url s) (title s) (description s) (keywords s) (author s)
    (language s) (canonical_url s) (headings s) (paragraphs s) (links s)
    (images s) (videos s) (code_blocks s) (lists s) (json_ld_data s)
    (microdata_items s) (rdfa_data s) (current_tag s) (tag_stack s) v
    (in_style s) (current_content s) (word_count s) (estimated_read_time s)
    (og_type s).
Definition set_in_style (v : bool) (s : Parser) : Parser :=
  mkParser (base_url s) (title s) (description s) (keywords s) (author s)
    (language s) (canonical_url s) (headings s) (paragraphs s) (links s)
    (images s) (videos s) (code_blocks s) (lists s) (json_ld_data s)
    (microdata_items s) (rdfa_data s) (current_tag s) (tag_stack s)
    (in_script s) v (current_content s) (word_count s)
    (estimated_read_time s) (og_type s).
Definition set_current_content (v : list string) (s : Parser) : Parser :=
  mkParser (base_url s) (title s) (description s) (keywords s) (author s)
    (language s) (canonical_url s) (headings s) (paragraphs s) (links s)
    (images s) (videos s) (code_blocks s) (lists s) (json_ld_data s)
    (microdata_items s) (rdfa_data s) (current_tag s) (tag_stack s)
    (in_script s) (in_style s) v (word_count s) (estimated_read_time s)
    (og_type s).
Definition set_word_count (v : Z) (s : Parser) : Parser :=
  mkParser (base_url s) (title s) (description s) (keywords s) (author s)
    (language s) (canonical_url s) (headings s) (paragraphs s) (links s)
    (images s) (videos s) (code_blocks s) (lists s) (json_ld_data s)
    (microdata_items s) (rdfa_data s) (current_tag s) (tag_stack s)
    (in_script s) (in_style s) (current_content s) v (estimated_read_time s)
    (og_type s).
Definition set_estimated_read_time (v : Z) (s : Parser) : Parser :=
  mkParser (base_url s) (title s) (description s) (keywords s) (author s)
    (language s) (canonical_url s) (headings s) (paragraphs s) (links s)
    (images s) (videos s) (code_blocks s) (lists s) (json_ld_data s)
    (microdata_items s) (rdfa_data s) (current_tag s) (tag_stack s)
    (in_script s) (in_style s) (current_content s) (word_count s) v
    (og_type s).
Definition set_og_type (v : option string) (s : Parser) : Parser :=
  mkParser (base_url s) (title s) (description s) (keywords s) (author s)
    (language s) (canonical_url s) (headings s) (paragraphs s) (links s)
    (images s) (videos s) (code_blocks s) (lists s) (json_ld_data s)
    (microdata_items s) (rdfa_data s) (current_tag s) (tag_stack s)
    (in_script s) (in_style s) (current_content s) (word_count s)
    (estimated_read_time s) v.

(** [UniversalHTMLParser.__init__] *)
Definition init (base : string) : Parser :=
  {| base_url := base;
     title := EmptyString;
     description := EmptyString;
     keywords := [];
     author := EmptyString;
     language := Some "en";
     canonical_url := Some EmptyString;
     headings := <["h1" := []]> (<["h2" := []]> (<["h3" := []]>
                 (<["h4" := []]> (<["h5" := []]> (<["h6" := []]> ∅)))));
     paragraphs := [];
     links := [];
     images := [];
     videos := [];
     code_blocks := [];
     lists := [];
     json_ld_data := [];
     microdata_items := [];
     rdfa_data := [];
     current_tag := None;
     tag_stack := [];
     in_script := NoScript;
     in_style := false;
     current_content := [];
     word_count := 0%Z;
     estimated_read_time := 0%Z;
     og_type := None |}.

(** [l[-1] = f(l[-1])] on a non-empty list. *)
Fixpoint update_last {A} (f : A -> A) (l : list A) : list A :=
  match l with
  | [] => []
  | [x] => [f x]
  | x :: rest => x :: update_last f rest
  end.

Definition nonempty (s : string) : bool :=
  match s with EmptyString => false | _ => true end.

(** [tag in ["pre", "code"]] *)
Definition is_code_tag (tag : string) : bool :=
  String.eqb tag "pre" || String.eqb tag "code".

(** [tag in self.headings] *)
Definition is_heading (tag : string) (s : Parser) : bool :=
  bool_decide (is_Some (headings s !! tag)).

(** [self.current_tag in ["h1", ..., "h6", "p", "a", "li", "pre", "code"]] *)
Definition is_capturing (tag : option string) : bool :=
  match tag with
  | Some t =>
      existsb (String.eqb t)
        ["h1"; "h2"; "h3"; "h4"; "h5"; "h6"; "p"; "a"; "li"; "pre"; "code"]
  | None => false
  end.

(** [_parse_meta_tag] *)
Definition _parse_meta_tag (attrs : gmap string (option string)) (s : Parser)
  : result Parser :=
  name ← lower (get attrs "name");
  property_name ← lower (get attrs "property");
  let content := get attrs "content" in
  match content with
  | None | Some EmptyString => Ok s
  | Some content =>
      if String.eqb name "description"
         || String.eqb property_name "og:description" then
        Ok (set_description content s)
      else if String.eqb name "keywords" then
        Ok (set_keywords
              (filter (fun k => nonempty k)
                 (map PyStr.strip (PyStr.split_on "," content))) s)
      else if String.eqb name "author"
              || String.eqb property_name "article:author" then
        Ok (set_author content s)
      else if String.eqb property_name "og:title"
              && negb (nonempty (title s)) then
        Ok (set_title content s)
      else if String.eqb property_name "og:type" then
        match og_type s with
        | None => Ok (set_og_type (Some content) s)
        | Some _ => Ok s
        end
      else Ok s
  end.

(** [_parse_link_tag] *)
Definition _parse_link_tag (attrs : gmap string (option string)) (s : Parser)
  : Parser :=
  let rel := get attrs "rel" in
  let href := get attrs "href" in
  if bool_decide (rel = Some "canonical") then set_canonical_url href s else s.

(** [_parse_microdata] *)
Definition _parse_microdata (tag : string) (attrs : gmap string (option string))
  (s : Parser) : Parser :=
  let properties :=
    if has_key attrs "itemprop"
    then [(item attrs "itemprop", get attrs "content")]
    else [] in
  set_microdata_items
    (microdata_items s ++ [mkMicrodata (get attrs "itemtype") properties]) s.

(** [_parse_rdfa] *)
Definition _parse_rdfa (tag : string) (attrs : gmap string (option string))
  (s : Parser) : Parser :=
  set_rdfa_data
    (rdfa_data s ++
     [mkRdfa (get attrs "property") (get attrs "typeof") (get attrs "content")]) s.

(** [handle_starttag] *)
Definition handle_starttag (tag : string) (attrs : attrs_t) (s : Parser)
  : result Parser :=
  let attrs_dict := dict attrs in
  let s := set_current_tag (Some tag) s in
  let s := set_tag_stack (tag_stack s ++ [tag]) s in
  s ← (if String.eqb tag "meta" then _parse_meta_tag attrs_dict s
       else if String.eqb tag "link" then Ok (_parse_link_tag attrs_dict s)
       else if String.eqb tag "a" && has_key attrs_dict "href" then
         Ok (set_links
               (links s ++
                [mkLink (item attrs_dict "href") EmptyString
                   (get attrs_dict "rel") (get attrs_dict "title")]) s)
       else if String.eqb tag "img" then
         Ok (set_images
               (images s ++
                [mkImage (get attrs_dict "src") (get attrs_dict "alt")
                   (get attrs_dict "title")]) s)
       else if String.eqb tag "video" then
         Ok (set_videos
               (videos s ++
                [mkVideo (get attrs_dict "src") (get attrs_dict "poster")]) s)
       else if String.eqb tag "script" then
         let script_type := get attrs_dict "type" in
         if bool_decide (script_type = Some "application/ld+json")
         then Ok (set_in_script JsonLdScript s)
         else Ok (set_in_script PlainScript s)
       else if String.eqb tag "style" then Ok (set_in_style true s)
       else if is_code_tag tag then
         Ok (set_code_blocks (code_blocks s ++ [mkCodeBlock tag EmptyString]) s)
       else Ok s);
  let s := if has_key attrs_dict "itemscope"
           then _parse_microdata tag attrs_dict s else s in
  let s := if existsb (has_key attrs_dict) ["property"; "typeof"; "vocab"]
           then _parse_rdfa tag attrs_dict s else s in
  Ok (if String.eqb tag "html" && has_key attrs_dict "lang"
      then set_language (item attrs_dict "lang") s else s).

(** [round(n / d)] for [0 < d]: the nearest integer, a tie going to
    the even one.  The quotient of the source is a float; it is the
    exact rational as long as [n] is below 2^53. *)
Definition round_div (n d : Z) : Z :=
  let q := (n / d)%Z in
  let r := (n mod d)%Z in
  if (2 * r <? d)%Z then q
  else if (d <? 2 * r)%Z then (q + 1)%Z
  else if Z.even q then q else (q + 1)%Z.

(** [calculate_read_time] *)
Definition calculate_read_time (s : Parser) : Parser :=
  if (0 <? word_count s)%Z
  then set_estimated_read_time (Z.max 1 (round_div (word_count s) 200)) s
  else s.

(** [handle_data] *)
Definition handle_data (data : string) (s : Parser) : Parser :=
  let data := PyStr.strip data in
  if negb (nonempty data) || in_style s then s
  else if script_truthy (in_script s) then
    set_current_content (current_content s ++ [data]) s
  else if bool_decide (current_tag s = Some "title") && negb (nonempty (title s)) then
    set_title data s
  else if is_capturing (current_tag s) then
    set_current_content (current_content s ++ [data]) s
  else s.

(** The text a closing tag finalizes: [" ".join(self.current_content).strip()] *)
Definition buffered (s : Parser) : string :=
  PyStr.strip (PyStr.join " " (current_content s)).

Definition is_nil {A} (l : list A) : bool :=
  match l with [] => true | _ => false end.

(** The first statement of [handle_endtag]: the stack is popped when it
    is not empty and its top is the closing tag. *)
Definition pop_matching (tag : string) (s : Parser) : Parser :=
  let stack := tag_stack s in
  set_tag_stack
    (match last stack with
     | Some top => if String.eqb top tag then removelast stack else stack
     | None => stack
     end) s.

Section Handlers.

(** [json.loads]: the decoded value, or the exception it raises. *)
Variable json_loads : string -> result json.

(** The [try] block of the script branch: a [JSONDecodeError] is
    swallowed, any other exception propagates. *)
Definition load_json_ld (s : Parser) : result Parser :=
  match json_loads (PyStr.join " " (current_content s)) with
  | Ok json_data => Ok (set_json_ld_data (json_ld_data s ++ [json_data]) s)
  | Raise JSONDecodeError => Ok s
  | Raise e => Raise e
  end.

(** [handle_endtag] *)
Definition handle_endtag (tag : string) (s : Parser) : result Parser :=
  let s := pop_matching tag s in
  s ← (if is_heading tag s && negb (is_nil (current_content s)) then
         let content := buffered s in
         let s :=
           if nonempty content
           then set_headings
                  (<[tag := (default [] (headings s !! tag) ++ [content])%list]>
                     (headings s)) s
           else s in
         Ok (set_current_content [] s)
       else if String.eqb tag "p" && negb (is_nil (current_content s)) then
         let content := buffered s in
         let s :=
           if nonempty content
           then set_word_count
                  (word_count s + Z.of_nat (length (PyStr.split_ws content)))%Z
                  (set_paragraphs (paragraphs s ++ [content]) s)
           else s in
         Ok (set_current_content [] s)
       else if String.eqb tag "a" && negb (is_nil (links s))
               && negb (is_nil (current_content s)) then
         let text := buffered s in
         Ok (set_current_content []
               (set_links
                  (update_last
                     (fun l => mkLink (link_url l) text (link_rel l) (link_title l))
                     (links s)) s))
       else if is_code_tag tag && negb (is_nil (code_blocks s)) then
         let text := buffered s in
         Ok (set_current_content []
               (set_code_blocks
                  (update_last (fun c => mkCodeBlock (code_tag c) text)
                     (code_blocks s)) s))
       else if String.eqb tag "script" then
         s ← (match in_script s with
              | JsonLdScript =>
                  if negb (is_nil (current_content s))
                  then load_json_ld s else Ok s
              | _ => Ok s
              end);
         Ok (set_current_content [] (set_in_script NoScript s))
       else if String.eqb tag "style" then
         Ok (set_current_content [] (set_in_style false s))
       else Ok s);
  Ok (set_current_tag (last (tag_stack s)) s).

(** One call made by [html.parser] while it consumes the document. *)
Inductive event : Type :=
| StartTag (tag : string) (attrs : attrs_t)
| EndTag (tag : string)
| Data (data : string).

Definition handle (ev : event) (s : Parser) : result Parser :=
  match ev with
  | StartTag tag attrs => handle_starttag tag attrs s
  | EndTag tag => handle_endtag tag s
  | Data data => Ok (handle_data data s)
  end.

(** [parser.feed(html)], seen as the handler calls in document order:
    the first exception ends the parse. *)
Fixpoint feed (evs : list event) (s : Parser) : result Parser :=
  match evs with
  | [] => Ok s
  | ev :: rest => s' ← handle ev s; feed rest s'
  end.

(** The parse of [_process_page]: a fresh parser, [feed], then
    [calculate_read_time]. *)
Definition parse (base : string) (evs : list event) : result Parser :=
  s ← feed evs (init base); Ok (calculate_read_time s).

End Handlers.

End UniversalHTMLParser.

(** ** [ContentTypeDetector] *)

Module ContentTypeDetector.

Import UniversalHTMLParser.

(** [SCHEMA_TYPES], in declaration order. *)
Definition SCHEMA_TYPES : list (string * list string) :=
  [ ("Article", ["article"; "blog"; "post"; "news"]);
    ("BlogPosting", ["blog"; "post"]);
    ("NewsArticle", ["news"; "press"]);
    ("Product", ["product"; "item"; "shop"]);
    ("Event", ["event"; "conference"; "meetup"]);
    ("Organization", ["about"; "company"; "organization"]);
    ("Person", ["profile"; "author"; "bio"]);
    ("WebPage", ["page"]);
    ("HowTo", ["tutorial"; "guide"; "howto"]);
    ("FAQPage", ["faq"; "questions"]);
    ("ContactPage", ["contact"]);
    ("Recipe", ["recipe"; "cooking"]);
    ("VideoObject", ["video"; "watch"]);
    ("Course", ["course"; "training"; "learn"]);
    ("JobPosting", ["job"; "career"; "hiring"]);
    ("Review", ["review"; "rating"]) ].

(** The loop over [parser.json_ld_data]: the first entry that passes the
    test ["@type" in ld] decides; [None] when the loop falls through. *)
Fixpoint detect_json_ld (data : list json) : result (option json) :=
  match data with
  | [] => Ok None
  | ld :: rest =>
      found ← PyJson.contains "@type" ld;
      if found : bool then
        schema_type ← PyJson.getitem "@type" ld;
        match schema_type with
        | JArr [] => Raise IndexError
        | JArr (first :: _) => Ok (Some first)
        | _ => Ok (Some schema_type)
        end
      else detect_json_ld rest
  end.

(** The loop over [parser.microdata_items]. *)
Fixpoint detect_microdata (items : list Microdata) : option string :=
  match items with
  | [] => None
  | it :: rest =>
      match item_type it with
      | Some (String _ _ as t) => Some (List.last (PyStr.split_on "/" t) EmptyString)
      | _ => detect_microdata rest
      end
  end.

(** The text searched for trigger keywords. *)
Definition content_text (parser : Parser) : string :=
  PyStr.lower
    (PyStr.join " "
       [ title parser;
         description parser;
         PyStr.join " " (default [] (headings parser !! "h1"));
         PyStr.join " " (PyStr.list_take 3 (paragraphs parser)) ]).

Definition triggers (url_lower text : string) (keyword : string) : bool :=
  PyStr.contains keyword url_lower || PyStr.contains keyword text.

(** The loop over [SCHEMA_TYPES.items()]. *)
Fixpoint detect_keyword (table : list (string * list string))
  (url_lower text : string) : option string :=
  match table with
  | [] => None
  | (schema_type, kws) :: rest =>
      if existsb (triggers url_lower text) kws then Some schema_type
      else detect_keyword rest url_lower text
  end.

(** [detect_type] *)
Definition detect_type (parser : Parser) (url : string) : result json :=
  from_ld ← detect_json_ld (json_ld_data parser);
  match from_ld with
  | Some schema_type => Ok schema_type
  | None =>
      match detect_microdata (microdata_items parser) with
      | Some type_name => Ok (JStr type_name)
      | None =>
          match og_type parser with
          | Some t => Ok (JStr t)
          | None =>
              match detect_keyword SCHEMA_TYPES (PyStr.lower url)
                      (content_text parser) with
              | Some schema_type => Ok (JStr schema_type)
              | None => Ok (JStr "WebPage")
              end
          end
      end
  end.

End ContentTypeDetector.

(** ** [KeywordExtractor] *)

Module KeywordExtractor.

Import UniversalHTMLParser.

Definition STOP_WORDS : list string :=
  [ "the"; "be"; "to"; "of"; "and"; "a"; "in"; "that"; "have"; "i";
    "it"; "for"; "not"; "on"; "with"; "he"; "as"; "you"; "do"; "at";
    "this"; "but"; "his"; "by"; "from"; "they"; "we"; "say"; "her"; "she";
    "or"; "an"; "will"; "my"; "one"; "all"; "would"; "there"; "their"; "what";
    "so"; "up"; "out"; "if"; "about"; "who"; "get"; "which"; "go"; "me" ].

(** [w in STOP_WORDS] *)
Definition is_stop_word (w : string) : bool := existsb (String.eqb w) STOP_WORDS.

(** [Counter]: the words with their counts, in order of first occurrence. *)
Fixpoint count_word (w : string) (counts : list (string * nat))
  : list (string * nat) :=
  match counts with
  | [] => [(w, 1)]
  | (k, n) :: rest =>
      if String.eqb k w then (k, S n) :: rest else (k, n) :: count_word w rest
  end.

Definition Counter (words : list string) : list (string * nat) :=
  foldl (fun counts w => count_word w counts) [] words.

(** Insertion in a list sorted by decreasing count, before the entries
    that do not count more. *)
Fixpoint insert_by_count (x : string * nat) (sorted : list (string * nat))
  : list (string * nat) :=
  match sorted with
  | [] => [x]
  | y :: rest =>
      if y.2 <=? x.2 then x :: sorted else y :: insert_by_count x rest
  end.

(** [sorted(counts, key=count, reverse=True)]: stable, so that equal
    counts stay in order of first occurrence. *)
Definition sort_by_count (counts : list (string * nat)) : list (string * nat) :=
  foldr insert_by_count [] counts.

(** [counts.most_common(n)]: the [n] largest entries, none for [n <= 0]. *)
Definition most_common (n : Z) (counts : list (string * nat))
  : list (string * nat) :=
  if (n <=? 0)%Z then [] else take (Z.to_nat n) (sort_by_count counts).

(** The order in which a [set] of strings built by adding the items of a
    list is iterated.  It depends on the hashes of the strings; all that
    is known is that every distinct member comes once. *)
Record SetIter : Type := mkSetIter {
  iter : list string -> list string;
  iter_perm : forall l, iter l ≡ₚ remove_dups l
}.

(** The text that is tokenized. *)
Definition all_text (parser : Parser) : string :=
  PyStr.join " "
    [ title parser;
      description parser;
      PyStr.join " " (default [] (headings parser !! "h1"));
      PyStr.join " " (default [] (headings parser !! "h2"));
      PyStr.join " " (paragraphs parser) ].

Definition filtered_words (parser : Parser) : list string :=
  filter (fun w => negb (is_stop_word w))
    (PyStr.findall_lower3 (PyStr.lower (all_text parser))).

Definition top_words (parser : Parser) (max_keywords : Z) : list string :=
  map fst (most_common max_keywords (Counter (filtered_words parser))).

(** [extract_keywords] *)
Definition extract_keywords (order : SetIter) (parser : Parser)
  (max_keywords : Z) : list string :=
  PyStr.list_take max_keywords
    (iter order
       (keywords parser ++ PyStr.list_take max_keywords (top_words parser max_keywords))).

End KeywordExtractor.

(** ** [EmbeddingGenerator] and [HashEmbeddings] *)

Module EmbeddingGenerator.

Import UniversalHTMLParser.

(** [round(x, 3)] on a decimal fraction: the nearest multiple of 1/1000,
    a tie going to the even one. *)
Definition round3 (x : Q) : Q :=
  round_div (1000 * Qnum x) (Zpos (Qden x)) # 1000.

(** [range(n)] *)
Definition range (n : Z) : list Z := map Z.of_nat (seq 0 (Z.to_nat n)).

Section Hash.

(** [int(hashlib.md5(text.encode()).hexdigest(), 16)] *)
Variable md5_int : string -> Z.

(** The value appended for dimension [i]. *)
Definition component (hash_val : Z) (i : Z) : Q :=
  let val := (Z.shiftr hash_val (i * 8) mod 200 - 100)%Z # 100 in
  round3 val.

(** [generate_simple_embedding] *)
Definition generate_simple_embedding (text : string) (dimensions : Z) : list Q :=
  match text with
  | EmptyString => replicate (Z.to_nat dimensions) (0 # 1)
  | _ =>
      let hash_val := md5_int text in
      map (component hash_val) (range dimensions)
  end.

(** [generate_content_embedding] *)
Definition generate_content_embedding (parser : Parser) : list Q :=
  let content_parts :=
    [ title parser;
      description parser;
      PyStr.join " " (default [] (headings parser !! "h1"));
      PyStr.join " " (default [] (headings parser !! "h2"));
      PyStr.join " " (PyStr.list_take 5 (paragraphs parser)) ] in
  let content_text := PyStr.join " " (filter (fun p => nonempty p) content_parts) in
  generate_simple_embedding content_text 16.

End Hash.

End EmbeddingGenerator.

(** [HashEmbeddings] of [embedding_integration.py]. *)
Module HashEmbeddings.

Record t : Type := mk { dimensions : Z }.

(** [HashEmbeddings.__init__], with its default of 16 dimensions. *)
Definition init : t := mk 16.

Section Hash.

Variable md5_int : string -> Z.

(** [embed] *)
Definition embed (self : t) (text : string) : list Q :=
  match text with
  | EmptyString => replicate (Z.to_nat (dimensions self)) (0 # 1)
  | _ =>
      let hash_val := md5_int text in
      map (fun i =>
             let val := (Z.shiftr hash_val (i * 8) mod 200 - 100)%Z # 100 in
             EmbeddingGenerator.round3 val)
        (EmbeddingGenerator.range (dimensions self))
  end.

(** [embed_batch] *)
Definition embed_batch (self : t) (texts : list string) : list (list Q) :=
  map (embed self) texts.

End Hash.

End HashEmbeddings.

(** ** [WebsiteScanner]: the page records *)

Module WebsiteScanner.

(** The dict built by [_process_page], with the keys that the generator
    reads and the types of the values the scanner stores under them.  The
    keys [schema_data] and [json_ld] are read by no later stage and are
    left out. *)
Record Page : Type := mkPage {
  page_id : string;
  page_url : string;
  page_type : json;
  page_title : string;
  page_description : string;
  page_keywords : list string;
  page_author : string;
  page_language : option string;
  page_word_count : Z;
  page_read_time : Z;
  page_headings : gmap string (list string);
  page_links_count : Z;
  page_images_count : Z;
  page_videos_count : Z;
  page_code_blocks_count : Z;
  page_has_structured_data : bool;
  page_embedding : list Q
}.

Section Scanner.

Variable json_loads : string -> result json.
Variable md5_int : string -> Z.
Variable order : KeywordExtractor.SetIter.

(** [_process_page], from the parse on: [stem] is the file name without
    its extension, [url] the relative URL of the file, [evs] the handler
    calls made while the file is fed to the parser. *)
Definition _process_page (base_url stem url : string)
  (evs : list UniversalHTMLParser.event) : result Page :=
  parser ← UniversalHTMLParser.parse json_loads base_url evs;
  content_type ← ContentTypeDetector.detect_type parser url;
  let keywords := KeywordExtractor.extract_keywords order parser 10 in
  let embedding := EmbeddingGenerator.generate_content_embedding md5_int parser in
  Ok {| page_id := stem;
        page_url := url;
        page_type := content_type;
        page_title := UniversalHTMLParser.title parser;
        page_description :=
          PyStr.str_take 200 (UniversalHTMLParser.description parser);
        page_keywords := keywords;
        page_author := UniversalHTMLParser.author parser;
        page_language := UniversalHTMLParser.language parser;
        page_word_count := UniversalHTMLParser.word_count parser;
        page_read_time := UniversalHTMLParser.estimated_read_time parser;
        page_headings :=
          filter (fun kv => kv.2 ≠ []) (UniversalHTMLParser.headings parser);
        page_links_count := Z.of_nat (length (UniversalHTMLParser.links parser));
        page_images_count := Z.of_nat (length (UniversalHTMLParser.images parser));
        page_videos_count := Z.of_nat (length (UniversalHTMLParser.videos parser));
        page_code_blocks_count :=
          Z.of_nat (length (UniversalHTMLParser.code_blocks parser));
        page_has_structured_data :=
          negb (UniversalHTMLParser.is_nil (UniversalHTMLParser.json_ld_data parser))
          || negb (UniversalHTMLParser.is_nil
                     (UniversalHTMLParser.microdata_items parser));
        page_embedding := embedding |}.

End Scanner.

End WebsiteScanner.

(** ** [LLMRGenerator]: the record compressor and the site aggregator *)

Module LLMRGenerator.

Import WebsiteScanner.

(** The values stored in the output dicts. *)
Inductive value : Type :=
| VInt (n : Z)
| VFloat (x : Q)
| VStr (s : string)
| VJson (j : json)
| VStrs (l : list string)
| VFloats (l : list Q)
| VLangs (l : list (option string)).

(** The compressed page of one page. *)
Definition compress_page (page : Page) : gmap string value :=
  let compressed_page : gmap string value :=
    <["id" := VStr (page_id page)]>
    (<["u" := VStr (page_url page)]>
    (<["t" := VJson (page_type page)]>
    (<["ti" := VStr (PyStr.str_take 100 (page_title page))]>
    (<["d" := VStr (PyStr.str_take 200 (page_description page))]>
    (<["kw" := VStrs (PyStr.list_take 10 (page_keywords page))]>
    (<["wc" := VInt (page_word_count page)]>
    (<["rt" := VInt (page_read_time page)]>
    (<["emb" := VFloats (page_embedding page)]> ∅)))))))) in
  let compressed_page :=
    match page_author page with
    | String _ _ as author => <["a" := VStr author]> compressed_page
    | EmptyString => compressed_page
    end in
  let compressed_page :=
    match page_language page with
    | Some (String _ _ as lang) =>
        if negb (String.eqb lang "en")
        then <["l" := VStr lang]> compressed_page else compressed_page
    | _ => compressed_page
    end in
  let compressed_page :=
    if page_has_structured_data page
    then <["sd" := VInt 1]> compressed_page else compressed_page in
  let compressed_page :=
    let cb := page_code_blocks_count page in
    if negb (cb =? 0)%Z && (0 <? cb)%Z
    then <["cb" := VInt cb]> compressed_page else compressed_page in
  match page_headings page !! "h1" with
  | Some (first :: _) => <["h1" := VStr (PyStr.str_take 100 first)]> compressed_page
  | _ => compressed_page
  end.

(** [_compress_pages] *)
Definition _compress_pages (pages : list Page) : list (gmap string value) :=
  map compress_page pages.

(** A name read inside a generator expression of [_generate_stats]
    resolves to the loop variable of that generator when it is the loop
    variable; no other binding of a page exists there: the locals of the
    method are [self] and [pages], and the module binds no such name. *)
Definition resolve (loop_var : string) (bound : Page) (name : string)
  : result Page :=
  if String.eqb name loop_var then Ok bound else Raise NameError.

(** [sum(f(x) for x in pages)]: the items are produced in order and the
    first exception ends the sum. *)
Fixpoint py_sum (f : Page -> result Z) (pages : list Page) : result Z :=
  match pages with
  | [] => Ok 0%Z
  | p :: rest => x ← f p; total ← py_sum f rest; Ok (x + total)%Z
  end.

(** [sum(1 for x in pages if cond(x))] *)
Definition py_count (cond : Page -> result bool) (pages : list Page) : result Z :=
  py_sum (fun p => b ← cond p; Ok (if b : bool then 1 else 0)%Z) pages.

(** [round(total / n, 1)] on the rational [total / n]. *)
Definition round1 (total : Z) (n : positive) : Q :=
  UniversalHTMLParser.round_div (10 * total) (Zpos n) # 10.

(** [_generate_stats].  The entries of the dict display are evaluated in
    the order they are written. *)
Definition _generate_stats (langs : list (option string) -> list (option string))
  (pages : list Page) : result (gmap string value) :=
  match pages with
  | [] => Ok (<["total_pages" := VInt 0]> ∅)
  | _ :: _ =>
      let total_pages := Z.of_nat (length pages) in
      total_words ← py_sum (fun page =>
        page ← resolve "page" page "page"; Ok (page_word_count page)) pages;
      total_read_time ← py_sum (fun page =>
        page ← resolve "page" page "page"; Ok (page_read_time page)) pages;
      let avg_read_time := round1 total_read_time (Z.to_pos total_pages) in
      pages_with_code ← py_count (fun p =>
        page ← resolve "p" p "page";
        Ok (0 <? page_code_blocks_count page)%Z) pages;
      pages_with_structured_data ← py_count (fun p =>
        page ← resolve "p" p "page";
        Ok (page_has_structured_data page)) pages;
      total_images ← py_sum (fun page =>
        page ← resolve "page" page "page"; Ok (page_images_count page)) pages;
      total_videos ← py_sum (fun page =>
        page ← resolve "page" page "page"; Ok (page_videos_count page)) pages;
      let languages := langs (map page_language pages) in
      Ok (<["total_pages" := VInt total_pages]>
         (<["total_words" := VInt total_words]>
         (<["avg_read_time" := VFloat avg_read_time]>
         (<["pages_with_code" := VInt pages_with_code]>
         (<["pages_with_structured_data" := VInt pages_with_structured_data]>
         (<["total_images" := VInt total_images]>
         (<["total_videos" := VInt total_videos]>
         (<["languages" := VLangs languages]> ∅))))))))
  end.

End LLMRGenerator.

(** ** A reference decoder for [json.loads]

    The development is parametric in the decoder.  This one follows the
    JSON grammar on ASCII text and serves to run the handlers on concrete
    documents. *)

Module JsonRef.

Definition is_json_space (c : ascii) : bool :=
  existsb (Ascii.eqb c) [" "; "009"; "010"; "013"]%char.

Fixpoint skip_space (s : string) : string :=
  match s with
  | String c s' => if is_json_space c then skip_space s' else s
  | EmptyString => EmptyString
  end.

(** The body of a string literal, after its opening quote. *)
Fixpoint string_body (s : string) : option (string * string) :=
  match s with
  | EmptyString => None
  | String c s' =>
      if Ascii.eqb c "034" then Some (EmptyString, s')
      else if Ascii.eqb c "\" then
        match s' with
        | String e s'' =>
            let unescaped :=
              if Ascii.eqb e "034" then Some "034"%char
              else if Ascii.eqb e "\" then Some "\"%char
              else if Ascii.eqb e "/" then Some "/"%char
              else if Ascii.eqb e "b" then Some "008"%char
              else if Ascii.eqb e "f" then Some "012"%char
              else if Ascii.eqb e "n" then Some "010"%char
              else if Ascii.eqb e "r" then Some "013"%char
              else if Ascii.eqb e "t" then Some "009"%char
              else None in
            match unescaped, string_body s'' with
            | Some u, Some (body, rest) => Some (String u body, rest)
            | _, _ => None
            end
        | EmptyString => None
        end
      else if nat_of_ascii c <? 32 then None
      else match string_body s' with
           | Some (body, rest) => Some (String c body, rest)
           | None => None
           end
  end.

(** The longest prefix of digits, with what follows it. *)
Fixpoint digits (s : string) : string * string :=
  match s with
  | String c s' =>
      if PyStr.is_digit c
      then let '(d, rest) := digits s' in (String c d, rest)
      else (EmptyString, s)
  | EmptyString => (EmptyString, EmptyString)
  end.

Definition digit_value (c : ascii) : Z := Z.of_nat (nat_of_ascii c - 48).

Fixpoint decimal (acc : Z) (s : string) : Z :=
  match s with
  | String c s' => decimal (10 * acc + digit_value c)%Z s'
  | EmptyString => acc
  end.

(** A number literal: an integer gives [JInt], a literal with a fraction
    or an exponent gives [JFloat]. *)
Definition number (s : string) : option (json * string) :=
  let '(neg, s1) :=
    match s with
    | String "-" s' => (true, s')
    | _ => (false, s)
    end in
  let '(int_part, s2) := digits s1 in
  match int_part with
  | EmptyString => None
  | String "0" (String _ _) => None
  | _ =>
      let '(frac, s3) :=
        match s2 with
        | String "." s' => let '(f, r) := digits s' in (Some f, r)
        | _ => (None, s2)
        end in
      let '(exp, s4) :=
        match s3 with
        | String c s' =>
            if Ascii.eqb c "e" || Ascii.eqb c "E" then
              let '(sign, s'') :=
                match s' with
                | String "+" r => ("+", r)
                | String "-" r => ("-", r)
                | _ => (EmptyString, s')
                end in
              let '(e, r) := digits s'' in (Some (sign ++ e, e), r)
            else (None, s3)
        | EmptyString => (None, s3)
        end in
      match frac, exp with
      | Some EmptyString, _ => None
      | _, Some (_, EmptyString) => None
      | None, None =>
          let n := decimal 0 int_part in
          Some (JInt (if neg then - n else n)%Z, s4)
      | _, _ =>
          let literal :=
            (if neg then "-" else EmptyString) ++ int_part ++
            match frac with Some f => "." ++ f | None => EmptyString end ++
            match exp with Some (e, _) => "e" ++ e | None => EmptyString end in
          Some (JFloat literal, s4)
      end
  end.

(** [d[key] = v] on the members of an object: a repeated key keeps its
    place and takes the later value. *)
Fixpoint set_member (key : string) (v : json) (members : list (string * json))
  : list (string * json) :=
  match members with
  | [] => [(key, v)]
  | (k, x) :: rest =>
      if String.eqb k key then (k, v) :: rest else (k, x) :: set_member key v rest
  end.

Definition strip_prefix (p s : string) : option string :=
  if String.prefix p s
  then Some (String.substring (String.length p) (String.length s - String.length p) s)
  else None.

(** The value at the head of [s], with what follows it. *)
Fixpoint value (fuel : nat) (s : string) : option (json * string) :=
  match fuel with
  | O => None
  | S fuel =>
      match s with
      | String "{" s' =>
          match skip_space s' with
          | String "}" rest => Some (JObj [], rest)
          | s'' => members fuel [] s''
          end
      | String "[" s' =>
          match skip_space s' with
          | String "]" rest => Some (JArr [], rest)
          | s'' => elements fuel [] s''
          end
      | String "034" s' =>
          match string_body s' with
          | Some (body, rest) => Some (JStr body, rest)
          | None => None
          end
      | _ =>
          match strip_prefix "true" s, strip_prefix "false" s,
                strip_prefix "null" s, strip_prefix "NaN" s,
                strip_prefix "Infinity" s, strip_prefix "-Infinity" s with
          | Some rest, _, _, _, _, _ => Some (JBool true, rest)
          | _, Some rest, _, _, _, _ => Some (JBool false, rest)
          | _, _, Some rest, _, _, _ => Some (JNull, rest)
          | _, _, _, Some rest, _, _ => Some (JFloat "NaN", rest)
          | _, _, _, _, Some rest, _ => Some (JFloat "Infinity", rest)
          | _, _, _, _, _, Some rest => Some (JFloat "-Infinity", rest)
          | _, _, _, _, _, _ => number s
          end
      end
  end
with elements (fuel : nat) (acc : list json) (s : string) : option (json * string) :=
  match fuel with
  | O => None
  | S fuel =>
      match value fuel s with
      | Some (v, rest) =>
          match skip_space rest with
          | String "," rest' => elements fuel (acc ++ [v]) (skip_space rest')
          | String "]" rest' => Some (JArr (acc ++ [v]), rest')
          | _ => None
          end
      | None => None
      end
  end
with members (fuel : nat) (acc : list (string * json)) (s : string)
  : option (json * string) :=
  match fuel with
  | O => None
  | S fuel =>
      match s with
      | String "034" s' =>
          match string_body s' with
          | Some (key, rest) =>
              match skip_space rest with
              | String ":" rest' =>
                  match value fuel (skip_space rest') with
                  | Some (v, rest'') =>
                      match skip_space rest'' with
                      | String "," r =>
                          members fuel (set_member key v acc) (skip_space r)
                      | String "}" r => Some (JObj (set_member key v acc), r)
                      | _ => None
                      end
                  | None => None
                  end
              | _ => None
              end
          | None => None
          end
      | _ => None
      end
  end.

(** [json.loads(s)] *)
Definition loads (s : string) : result json :=
  match value (2 * String.length s + 2) (skip_space s) with
  | Some (v, rest) =>
      match skip_space rest with
      | EmptyString => Ok v
      | _ => Raise JSONDecodeError
      end
  | None => Raise JSONDecodeError
  end.

End JsonRef.

(** ** A reference implementation of [hashlib.md5]

    The development is parametric in the hash.  This one follows RFC 1321
    and serves to run the embedding on concrete texts. *)

Module Md5Ref.

Local Open Scope Z_scope.

Definition K : list Z :=
  [ 0xd76aa478; 0xe8c7b756; 0x242070db; 0xc1bdceee; 0xf57c0faf; 0x4787c62a;
    0xa8304613; 0xfd469501; 0x698098d8; 0x8b44f7af; 0xffff5bb1; 0x895cd7be;
    0x6b901122; 0xfd987193; 0xa679438e; 0x49b40821; 0xf61e2562; 0xc040b340;
    0x265e5a51; 0xe9b6c7aa; 0xd62f105d; 0x02441453; 0xd8a1e681; 0xe7d3fbc8;
    0x21e1cde6; 0xc33707d6; 0xf4d50d87; 0x455a14ed; 0xa9e3e905; 0xfcefa3f8;
    0x676f02d9; 0x8d2a4c8a; 0xfffa3942; 0x8771f681; 0x6d9d6122; 0xfde5380c;
    0xa4beea44; 0x4bdecfa9; 0xf6bb4b60; 0xbebfbc70; 0x289b7ec6; 0xeaa127fa;
    0xd4ef3085; 0x04881d05; 0xd9d4d039; 0xe6db99e5; 0x1fa27cf8; 0xc4ac5665;
    0xf4292244; 0x432aff97; 0xab9423a7; 0xfc93a039; 0x655b59c3; 0x8f0ccc92;
    0xffeff47d; 0x85845dd1; 0x6fa87e4f; 0xfe2ce6e0; 0xa3014314; 0x4e0811a1;
    0xf7537e82; 0xbd3af235; 0x2ad7d2bb; 0xeb86d391 ].

Definition shifts : list Z :=
  [ 7; 12; 17; 22; 7; 12; 17; 22; 7; 12; 17; 22; 7; 12; 17; 22;
    5; 9; 14; 20; 5; 9; 14; 20; 5; 9; 14; 20; 5; 9; 14; 20;
    4; 11; 16; 23; 4; 11; 16; 23; 4; 11; 16; 23; 4; 11; 16; 23;
    6; 10; 15; 21; 6; 10; 15; 21; 6; 10; 15; 21; 6; 10; 15; 21 ].

Definition word (x : Z) : Z := x mod 2 ^ 32.

Definition rotl (x n : Z) : Z :=
  Z.lor (word (Z.shiftl x n)) (Z.shiftr x (32 - n)).

Definition not32 (x : Z) : Z := Z.lxor x 0xffffffff.

(** The text with its padding: the bit 1, zeros up to 56 modulo 64, and
    the length in bits on eight bytes, low byte first. *)
Definition padded (bytes : list Z) : list Z :=
  let len := Z.of_nat (length bytes) in
  let zeros := Z.to_nat ((55 - len) mod 64) in
  bytes ++ [0x80] ++ replicate zeros 0
  ++ map (fun i => Z.shiftr (8 * len) (8 * Z.of_nat i) mod 256) (seq 0 8).

(** A little-endian number from its bytes. *)
Fixpoint little_endian (bytes : list Z) : Z :=
  match bytes with
  | [] => 0
  | b :: rest => b + 256 * little_endian rest
  end.

Fixpoint words (n : nat) (bytes : list Z) : list Z :=
  match n with
  | O => []
  | S n => little_endian (take 4 bytes) :: words n (drop 4 bytes)
  end.

(** One of the 64 operations on the state [(a, b, c, d)]. *)
Definition operation (M : list Z) (st : Z * Z * Z * Z) (i : nat)
  : Z * Z * Z * Z :=
  let '(a, b, c, d) := st in
  let '(f, g) :=
    if (i <? 16)%nat then (Z.lor (Z.land b c) (Z.land (not32 b) d), i)
    else if (i <? 32)%nat then
      (Z.lor (Z.land d b) (Z.land (not32 d) c), ((5 * i + 1) mod 16)%nat)
    else if (i <? 48)%nat then (Z.lxor (Z.lxor b c) d, ((3 * i + 5) mod 16)%nat)
    else (Z.lxor c (Z.lor b (not32 d)), ((7 * i) mod 16)%nat) in
  let f := word (f + a + nth i K 0 + nth g M 0) in
  (d, word (b + rotl f (nth i shifts 0)), b, c).

Definition block (st : Z * Z * Z * Z) (M : list Z) : Z * Z * Z * Z :=
  let '(a0, b0, c0, d0) := st in
  let '(a, b, c, d) := foldl (operation M) st (seq 0 64) in
  (word (a0 + a), word (b0 + b), word (c0 + c), word (d0 + d)).

Fixpoint blocks (n : nat) (st : Z * Z * Z * Z) (bytes : list Z)
  : Z * Z * Z * Z :=
  match n with
  | O => st
  | S n => blocks n (block st (words 16 (take 64 bytes))) (drop 64 bytes)
  end.

Definition bytes_of_word (x : Z) : list Z :=
  map (fun i => Z.shiftr x (8 * Z.of_nat i) mod 256) (seq 0 4).

(** The 16 bytes of the digest. *)
Definition digest (text : string) : list Z :=
  let bytes := padded (map (fun c => Z.of_nat (nat_of_ascii c))
                         (list_ascii_of_string text)) in
  let '(a, b, c, d) :=
    blocks (length bytes / 64)
      (0x67452301, 0xefcdab89, 0x98badcfe, 0x10325476) bytes in
  bytes_of_word a ++ bytes_of_word b ++ bytes_of_word c ++ bytes_of_word d.

(** [int(hashlib.md5(text.encode()).hexdigest(), 16)] *)
Definition md5_int (text : string) : Z :=
  foldl (fun acc b => 256 * acc + b) 0 (digest text).

End Md5Ref.

(** An iteration order for sets of strings: the order of first insertion. *)
Definition insertion_order : KeywordExtractor.SetIter :=
  KeywordExtractor.mkSetIter remove_dups (fun l => reflexivity (remove_dups l)).

(** ** Reference points stated by the specification *)

Module Spec.

Import UniversalHTMLParser.

(** [n / d] rounded up, for [0 < d]. *)
Definition ceil_div (n d : Z) : Z := (- ((- n) / d))%Z.

(** The read time as the specification words it: the word count over
    200, rounded up, at least 1. *)
Definition read_time (words : Z) : Z := Z.max 1 (ceil_div words 200).

(** The content a [meta] start tag assigns to the description: the tag
    names the description or its Open Graph form and has a content. *)
Definition meta_description (ev : event) : option string :=
  match ev with
  | StartTag tag attrs =>
      if String.eqb tag "meta" then
        let d := dict attrs in
        match get d "name", get d "property", get d "content" with
        | Some name, Some property_name, Some (String _ _ as content) =>
            if String.eqb (PyStr.lower name) "description"
               || String.eqb (PyStr.lower property_name) "og:description"
            then Some content else None
        | _, _, _ => None
        end
      else None
  | _ => None
  end.

(** The words of a list of paragraphs, as [handle_endtag] counts them. *)
Definition paragraph_words (ps : list string) : Z :=
  foldr (fun p total => (Z.of_nat (length (PyStr.split_ws p)) + total)%Z) 0%Z ps.


(** The value the classifier gives for an [@type] member. *)
Definition first_or_self (v : json) : json :=
  match v with
  | JArr (first :: _) => first
  | _ => v
  end.




(** What a compressed page holds for a page: the cut title and
    description, and each optional key with the condition of its
    presence and the value it then has. *)
Definition summary_of (page : WebsiteScanner.Page)
  (compressed : gmap string LLMRGenerator.value) : Prop :=
  (exists ti, compressed !! "ti" = Some (LLMRGenerator.VStr ti)
     /\ String.length ti <= 100
     /\ ti = PyStr.str_take 100 (WebsiteScanner.page_title page))
  /\ (exists d, compressed !! "d" = Some (LLMRGenerator.VStr d)
        /\ String.length d <= 200
        /\ (200 < String.length (WebsiteScanner.page_description page) ->
            String.length d = 200)
        /\ d = PyStr.str_take 200 (WebsiteScanner.page_description page)
        /\ String.length d
           = Nat.min 200 (String.length (WebsiteScanner.page_description page))
        /\ exists cut, WebsiteScanner.page_description page = (d ++ cut)%string)
  /\ (is_Some (compressed !! "l") <->
      exists lang, WebsiteScanner.page_language page = Some lang
        /\ lang <> EmptyString /\ lang <> "en")
  /\ (forall v, compressed !! "l" = Some v ->
        exists lang, v = LLMRGenerator.VStr lang
          /\ WebsiteScanner.page_language page = Some lang
          /\ lang <> EmptyString)
  /\ (is_Some (compressed !! "a") <->
      WebsiteScanner.page_author page <> EmptyString)
  /\ (forall v, compressed !! "a" = Some v ->
        v = LLMRGenerator.VStr (WebsiteScanner.page_author page))
  /\ (is_Some (compressed !! "sd") <->
      WebsiteScanner.page_has_structured_data page = true)
  /\ (forall v, compressed !! "sd" = Some v -> v = LLMRGenerator.VInt 1)
  /\ (is_Some (compressed !! "cb") <->
      (0 < WebsiteScanner.page_code_blocks_count page)%Z)
  /\ (forall v, compressed !! "cb" = Some v ->
        v = LLMRGenerator.VInt (WebsiteScanner.page_code_blocks_count page))
  /\ (is_Some (compressed !! "h1") <->
      exists first rest,
        WebsiteScanner.page_headings page !! "h1" = Some (first :: rest))
  /\ (forall v, compressed !! "h1" = Some v ->
        exists first rest,
          WebsiteScanner.page_headings page !! "h1" = Some (first :: rest)
          /\ v = LLMRGenerator.VStr (PyStr.str_take 100 first)).

End Spec.

(** ** Concrete documents and pages *)

Module Samples.

Import UniversalHTMLParser WebsiteScanner.

(** The double quote, as a one-character string. *)
Definition dq : string := String "034" EmptyString.

Definition json_ld_script (text : string) : list event :=
  [ StartTag "script" [("type", Some "application/ld+json")];
    Data text;
    EndTag "script" ].

(** A paragraph of 250 one-letter words. *)
Definition doc_250_words : list event :=
  [ StartTag "p" []; Data (PyStr.join " " (replicate 250 "w")); EndTag "p" ].

(** A paragraph closed after a line break: the [br] is still on the
    stack when the paragraph closes. *)
Definition doc_paragraph_break : list event :=
  [ StartTag "p" []; Data "Hello"; StartTag "br" [] ].


(** Two description [meta] tags. *)
Definition doc_two_descriptions : list event :=
  [ StartTag "meta" [("name", Some "description"); ("content", Some "first")];
    StartTag "meta" [("property", Some "og:description"); ("content", Some "second")] ].

(** Two JSON-LD blocks with different types. *)
Definition doc_two_types : list event :=
  json_ld_script ("{" ++ dq ++ "@type" ++ dq ++ ": " ++ dq ++ "Article" ++ dq ++ "}")
  ++ json_ld_script ("{" ++ dq ++ "@type" ++ dq ++ ": " ++ dq ++ "Product" ++ dq ++ "}").

(** A JSON-LD block whose type is a sequence. *)
Definition doc_type_sequence : list event :=
  json_ld_script
    ("{" ++ dq ++ "@type" ++ dq ++ ": [" ++ dq ++ "Article" ++ dq ++ ", "
     ++ dq ++ "BlogPosting" ++ dq ++ "]}").

(** A malformed JSON-LD block, then a well-formed one. *)
Definition invalid_json : string := "{invalid json".

Definition doc_invalid_json : list event := json_ld_script invalid_json.

Definition doc_invalid_then_valid : list event :=
  json_ld_script invalid_json
  ++ json_ld_script ("{" ++ dq ++ "@type" ++ dq ++ ": " ++ dq ++ "Article" ++ dq ++ "}").

(** A JSON-LD block that holds a JSON string. *)
Definition type_in_string : string := dq ++ "has @type inside" ++ dq.

Definition doc_json_string : list event := json_ld_script type_in_string.

(** A well-formed JSON-LD object of type [Article]. *)
Definition article_block : string :=
  "{" ++ dq ++ "@type" ++ dq ++ ": " ++ dq ++ "Article" ++ dq ++ "}".

(** The block that holds a JSON string, then a block that holds an
    [Article] object. *)
Definition doc_string_then_article : list event :=
  json_ld_script type_in_string ++ json_ld_script article_block.

(** A block whose [@type] is the empty list, then an [Article] object. *)
Definition doc_empty_type_then_article : list event :=
  json_ld_script ("{" ++ dq ++ "@type" ++ dq ++ ": []}")
  ++ json_ld_script article_block.


(** A paragraph left open before a style sheet and a heading. *)
Definition doc_style_after_open_paragraph : list event :=
  [ StartTag "p" []; Data "foo";
    StartTag "style" []; Data "x{}"; EndTag "style";
    StartTag "h1" []; Data "bar"; EndTag "h1" ].

(** A record with two declared keywords and no text. *)
Definition parser_two_keywords : Parser :=
  set_keywords ["alpha"; "beta"] (init EmptyString).

(** A page as the scanner builds it for a document without content. *)
Definition blank_page (id : string) : Page :=
  {| page_id := id;
     page_url := "/" ++ id ++ ".html";
     page_type := JStr "WebPage";
     page_title := EmptyString;
     page_description := EmptyString;
     page_keywords := [];
     page_author := EmptyString;
     page_language := Some "en";
     page_word_count := 0;
     page_read_time := 0;
     page_headings := ∅;
     page_links_count := 0;
     page_images_count := 0;
     page_videos_count := 0;
     page_code_blocks_count := 0;
     page_has_structured_data := false;
     page_embedding := replicate 16 (0 # 1) |}.

Definition with_code_blocks (n : Z) (p : Page) : Page :=
  mkPage (page_id p) (page_url p) (page_type p) (page_title p)
    (page_description p) (page_keywords p) (page_author p) (page_language p)
    (page_word_count p) (page_read_time p) (page_headings p)
    (page_links_count p) (page_images_count p) (page_videos_count p) n
    (page_has_structured_data p) (page_embedding p).

Definition with_language (lang : option string) (p : Page) : Page :=
  mkPage (page_id p) (page_url p) (page_type p) (page_title p)
    (page_description p) (page_keywords p) (page_author p) lang
    (page_word_count p) (page_read_time p) (page_headings p)
    (page_links_count p) (page_images_count p) (page_videos_count p)
    (page_code_blocks_count p) (page_has_structured_data p) (page_embedding p).

(** Two pages, one with two code blocks and one with none. *)
Definition two_pages : list Page :=
  [ with_code_blocks 2 (blank_page "a"); blank_page "b" ].

(** The page of a document whose root element has an empty [lang]. *)
Definition page_empty_lang : Page := with_language (Some EmptyString) (blank_page "index").

End Samples.

(** ** Shapes of event streams *)

Module Stream.

Import UniversalHTMLParser.

(** Streams in which every start tag is closed by its end tag, in
    nesting order. *)
Inductive balanced : list event -> Prop :=
| balanced_nil : balanced []
| balanced_data data rest : balanced rest -> balanced (Data data :: rest)
| balanced_element tag attrs body rest :
    balanced body -> balanced rest ->
    balanced (StartTag tag attrs :: body ++ EndTag tag :: rest).

Definition opens (name : string) (ev : event) : bool :=
  match ev with
  | StartTag tag _ => String.eqb tag name
  | _ => false
  end.

(** The start tags that open a link: an [a] with an [href]. *)
Definition opens_link (ev : event) : bool :=
  match ev with
  | StartTag tag attrs => String.eqb tag "a" && has_key (dict attrs) "href"
  | _ => false
  end.

(** The start tags that open a code block. *)
Definition opens_code (ev : event) : bool :=
  match ev with
  | StartTag tag _ => is_code_tag tag
  | _ => false
  end.

(** The [meta] start tags that carry [name] or [property] without a
    value. *)
Definition meta_without_value (ev : event) : bool :=
  match ev with
  | StartTag tag attrs =>
      String.eqb tag "meta"
      && (bool_decide (dict attrs !! "name" = Some None)
          || bool_decide (dict attrs !! "property" = Some None))
  | _ => false
  end.

(** An entry as a closing tag stores it: not empty, without surrounding
    white space. *)
Definition clean_entry (p : string) : Prop :=
  p <> EmptyString /\ PyStr.strip p = p.

(** A keyword as the [keywords] rule stores it: not empty, without
    surrounding white space, without comma. *)
Definition clean_keyword (k : string) : Prop :=
  k <> EmptyString /\ PyStr.strip k = k /\ PyStr.contains "," k = false.

End Stream.

(** ** Further sample documents *)

Module Documents.

Import UniversalHTMLParser.

(** An Open Graph title and a second [title] element, met after the
    title is set. *)
Definition doc_retitle : list event :=
  [ StartTag "meta" [("property", Some "og:title"); ("content", Some "Second")];
    StartTag "title" []; Data "Third"; EndTag "title" ].

(** A paragraph with an emphasized word, every tag closed. *)
Definition doc_nested : list event :=
  [ StartTag "p" []; Data "plain"; StartTag "b" []; Data "bold"; EndTag "b";
    EndTag "p" ].

(** A page with a picture, a link, a code block and two headings. *)
Definition doc_media : list event :=
  [ StartTag "h1" []; Data " Guide "; EndTag "h1";
    StartTag "img" [("src", Some "a.png")];
    StartTag "a" [("href", Some "/next")]; Data "next"; EndTag "a";
    StartTag "a" []; Data "anchor"; EndTag "a";
    StartTag "pre" []; Data "x = 1"; EndTag "pre";
    StartTag "p" []; Data "two words"; EndTag "p" ].

(** A [meta] tag whose [name] has no value. *)
Definition meta_name_without_value : event :=
  StartTag "meta" [("name", None); ("content", Some "text")].

(** A list of keywords with blanks and an empty item. *)
Definition doc_keywords : list event :=
  [ StartTag "meta"
      [("name", Some "Keywords"); ("content", Some " rocq , proof ,, html ")] ].


End Documents.

(** ** [ContentTypeDetector.extract_schema_data] *)

Module SchemaData.

Import UniversalHTMLParser.

(** The keys copied from the JSON-LD objects. *)
Definition recognized : list string :=
  [ "datePublished"; "dateModified"; "headline"; "articleBody";
    "keywords"; "author"; "publisher"; "image" ].

Definition of_str (s : string) : json := JStr s.

(** A possibly-[None] string as a value of the dict. *)
Definition of_opt (v : option string) : json :=
  match v with
  | Some s => JStr s
  | None => JNull
  end.

(** The dict [data] as first built. *)
Definition base (parser : Parser) (content_type : json) : gmap string json :=
  <["type" := content_type]>
  (<["title" := of_str (title parser)]>
  (<["description" := of_str (description parser)]>
  (<["author" := of_str (author parser)]>
  (<["language" := of_opt (language parser)]> ∅)))).

(** The inner loop, for one entry of the JSON-LD collection: only a dict
    is read. *)
Definition copy_keys (data : gmap string json) (ld : json) : gmap string json :=
  match ld with
  | JObj members =>
      foldl (fun data key =>
               match PyJson.lookup key members with
               | Some v => <[key := v]> data
               | None => data
               end)
        data recognized
  | _ => data
  end.

(** [extract_schema_data] *)
Definition extract_schema_data (parser : Parser) (content_type : json)
  : gmap string json :=
  foldl copy_keys (base parser content_type) (json_ld_data parser).

(** The value of a key in the last JSON-LD object that has it. *)
Definition last_value (key : string) (data : list json) : option json :=
  last (omap (fun ld =>
                match ld with
                | JObj members => PyJson.lookup key members
                | _ => None
                end) data).

Definition is_object (ld : json) : bool :=
  match ld with JObj _ => true | _ => false end.

(** The entries on which [detect_type] does not raise: an object whose
    [@type], when it has one, is not the empty list. *)
Definition typed_object (ld : json) : bool :=
  match ld with
  | JObj members =>
      match PyJson.lookup "@type" members with
      | Some (JArr []) => false
      | _ => true
      end
  | _ => false
  end.

End SchemaData.

(** ** [WebsiteScanner.scan], [_extract_site_metadata],
    [LLMRGenerator.generate] and the local mode of [main] *)

Module Site.

Import UniversalHTMLParser WebsiteScanner LLMRGenerator.

(** An HTML file found under the base path: [stem] is [html_path.stem],
    [url] the relative URL built from its path, [content] the handler
    calls that its text causes, or [None] when opening or decoding the
    file raises. *)
Record File : Type := mkFile {
  stem : string;
  url : string;
  content : option (list event)
}.

(** [WebsiteScanner.site_metadata]; [content_types] is the dict of the
    counter, in insertion order. *)
Record SiteMetadata : Type := mkSiteMetadata {
  site_title : string;
  site_description : string;
  site_author : string;
  site_nav_links : list string;
  site_content_types : list (json * Z)
}.

(** [site_metadata] as [WebsiteScanner.__init__] sets it. *)
Definition init_metadata : SiteMetadata :=
  mkSiteMetadata EmptyString EmptyString EmptyString [] [].

(** The values that can be the key of a dict: a list and a dict are not
    hashable. *)
Definition hashable (j : json) : bool :=
  match j with
  | JArr _ | JObj _ => false
  | _ => true
  end.

(** [p["url"] in ["/", "/index.html"]] *)
Definition is_homepage (p : Page) : bool :=
  String.eqb (page_url p) "/" || String.eqb (page_url p) "/index.html".

(** The dict [llmr_data] of [generate]. *)
Record LLMRData : Type := mkLLMRData {
  llmr_version : string;
  llmr_generated : string;
  llmr_timestamp : Z;
  llmr_site_title : string;
  llmr_site_description : string;
  llmr_site_author : string;
  llmr_site_base_url : string;
  llmr_site_content_types : list (json * Z);
  llmr_site_total_pages : Z;
  llmr_pages : list (gmap string value);
  llmr_stats : gmap string value
}.

Section Site.

Variable json_loads : string -> result json.
Variable md5_int : string -> Z.
Variable order : KeywordExtractor.SetIter.

(** [dict(Counter(types))] on hashable values. *)
Variable counter : list json -> list (json * Z).

(** [set] followed by [list], in [_generate_stats]. *)
Variable langs : list (option string) -> list (option string).

(** [datetime.now().isoformat()] and [int(datetime.now().timestamp())] *)
Variable generated : string.
Variable timestamp : Z.

Variable base_url : string.

(** One round of the loop of [scan]: every exception of [_process_page]
    is caught and the file is skipped; the dict of a page is never
    empty, so a page that is returned is appended. *)
Definition scan_file (pages : list Page) (html_file : File) : list Page :=
  match content html_file with
  | None => pages
  | Some evs =>
      match _process_page json_loads md5_int order base_url
              (stem html_file) (url html_file) evs with
      | Ok page_data => (pages ++ [page_data])%list
      | Raise _ => pages
      end
  end.

(** [self.pages] after the loop of [scan]. *)
Definition scan_pages (html_files : list File) : list Page :=
  foldl scan_file [] html_files.

(** [_extract_site_metadata]: the counter hashes every type, and raises
    on a type that is not hashable. *)
Definition _extract_site_metadata (pages : list Page)
  (site_metadata : SiteMetadata) : result SiteMetadata :=
  let homepage := head (filter (fun p => is_homepage p) pages) in
  let site_metadata :=
    match homepage with
    | Some homepage =>
        mkSiteMetadata (page_title homepage) (page_description homepage)
          (page_author homepage) (site_nav_links site_metadata)
          (site_content_types site_metadata)
    | None => site_metadata
    end in
  if forallb (fun p => hashable (page_type p)) pages then
    Ok (mkSiteMetadata (site_title site_metadata)
          (site_description site_metadata) (site_author site_metadata)
          (site_nav_links site_metadata) (counter (map page_type pages)))
  else Raise TypeError.

(** [scan], on the HTML files found; the call of
    [_extract_site_metadata] is outside the [try]. *)
Definition scan (html_files : list File) : result (list Page * SiteMetadata) :=
  let pages := scan_pages html_files in
  site_metadata ← _extract_site_metadata pages init_metadata;
  Ok (pages, site_metadata).

(** [generate]: the dict is built, then written to the output file and
    returned; an exception while it is built leaves no file. *)
Definition generate (pages : list Page) (site_metadata : SiteMetadata)
  : result LLMRData :=
  let compressed := _compress_pages pages in
  stats ← _generate_stats langs pages;
  Ok {| llmr_version := "2.0";
        llmr_generated := generated;
        llmr_timestamp := timestamp;
        llmr_site_title := site_title site_metadata;
        llmr_site_description := site_description site_metadata;
        llmr_site_author := site_author site_metadata;
        llmr_site_base_url := base_url;
        llmr_site_content_types := site_content_types site_metadata;
        llmr_site_total_pages := Z.of_nat (length pages);
        llmr_pages := compressed;
        llmr_stats := stats |}.

(** The local mode of [main] up to the return of [generate]: scan, then
    generate; the report printed afterwards is left out. *)
Definition main_local (html_files : list File) : result LLMRData :=
  scanned ← scan html_files;
  generate scanned.1 scanned.2.

End Site.

(** A file whose only content is a JSON-LD block. *)
Definition json_ld_file (stem text : string) : File :=
  mkFile stem ("/" ++ stem ++ ".html")%string
    (Some (Samples.json_ld_script text)).

(** A JSON-LD block whose type is an object. *)
Definition object_type_file : File :=
  json_ld_file "typed"
    ("{" ++ Samples.dq ++ "@type" ++ Samples.dq ++ ": {}}")%string.

(** A file with a [meta] tag whose [name] has no value. *)
Definition valueless_meta_file : File :=
  mkFile "broken" "/broken.html"
    (Some [StartTag "meta" [("name", None); ("content", Some "x")]]).

(** A file with a title, a heading, a paragraph and a code block. *)
Definition plain_file (stem : string) : File :=
  mkFile stem ("/" ++ stem ++ ".html")%string
    (Some [StartTag "title" []; Data "Home"; EndTag "title";
           StartTag "h1" []; Data "Welcome"; EndTag "h1";
           StartTag "p" []; Data "hello world"; EndTag "p";
           StartTag "pre" []; Data "x = 1"; EndTag "pre"]).

End Site.

(** ** The embedding providers of [embedding_integration.py] *)

Module Providers.

(** The exceptions of this file; [LibraryError] stands for whatever an
    embedding library raises. *)
Inductive error : Type :=
| ImportError
| ValueError
| NotImplementedError
| LibraryError.

Inductive outcome (A : Type) : Type :=
| Returns (a : A)
| Raises (e : error).

Arguments Returns {A} a.
Arguments Raises {A} e.

(** The truth value of an optional string: [None] and the empty string
    are false. *)
Definition truthy (v : option string) : bool :=
  match v with
  | Some s => UniversalHTMLParser.nonempty s
  | None => false
  end.

(** The keyword arguments that the constructors read; a key that is not
    passed is [None], every other key is swallowed by [**kwargs]. *)
Record Kwargs : Type := mkKwargs {
  api_key : option string;
  model : option string;
  device : option string;
  dimensions : option Z;
  openai_api_key : option string;
  cohere_api_key : option string
}.

Definition no_kwargs : Kwargs := mkKwargs None None None None None None.

(** The provider objects, with the attributes their constructors set. *)
Inductive Provider : Type :=
| SentenceTransformer (model : string) (dimensions : Z)
| OpenAI (model : string) (dimensions : Z)
| Cohere (model : string) (dimensions : Z)
| Hash (self : HashEmbeddings.t).

Section Factory.

(** The flags set by the imports at the top of the file. *)
Variable HAS_SENTENCE_TRANSFORMERS : bool.
Variable HAS_OPENAI : bool.
Variable HAS_COHERE : bool.
Variable HAS_ANTHROPIC : bool.

(** [SentenceTransformer(model, device=device)] followed by
    [get_sentence_embedding_dimension()]. *)
Variable load_model : string -> string -> outcome Z.

(** [cohere.Client(api_key)] *)
Variable cohere_Client : string -> outcome unit.

(** [SentenceTransformerEmbeddings.__init__] *)
Definition SentenceTransformerEmbeddings (kwargs : Kwargs) : outcome Provider :=
  let model := default "all-MiniLM-L6-v2" (model kwargs) in
  let device := default "cpu" (device kwargs) in
  match load_model model device with
  | Returns dimensions => Returns (SentenceTransformer model dimensions)
  | Raises e => Raises e
  end.

(** [OpenAIEmbeddings.__init__]; the key is stored in the module
    [openai]. *)
Definition OpenAIEmbeddings (kwargs : Kwargs) : outcome Provider :=
  let model := default "text-embedding-3-small" (model kwargs) in
  let dimensions :=
    if PyStr.contains "small" model || PyStr.contains "ada" model
    then 1536%Z else 3072%Z in
  Returns (OpenAI model dimensions).

(** [CohereEmbeddings.__init__] *)
Definition CohereEmbeddings (kwargs : Kwargs) : outcome Provider :=
  let model := default "embed-english-v3.0" (model kwargs) in
  match api_key kwargs with
  | Some (String _ _ as api_key) =>
      match cohere_Client api_key with
      | Returns _ =>
          let dimensions :=
            if negb (PyStr.contains "light" model) then 1024%Z else 384%Z in
          Returns (Cohere model dimensions)
      | Raises e => Raises e
      end
  | _ => Raises ValueError
  end.

(** [AnthropicEmbeddings.__init__] *)
Definition AnthropicEmbeddings (kwargs : Kwargs) : outcome Provider :=
  Raises NotImplementedError.

(** [HashEmbeddings.__init__], called with the keyword arguments. *)
Definition HashEmbeddings_ (kwargs : Kwargs) : outcome Provider :=
  Returns (Hash (HashEmbeddings.mk (default 16%Z (dimensions kwargs)))).

(** [EmbeddingProviderFactory.create] *)
Definition create (provider : string) (kwargs : Kwargs) : outcome Provider :=
  if String.eqb provider "auto" then
    if HAS_SENTENCE_TRANSFORMERS then SentenceTransformerEmbeddings kwargs
    else if HAS_OPENAI && truthy (openai_api_key kwargs)
    then OpenAIEmbeddings kwargs
    else if HAS_COHERE && truthy (cohere_api_key kwargs)
    then CohereEmbeddings kwargs
    else HashEmbeddings_ kwargs
  else if String.eqb provider "sentence-transformers" then
    if negb HAS_SENTENCE_TRANSFORMERS then Raises ImportError
    else SentenceTransformerEmbeddings kwargs
  else if String.eqb provider "openai" then
    if negb HAS_OPENAI then Raises ImportError else OpenAIEmbeddings kwargs
  else if String.eqb provider "cohere" then
    if negb HAS_COHERE then Raises ImportError else CohereEmbeddings kwargs
  else if String.eqb provider "anthropic" then
    if negb HAS_ANTHROPIC then Raises ImportError else AnthropicEmbeddings kwargs
  else if String.eqb provider "hash" then HashEmbeddings_ kwargs
  else Raises ValueError.

(** The keyword arguments that [main] builds from the command line:
    both keys are stored under [api_key], the Cohere key last. *)
Definition cli_kwargs (openai_api_key cohere_api_key model : option string)
  : Kwargs :=
  let kwargs := no_kwargs in
  let kwargs :=
    if truthy openai_api_key
    then mkKwargs openai_api_key (Providers.model kwargs) (device kwargs)
           (dimensions kwargs) (Providers.openai_api_key kwargs)
           (Providers.cohere_api_key kwargs)
    else kwargs in
  let kwargs :=
    if truthy cohere_api_key
    then mkKwargs cohere_api_key (Providers.model kwargs) (device kwargs)
           (dimensions kwargs) (Providers.openai_api_key kwargs)
           (Providers.cohere_api_key kwargs)
    else kwargs in
  if truthy model
  then mkKwargs (api_key kwargs) model (device kwargs) (dimensions kwargs)
         (Providers.openai_api_key kwargs) (Providers.cohere_api_key kwargs)
  else kwargs.

End Factory.

(** *** [embed_batch] of [OpenAIEmbeddings] and of [CohereEmbeddings] *)

Section Api.

(** The call made inside the [try] for one batch, with the embeddings of
    its response; [None] when it raises. *)
Variable request : list string -> option (list (list Q)).

(** [self.dimensions] *)
Variable dimensions : Z.

(** [[0.0] * self.dimensions] *)
Definition zero_vector : list Q := replicate (Z.to_nat dimensions) (0 # 1)%Q.

(** [range(0, n, step)] for a positive step. *)
Definition range_step (n step : nat) : list nat :=
  map (fun k => k * step) (seq 0 ((n + step - 1) / step)).

(** The vectors that one round of the loop appends. *)
Definition batch_embeddings (batch : list string) : list (list Q) :=
  match request batch with
  | Some embeddings => embeddings
  | None => replicate (length batch) zero_vector
  end.

(** [embed_batch]: [range] raises on a step of zero and is empty for a
    negative step. *)
Definition embed_batch (texts : list string) (batch_size : Z)
  : outcome (list (list Q)) :=
  match texts with
  | [] => Returns []
  | _ =>
      let texts := map (PyStr.str_take 8000) texts in
      if (batch_size =? 0)%Z then Raises ValueError
      else if (batch_size <? 0)%Z then Returns []
      else
        let step := Z.to_nat batch_size in
        Returns
          (foldl (fun embeddings i =>
                    (embeddings ++ batch_embeddings (take step (drop i texts)))%list)
             [] (range_step (length texts) step))
  end.

End Api.

End Providers.

(** * Properties *)

Local Open Scope list_scope.

(** ** The handlers, one field at a time *)

Import UniversalHTMLParser.

Ltac break_step :=
  unfold mbind, result_bind, mret, result_ret in *;
  repeat case_match; simplify_eq; try done; try congruence.

Ltac fields :=
  cbn [pop_matching headings paragraphs links code_blocks json_ld_data
       word_count estimated_read_time description current_content
       in_script tag_stack title
       set_tag_stack set_headings set_paragraphs set_links set_code_blocks
       set_json_ld_data set_word_count set_current_content set_in_script
       set_in_style set_current_tag] in *.

Section ParserFacts.

Variable json_loads : string -> result json.

(** What [_parse_meta_tag] leaves alone, and what it does to the
    description. *)
Lemma parse_meta_frame attrs s s' :
  _parse_meta_tag attrs s = Ok s' ->
  headings s' = headings s /\ paragraphs s' = paragraphs s
  /\ links s' = links s /\ code_blocks s' = code_blocks s
  /\ json_ld_data s' = json_ld_data s /\ word_count s' = word_count s
  /\ estimated_read_time s' = estimated_read_time s
  /\ tag_stack s' = tag_stack s /\ current_tag s' = current_tag s.
Proof.
  unfold _parse_meta_tag, lower. intros H. break_step.
Qed.

Lemma parse_meta_description tag attrs s s' :
  _parse_meta_tag (dict attrs) s = Ok s' ->
  String.eqb tag "meta" = true ->
  description s' = default (description s) (Spec.meta_description (StartTag tag attrs)).
Proof.
  unfold _parse_meta_tag, lower, Spec.meta_description. intros H Htag.
  rewrite Htag. break_step.
Qed.

(** A start tag finalizes nothing: it can only open a link or a code
    block, with an empty text. *)
Lemma handle_starttag_frame tag attrs s s' :
  handle_starttag tag attrs s = Ok s' ->
  headings s' = headings s /\ paragraphs s' = paragraphs s
  /\ json_ld_data s' = json_ld_data s /\ word_count s' = word_count s
  /\ estimated_read_time s' = estimated_read_time s
  /\ (links s' = links s
      \/ tag = "a" /\ exists l, links s' = links s ++ [l] /\ link_text l = EmptyString)
  /\ (code_blocks s' = code_blocks s
      \/ is_code_tag tag = true
         /\ code_blocks s' = code_blocks s ++ [mkCodeBlock tag EmptyString]).
Proof.
  unfold handle_starttag, _parse_link_tag, _parse_microdata, _parse_rdfa.
  intros H.
  destruct (String.eqb tag "meta") eqn:Hmeta.
  - unfold mbind, result_bind in H.
    destruct (_parse_meta_tag _ _) as [m|] eqn:Hm; [|done].
    apply parse_meta_frame in Hm. simpl in Hm.
    destruct Hm as (?&?&?&?&?&?&?&?&?).
    repeat case_match; simplify_eq; simpl;
      (repeat split; try congruence); left; congruence.
  - destruct (String.eqb tag "a" && has_key (dict attrs) "href") eqn:Ha.
    + apply andb_true_iff in Ha as [Ha _]. apply String.eqb_eq in Ha. subst tag.
      break_step; simpl; (repeat split; try done);
        first [ by left | right; by eauto ].
    + destruct (is_code_tag tag) eqn:Hcode;
        break_step; simpl; (repeat split; try done);
        first [ by left | right; by eauto ].
Qed.

Lemma handle_starttag_description tag attrs s s' :
  handle_starttag tag attrs s = Ok s' ->
  description s' = default (description s) (Spec.meta_description (StartTag tag attrs)).
Proof.
  unfold handle_starttag, _parse_link_tag, _parse_microdata, _parse_rdfa.
  intros H.
  destruct (String.eqb tag "meta") eqn:Hmeta.
  - unfold mbind, result_bind in H.
    destruct (_parse_meta_tag _ _) as [m|] eqn:Hm; [|done].
    eapply parse_meta_description in Hm; [|exact Hmeta].
    remember (Spec.meta_description (StartTag tag attrs)) as md.
    simpl in Hm. rewrite <- Hm. repeat case_match; simplify_eq; done.
  - unfold Spec.meta_description. rewrite Hmeta. break_step.
Qed.

(** Text data finalizes nothing either. *)
Lemma handle_data_frame data s :
  let s' := handle_data data s in
  headings s' = headings s /\ paragraphs s' = paragraphs s
  /\ links s' = links s /\ code_blocks s' = code_blocks s
  /\ json_ld_data s' = json_ld_data s /\ word_count s' = word_count s
  /\ estimated_read_time s' = estimated_read_time s
  /\ description s' = description s.
Proof.
  unfold handle_data. break_step.
Qed.

Lemma load_json_ld_frame s s' :
  load_json_ld json_loads s = Ok s' ->
  headings s' = headings s /\ paragraphs s' = paragraphs s
  /\ links s' = links s /\ code_blocks s' = code_blocks s
  /\ word_count s' = word_count s
  /\ estimated_read_time s' = estimated_read_time s
  /\ description s' = description s.
Proof.
  unfold load_json_ld. intros H. break_step.
Qed.

(** What a closing tag finalizes.  The test on the tag stack plays no
    part: every clause holds whatever the top of the stack is. *)
Lemma handle_endtag_frame tag s s' :
  handle_endtag json_loads tag s = Ok s' ->
  (headings s' = headings s
   \/ is_heading tag s = true /\ current_content s <> []
      /\ headings s' =
         <[tag := default [] (headings s !! tag) ++ [buffered s]]> (headings s))
  /\ (paragraphs s' = paragraphs s /\ word_count s' = word_count s
      \/ tag = "p" /\ current_content s <> []
         /\ paragraphs s' = paragraphs s ++ [buffered s]
         /\ word_count s' =
            (word_count s + Z.of_nat (length (PyStr.split_ws (buffered s))))%Z)
  /\ (links s' = links s
      \/ tag = "a"
         /\ links s' =
            update_last
              (fun l => mkLink (link_url l) (buffered s) (link_rel l) (link_title l))
              (links s))
  /\ (code_blocks s' = code_blocks s
      \/ is_code_tag tag = true
         /\ code_blocks s' =
            update_last (fun c => mkCodeBlock (code_tag c) (buffered s))
              (code_blocks s))
  /\ estimated_read_time s' = estimated_read_time s
  /\ description s' = description s.
Proof.
  unfold handle_endtag, is_heading, buffered. intros H. fields.
  destruct (bool_decide (is_Some (headings s !! tag))
            && negb (is_nil (current_content s))) eqn:Hh.
  { apply andb_true_iff in Hh as [Hh Hc]. unfold mbind, result_bind in H.
    assert (current_content s <> []) by (by destruct (current_content s)).
    case_match; simplify_eq; fields; repeat split; auto. }
  destruct (String.eqb tag "p" && negb (is_nil (current_content s))) eqn:Hp.
  { apply andb_true_iff in Hp as [Hp Hc]. apply String.eqb_eq in Hp.
    assert (current_content s <> []) by (by destruct (current_content s)).
    unfold mbind, result_bind in H.
    case_match; simplify_eq; fields; repeat split; auto. }
  destruct (String.eqb tag "a" && negb (is_nil (links s))
            && negb (is_nil (current_content s))) eqn:Ha.
  { apply andb_true_iff in Ha as [Ha _]. apply andb_true_iff in Ha as [Ha _].
    apply String.eqb_eq in Ha. unfold mbind, result_bind in H.
    simplify_eq; fields. repeat split; auto. }
  destruct (is_code_tag tag && negb (is_nil (code_blocks s))) eqn:Hc.
  { apply andb_true_iff in Hc as [Hc _]. unfold mbind, result_bind in H.
    simplify_eq; fields. repeat split; auto. }
  destruct (String.eqb tag "script") eqn:Hs.
  { unfold mbind, result_bind in H.
    destruct (match in_script s with JsonLdScript => _ | _ => _ end)
      as [s1|] eqn:Hload; [|done].
    assert (Hf : headings s1 = headings s /\ paragraphs s1 = paragraphs s
      /\ links s1 = links s /\ code_blocks s1 = code_blocks s
      /\ word_count s1 = word_count s
      /\ estimated_read_time s1 = estimated_read_time s
      /\ description s1 = description s).
    { repeat case_match; simplify_eq; fields;
        first [ done | by apply load_json_ld_frame in Hload ]. }
    destruct Hf as (?&?&?&?&?&?&?).
    simplify_eq; fields. repeat split; auto; congruence. }
  unfold mbind, result_bind in H.
  repeat case_match; simplify_eq; fields; repeat split; auto.
Qed.

End ParserFacts.
(** ** The parse as a whole *)

Section StreamFacts.

Variable json_loads : string -> result json.

Lemma handle_read_time ev s s' :
  handle json_loads ev s = Ok s' ->
  estimated_read_time s' = estimated_read_time s.
Proof.
  destruct ev as [tag attrs|tag|data]; simpl; intros H.
  - by apply handle_starttag_frame in H as (_&_&_&_&?&_).
  - by apply handle_endtag_frame in H as (_&_&_&_&?&_).
  - simplify_eq. apply handle_data_frame.
Qed.

Lemma feed_read_time evs s s' :
  feed json_loads evs s = Ok s' ->
  estimated_read_time s' = estimated_read_time s.
Proof.
  revert s. induction evs as [|ev evs IH]; simpl; intros s H.
  - by simplify_eq.
  - unfold mbind, result_bind in H.
    destruct (handle json_loads ev s) as [s1|] eqn:H1; [|done].
    rewrite (IH _ H). by eapply handle_read_time.
Qed.

Lemma paragraph_words_app ps p :
  Spec.paragraph_words (ps ++ [p]) =
  (Spec.paragraph_words ps + Z.of_nat (length (PyStr.split_ws p)))%Z.
Proof.
  induction ps as [|q ps IH]; simpl; [lia|]. rewrite IH. lia.
Qed.

Lemma handle_word_count ev s s' :
  handle json_loads ev s = Ok s' ->
  word_count s = Spec.paragraph_words (paragraphs s) ->
  word_count s' = Spec.paragraph_words (paragraphs s').
Proof.
  destruct ev as [tag attrs|tag|data]; simpl; intros H Hinv.
  - apply handle_starttag_frame in H as (_&Hp&_&Hw&_). by rewrite Hp, Hw.
  - apply handle_endtag_frame in H as (_&[[Hp Hw]|(_&_&Hp&Hw)]&_).
    + by rewrite Hp, Hw.
    + rewrite Hp, Hw, paragraph_words_app. lia.
  - simplify_eq. destruct (handle_data_frame data s) as (_&Hp&_&_&_&Hw&_).
    by rewrite Hp, Hw.
Qed.

Lemma feed_word_count evs s s' :
  feed json_loads evs s = Ok s' ->
  word_count s = Spec.paragraph_words (paragraphs s) ->
  word_count s' = Spec.paragraph_words (paragraphs s').
Proof.
  revert s. induction evs as [|ev evs IH]; simpl; intros s H Hinv.
  - by simplify_eq.
  - unfold mbind, result_bind in H.
    destruct (handle json_loads ev s) as [s1|] eqn:H1; [|done].
    eapply IH; [done|]. by eapply handle_word_count.
Qed.

(** C3 (as amended): after the parse and the one call of
    [calculate_read_time], the read time is the word count over 200
    rounded to the nearest integer, a tie going to the even one, and at
    least 1, when the document counts a word; it is left at 0 when the
    word count is 0, which is the case of a document without paragraph. *)
Theorem read_time_after_parse base evs s :
  parse json_loads base evs = Ok s ->
  estimated_read_time s =
    (if (0 <? word_count s)%Z
     then Z.max 1 (round_div (word_count s) 200) else 0%Z)
  /\ (paragraphs s = [] -> word_count s = 0%Z /\ estimated_read_time s = 0%Z).
Proof.
  unfold parse, mbind, result_bind. intros H.
  destruct (feed json_loads evs (init base)) as [s0|] eqn:Hfeed; [|done].
  pose proof (feed_read_time _ _ _ Hfeed) as Hrt.
  pose proof (feed_word_count _ _ _ Hfeed eq_refl) as Hwc.
  simpl in Hrt. simplify_eq. unfold calculate_read_time.
  destruct (0 <? word_count s0)%Z eqn:Hpos; simpl.
  - rewrite Hpos. split; [done|]. intros Hp. rewrite Hp in Hwc. simpl in Hwc.
    apply Z.ltb_lt in Hpos. lia.
  - rewrite Hpos. split; [done|]. intros Hp. rewrite Hp in Hwc. simpl in Hwc.
    by rewrite Hrt, Hwc.
Qed.

End StreamFacts.

(** At the empty document the read time is 0 where the specification
    gives 1, and 250 words give 1 where rounding up gives 2. *)
Lemma read_time_not_rounded_up :
  (exists s, parse JsonRef.loads EmptyString [] = Ok s
     /\ paragraphs s = [] /\ word_count s = 0%Z
     /\ estimated_read_time s = 0%Z
     /\ Spec.read_time (word_count s) = 1%Z)
  /\ (exists s, parse JsonRef.loads EmptyString Samples.doc_250_words = Ok s
        /\ word_count s = 250%Z
        /\ estimated_read_time s = 1%Z
        /\ Spec.read_time (word_count s) = 2%Z).
Proof.
  split; eexists; (split; [vm_compute; reflexivity|]); vm_compute; done.
Qed.

Lemma read_time_after_parse_witness :
  exists s, parse JsonRef.loads EmptyString Samples.doc_250_words = Ok s
    /\ estimated_read_time s =
         (if (0 <? word_count s)%Z
          then Z.max 1 (round_div (word_count s) 200) else 0%Z).
Proof.
  destruct (parse JsonRef.loads EmptyString Samples.doc_250_words) as [s|] eqn:H.
  - exists s. split; [reflexivity|].
    apply (read_time_after_parse JsonRef.loads EmptyString Samples.doc_250_words s H).
  - vm_compute in H. discriminate H.
Defined.
(** ** The description *)

Section Description.

Variable json_loads : string -> result json.

Lemma handle_description ev s s' :
  handle json_loads ev s = Ok s' ->
  description s' = default (description s) (Spec.meta_description ev).
Proof.
  destruct ev as [tag attrs|tag|data]; simpl; intros H.
  - by apply handle_starttag_description.
  - by apply handle_endtag_frame in H as (_&_&_&_&_&?).
  - simplify_eq. apply handle_data_frame.
Qed.

Lemma feed_description evs s s' :
  feed json_loads evs s = Ok s' ->
  description s' = default (description s) (last (omap Spec.meta_description evs)).
Proof.
  revert s. induction evs as [|ev evs IH]; simpl; intros s H.
  - by simplify_eq.
  - unfold mbind, result_bind in H.
    destruct (handle json_loads ev s) as [s1|] eqn:H1; [|done].
    rewrite (IH _ H), (handle_description _ _ _ H1).
    destruct (Spec.meta_description ev) as [c|]; simpl; [|done].
    rewrite last_cons. by destruct (last _).
Qed.

(** C4 (as amended): when a document has [meta] tags that target the
    description, each with a content, the description of the record is
    the content of the last of them: every such tag overwrites the
    field. *)
Theorem description_last_meta base evs s c :
  parse json_loads base evs = Ok s ->
  last (omap Spec.meta_description evs) = Some c ->
  description s = c.
Proof.
  unfold parse, mbind, result_bind. intros H Hlast.
  destruct (feed json_loads evs (init base)) as [s0|] eqn:Hfeed; [|done].
  apply feed_description in Hfeed. rewrite Hlast in Hfeed. simpl in Hfeed.
  simplify_eq. unfold calculate_read_time. by case_match.
Qed.

End Description.

(** With two description tags the record holds the second content, not
    the first. *)
Lemma description_first_overwritten :
  exists s, parse JsonRef.loads EmptyString Samples.doc_two_descriptions = Ok s
    /\ omap Spec.meta_description Samples.doc_two_descriptions = ["first"; "second"]
    /\ description s = "second"
    /\ description s <> "first".
Proof.
  eexists. split; [vm_compute; reflexivity|]. by vm_compute.
Qed.

Lemma description_last_meta_witness :
  exists s, parse JsonRef.loads EmptyString Samples.doc_two_descriptions = Ok s
    /\ last (omap Spec.meta_description Samples.doc_two_descriptions) = Some "second"
    /\ description s = "second".
Proof.
  destruct (parse JsonRef.loads EmptyString Samples.doc_two_descriptions)
    as [s|] eqn:H.
  - exists s. split; [reflexivity|].
    assert (Hlast : last (omap Spec.meta_description Samples.doc_two_descriptions)
                    = Some "second") by (vm_compute; reflexivity).
    split; [exact Hlast|].
    exact (description_last_meta JsonRef.loads EmptyString
             Samples.doc_two_descriptions s "second" H Hlast).
  - vm_compute in H. discriminate H.
Defined.
(** ** Finalization of headings, paragraphs, links and code blocks *)

Section Finalization.

Variable json_loads : string -> result json.




End Finalization.


(** The text of a paragraph left open is lost when a style sheet closes
    before the next heading. *)
Example unclosed_text_lost_at_style :
  exists s,
    feed JsonRef.loads Samples.doc_style_after_open_paragraph (init EmptyString)
      = Ok s
    /\ headings s !! "h1" = Some ["bar"]
    /\ paragraphs s = []
    /\ current_content s = [].
Proof.
  eexists. split; [vm_compute; reflexivity|]. by vm_compute.
Qed.

(** ** Parses that run to the end *)

Section Totality.

Variable json_loads : string -> result json.

(** The decoder signals a malformed text by [JSONDecodeError] only. *)
Hypothesis json_loads_raises :
  forall text e, json_loads text = Raise e -> e = JSONDecodeError.




End Totality.

(** ** JSON-LD blocks *)

Section JsonLd.

Variable json_loads : string -> result json.

Lemma feed_app evs1 evs2 s :
  feed json_loads (evs1 ++ evs2) s =
  (s1 ← feed json_loads evs1 s; feed json_loads evs2 s1).
Proof.
  revert s. induction evs1 as [|ev evs1 IH]; simpl; intros s; [done|].
  unfold mbind, result_bind. destruct (handle json_loads ev s); [apply IH|done].
Qed.









End JsonLd.



(** The scenario of the specification, and a document that mixes a
    malformed block with a well-formed one. *)
Example malformed_block_scenario :
  (exists s, parse JsonRef.loads EmptyString Samples.doc_invalid_json = Ok s
     /\ json_ld_data s = [])
  /\ (exists s, parse JsonRef.loads EmptyString Samples.doc_invalid_then_valid = Ok s
        /\ json_ld_data s = [JObj [("@type", JStr "Article")]]).
Proof.
  split; eexists; (split; [vm_compute; reflexivity|]); reflexivity.
Qed.
(** ** The content-type classifier *)

Section Classifier.

Import ContentTypeDetector.

(** The loop over the JSON-LD collection skips the entries on which the
    membership test is false. *)
Lemma detect_json_ld_skip pre rest :
  Forall (fun ld => PyJson.contains "@type" ld = Ok false) pre ->
  detect_json_ld (pre ++ rest) = detect_json_ld rest.
Proof.
  induction 1 as [|ld pre Hld _ IH]; simpl; [done|].
  by rewrite Hld.
Qed.

Lemma detect_json_ld_none data :
  Forall (fun ld => PyJson.contains "@type" ld = Ok false) data ->
  detect_json_ld data = Ok None.
Proof.
  intros H. rewrite <- (app_nil_r data). by rewrite detect_json_ld_skip.
Qed.

Lemma detect_json_ld_object members v rest :
  PyJson.lookup "@type" members = Some v ->
  v <> JArr [] ->
  detect_json_ld (JObj members :: rest) = Ok (Some (Spec.first_or_self v)).
Proof.
  intros Hv Hne. cbn [detect_json_ld PyJson.contains PyJson.getitem].
  rewrite Hv. unfold mbind, result_bind.
  rewrite bool_decide_eq_true_2 by eauto.
  destruct v as [| | | | |[|x items]|]; done.
Qed.

(** A JSON string that holds the text [@type] passes the membership test
    and cannot be indexed. *)
Lemma detect_json_ld_string text rest :
  PyStr.contains "@type" text = true ->
  detect_json_ld (JStr text :: rest) = Raise TypeError.
Proof.
  intros H. simpl. by rewrite H.
Qed.

(** When the entries of the JSON-LD collection that come before the
    first object with an [@type] member all fail the membership test
    without raising (objects without that member, strings and lists that
    do not hold it), the classifier returns the value of that member, or
    its first element when the value is a non-empty sequence; the later
    entries play no part.  When every entry fails the test, no microdata
    item has a type, no Open Graph type was declared and no trigger
    keyword occurs in the URL or in the content text, the classifier
    returns [WebPage]. *)
Lemma detect_type_first_json_ld parser url :
  (forall pre members post v,
     json_ld_data parser = pre ++ JObj members :: post ->
     Forall (fun ld => PyJson.contains "@type" ld = Ok false) pre ->
     PyJson.lookup "@type" members = Some v ->
     v <> JArr [] ->
     detect_type parser url = Ok (Spec.first_or_self v))
  /\ (Forall (fun ld => PyJson.contains "@type" ld = Ok false) (json_ld_data parser) ->
      detect_microdata (microdata_items parser) = None ->
      og_type parser = None ->
      detect_keyword SCHEMA_TYPES (PyStr.lower url) (content_text parser) = None ->
      detect_type parser url = Ok (JStr "WebPage")).
Proof.
  split.
  - intros pre members post v Hdata Hpre Hv Hne. unfold detect_type.
    rewrite Hdata, (detect_json_ld_skip _ _ Hpre).
    by rewrite (detect_json_ld_object _ _ _ Hv Hne).
  - intros Hdata Hmicro Hog Hkw. unfold detect_type.
    by rewrite (detect_json_ld_none _ Hdata), Hmicro, Hog, Hkw.
Qed.

(** C10: a JSON-LD script block whose text decodes to a JSON string that
    holds [@type] is collected by the parser, and the classifier raises a
    [TypeError] on the record: the membership test succeeds on the string
    and the string cannot be indexed by a key. *)
Theorem detect_type_raises_on_json_string json_loads base url :
  json_loads Samples.type_in_string = Ok (JStr "has @type inside") ->
  exists parser,
    parse json_loads base Samples.doc_json_string = Ok parser
    /\ json_ld_data parser = [JStr "has @type inside"]
    /\ PyJson.contains "@type" (JStr "has @type inside") = Ok true
    /\ PyJson.getitem "@type" (JStr "has @type inside") = Raise TypeError
    /\ detect_type parser url = Raise TypeError.
Proof.
  intros Hload. vm_compute in Hload.
  assert (Hparse :
    parse json_loads base Samples.doc_json_string =
    Ok (set_json_ld_data [JStr "has @type inside"]
          (set_tag_stack [] (init base)))).
  { vm_compute. rewrite Hload. reflexivity. }
  eexists. split; [exact Hparse|]. split; [reflexivity|].
  split; [by vm_compute|]. split; [reflexivity|].
  unfold detect_type. fields. by rewrite detect_json_ld_string.
Qed.

End Classifier.

(** C5: a document whose JSON-LD collection holds an object with the
    [@type] [Article] is not classified as [Article] when an earlier
    block holds a JSON string with the text [@type] in it, or an object
    whose [@type] is the empty list: the loop tests ["@type" in ld] on
    every entry without testing that the entry is a dict, and takes
    [schema_type[0]] without testing that the list has an element, so
    the classifier raises [TypeError], respectively [IndexError], and
    returns no type. *)
Theorem detect_type_raises_before_object :
  (exists parser,
     parse JsonRef.loads EmptyString Samples.doc_string_then_article = Ok parser
     /\ json_ld_data parser
        = [JStr "has @type inside"; JObj [("@type", JStr "Article")]]
     /\ PyJson.lookup "@type" [("@type", JStr "Article")] = Some (JStr "Article")
     /\ ContentTypeDetector.detect_type parser "/index.html" = Raise TypeError)
  /\ (exists parser,
        parse JsonRef.loads EmptyString Samples.doc_empty_type_then_article
          = Ok parser
        /\ json_ld_data parser
           = [JObj [("@type", JArr [])]; JObj [("@type", JStr "Article")]]
        /\ ContentTypeDetector.detect_type parser "/index.html"
           = Raise IndexError)
  /\ (forall parser url text rest,
        json_ld_data parser = JStr text :: rest ->
        PyStr.contains "@type" text = true ->
        ContentTypeDetector.detect_type parser url = Raise TypeError)
  /\ (forall parser url members rest,
        json_ld_data parser = JObj members :: rest ->
        PyJson.lookup "@type" members = Some (JArr []) ->
        ContentTypeDetector.detect_type parser url = Raise IndexError).
Proof.
  split; [|split; [|split]].
  - eexists. split; [vm_compute; reflexivity|]. by vm_compute.
  - eexists. split; [vm_compute; reflexivity|]. by vm_compute.
  - intros parser url text rest Hdata Htext.
    unfold ContentTypeDetector.detect_type. rewrite Hdata.
    cbn [ContentTypeDetector.detect_json_ld PyJson.contains]. by rewrite Htext.
  - intros parser url members rest Hdata Htype.
    unfold ContentTypeDetector.detect_type. rewrite Hdata.
    cbn [ContentTypeDetector.detect_json_ld PyJson.contains PyJson.getitem].
    rewrite Htype. unfold mbind, result_bind.
    by rewrite bool_decide_eq_true_2 by eauto.
Qed.

Lemma detect_type_first_json_ld_witness :
  (exists parser,
     parse JsonRef.loads EmptyString Samples.doc_type_sequence = Ok parser
     /\ json_ld_data parser =
        [] ++ JObj [("@type", JArr [JStr "Article"; JStr "BlogPosting"])] :: []
     /\ ContentTypeDetector.detect_type parser "/" = Ok (JStr "Article"))
  /\ (Forall (fun ld => PyJson.contains "@type" ld = Ok false)
        (json_ld_data (init EmptyString))
      /\ ContentTypeDetector.detect_type (init EmptyString) "/" = Ok (JStr "WebPage")).
Proof.
  split.
  - destruct (parse JsonRef.loads EmptyString Samples.doc_type_sequence)
      as [parser|] eqn:H; [|vm_compute in H; discriminate H].
    assert (Hdata : json_ld_data parser =
      [] ++ JObj [("@type", JArr [JStr "Article"; JStr "BlogPosting"])] :: []).
    { vm_compute in H. injection H as <-. reflexivity. }
    exists parser. split; [reflexivity|]. split; [exact Hdata|].
    apply (proj1 (detect_type_first_json_ld parser "/") []
             [("@type", JArr [JStr "Article"; JStr "BlogPosting"])] []
             (JArr [JStr "Article"; JStr "BlogPosting"]) Hdata).
    + constructor.
    + reflexivity.
    + discriminate.
  - split; [constructor|].
    apply (proj2 (detect_type_first_json_ld (init EmptyString) "/")).
    + constructor.
    + reflexivity.
    + reflexivity.
    + vm_compute. reflexivity.
Defined.

Lemma detect_type_raises_on_json_string_witness :
  JsonRef.loads Samples.type_in_string = Ok (JStr "has @type inside")
  /\ exists parser,
       parse JsonRef.loads EmptyString Samples.doc_json_string = Ok parser
       /\ ContentTypeDetector.detect_type parser "/index.html" = Raise TypeError.
Proof.
  assert (H : JsonRef.loads Samples.type_in_string = Ok (JStr "has @type inside"))
    by (vm_compute; reflexivity).
  split; [exact H|].
  destruct (detect_type_raises_on_json_string JsonRef.loads EmptyString
              "/index.html" H) as (parser&Hp&_&_&_&Hd).
  exists parser. split; [exact Hp|exact Hd].
Defined.

(** The round trip of the specification: a block with the type
    [Article] is classified as [Article]. *)
Example detect_type_article :
  exists parser,
    parse JsonRef.loads EmptyString Samples.doc_invalid_then_valid = Ok parser
    /\ ContentTypeDetector.detect_type parser "/index.html" = Ok (JStr "Article").
Proof.
  eexists. split; [vm_compute; reflexivity|]. by vm_compute.
Qed.
(** ** The record compressor *)

Section Compressor.

Import WebsiteScanner LLMRGenerator.

Lemma length_str_take (n : nat) s :
  String.length (PyStr.str_take (Z.of_nat n) s) = Nat.min n (String.length s).
Proof.
  unfold PyStr.str_take, PyStr.slice_to.
  destruct (Z.of_nat n <? 0)%Z eqn:Hn; [apply Z.ltb_lt in Hn; lia|].
  rewrite Nat2Z.id.
  assert (H : forall m t, m <= String.length t ->
            String.length (String.substring 0 m t) = m).
  { induction m as [|m IH]; intros [|c t]; simpl; try lia; auto.
    intros Hm. rewrite IH; lia. }
  apply H. lia.
Qed.

(** The stages of [compress_page]: the nine keys that are always set,
    then the five optional ones. *)
Ltac compress_stages key :=
  unfold compress_page; cbv zeta;
  match goal with
  | |- context [<["id" := ?v]> ?m] =>
      let base := fresh "base" in
      let Hbase := fresh "Hbase" in
      set (base := <["id" := v]> m);
      assert (Hbase : base !! key = (<["id" := v]> m : gmap string value) !! key)
        by reflexivity;
      repeat rewrite lookup_insert_ne in Hbase by done;
      rewrite ?lookup_insert_eq, ?lookup_empty in Hbase;
      clearbody base
  end;
  repeat case_match;
  repeat first [ rewrite lookup_insert_eq | rewrite lookup_insert_ne by done ];
  try done.

Lemma compress_page_l page :
  compress_page page !! "l" =
  match page_language page with
  | Some lang =>
      if nonempty lang && negb (String.eqb lang "en") then Some (VStr lang) else None
  | None => None
  end.
Proof.
  compress_stages "l"; simplify_eq; simpl; try congruence.
Qed.

Lemma compress_page_a page :
  compress_page page !! "a" =
  if nonempty (page_author page) then Some (VStr (page_author page)) else None.
Proof.
  compress_stages "a"; simplify_eq; simpl; try congruence.
Qed.

Lemma compress_page_sd page :
  compress_page page !! "sd" =
  if page_has_structured_data page then Some (VInt 1) else None.
Proof.
  compress_stages "sd"; simplify_eq; simpl; try congruence.
Qed.

Lemma compress_page_cb page :
  compress_page page !! "cb" =
  if (0 <? page_code_blocks_count page)%Z
  then Some (VInt (page_code_blocks_count page)) else None.
Proof.
  compress_stages "cb"; simplify_eq; simpl; try congruence; try lia.
Qed.

Lemma compress_page_h1 page :
  compress_page page !! "h1" =
  match page_headings page !! "h1" with
  | Some (first :: _) => Some (VStr (PyStr.str_take 100 first))
  | _ => None
  end.
Proof.
  compress_stages "h1"; simplify_eq; simpl; try congruence.
Qed.

Lemma compress_page_ti page :
  compress_page page !! "ti" = Some (VStr (PyStr.str_take 100 (page_title page))).
Proof.
  compress_stages "ti"; simplify_eq; simpl; try congruence.
Qed.

Lemma compress_page_d page :
  compress_page page !! "d" =
  Some (VStr (PyStr.str_take 200 (page_description page))).
Proof.
  compress_stages "d"; simplify_eq; simpl; try congruence.
Qed.

Lemma str_take_prefix (n : nat) s :
  exists cut, s = (PyStr.str_take (Z.of_nat n) s ++ cut)%string.
Proof.
  unfold PyStr.str_take, PyStr.slice_to.
  destruct (Z.of_nat n <? 0)%Z eqn:Hn; [apply Z.ltb_lt in Hn; lia|].
  rewrite Nat2Z.id. generalize (Nat.min n (String.length s)). intros m.
  revert s. induction m as [|m IH]; intros s.
  - exists s. by destruct s.
  - destruct s as [|c s]; [by exists EmptyString|].
    destruct (IH s) as [cut Hcut]. exists cut.
    change (String c s = String c (String.substring 0 m s ++ cut)%string).
    by f_equal.
Qed.

(** C8 (as amended): in every compressed page, the title is cut to at
    most 100 characters and the description to its first 200 characters,
    so to exactly 200 when it is longer; the key [l] is present exactly
    when the language is a non-empty string other than [en], [a] exactly
    when the author is not empty, [sd] exactly when the page has
    structured data, [cb] exactly when the count of code blocks is
    positive, [h1] exactly when the page has an h1 heading; a key that is
    not present is absent from the dict; [l], [a], [sd] and [cb] never
    hold an empty value, and [h1] holds the first 100 characters of the
    first h1 heading. *)
Theorem compress_pages_fields pages :
  Forall2 Spec.summary_of pages (_compress_pages pages).
Proof.
  unfold _compress_pages. induction pages as [|page pages IH]; simpl;
    constructor; [|exact IH].
  clear IH. unfold Spec.summary_of.
  rewrite compress_page_ti, compress_page_d, compress_page_l, compress_page_a,
    compress_page_sd, compress_page_cb, compress_page_h1.
  repeat split.
  - eexists. split; [reflexivity|]. split; [|reflexivity].
    rewrite (length_str_take 100). lia.
  - eexists. split; [reflexivity|]. rewrite (length_str_take 200).
    split; [lia|]. split; [lia|]. split; [reflexivity|]. split; [reflexivity|].
    apply (str_take_prefix 200).
  - intros [v Hv]. destruct (page_language page) as [[|c lang]|]; try done.
    cbn [nonempty andb] in Hv.
    destruct (String.eqb_spec (String c lang) "en") as [|Hen]; [done|].
    eexists; split; [reflexivity|]. done.
  - intros (lang&->&Hne&Hen). destruct lang as [|c lang]; [done|].
    cbn [nonempty andb].
    destruct (String.eqb_spec (String c lang) "en"); [done|]. eauto.
  - intros v Hv. destruct (page_language page) as [[|c lang]|]; try done.
    cbn [nonempty andb] in Hv.
    destruct (String.eqb (String c lang) "en"); [done|].
    simpl in Hv. simplify_eq. eexists. by repeat split.
  - intros [v Hv]. by destruct (page_author page).
  - intros Hne. destruct (page_author page); [done|]. simpl. eauto.
  - intros v Hv. destruct (page_author page); [done|]. simpl in Hv. congruence.
  - intros [v Hv]. by destruct (page_has_structured_data page).
  - intros ->. eauto.
  - intros v Hv. destruct (page_has_structured_data page); congruence.
  - intros [v Hv]. destruct (0 <? page_code_blocks_count page)%Z eqn:Hcb; [|done].
    by apply Z.ltb_lt.
  - intros Hcb. apply Z.ltb_lt in Hcb. rewrite Hcb. eauto.
  - intros v Hv. destruct (0 <? page_code_blocks_count page)%Z; congruence.
  - intros [v Hv]. destruct (page_headings page !! "h1") as [[|first rest]|]; try done.
    eauto.
  - intros (first&rest&->). eauto.
  - intros v Hv. destruct (page_headings page !! "h1") as [[|first rest]|]; try done.
    simplify_eq. eauto.
Qed.

End Compressor.

(** A page whose language is the empty string differs from [en] and gets
    no [l] key; the scanner builds such a page for a document whose root
    element has an empty [lang] attribute. *)
Lemma language_key_absent_for_empty_lang :
  WebsiteScanner.page_language Samples.page_empty_lang = Some EmptyString
  /\ WebsiteScanner.page_language Samples.page_empty_lang <> Some "en"
  /\ LLMRGenerator.compress_page Samples.page_empty_lang !! "l" = None
  /\ (exists page,
        WebsiteScanner._process_page JsonRef.loads Md5Ref.md5_int insertion_order
          EmptyString "index" "/index.html"
          [StartTag "html" [("lang", Some EmptyString)]] = Ok page
        /\ WebsiteScanner.page_language page = Some EmptyString
        /\ LLMRGenerator.compress_page page !! "l" = None).
Proof.
  split; [reflexivity|]. split; [discriminate|]. split; [by vm_compute|].
  eexists. split; [vm_compute; reflexivity|]. by vm_compute.
Qed.
(** ** The site aggregator *)

Section Aggregator.

Import WebsiteScanner LLMRGenerator.

Variable langs : list (option string) -> list (option string).

(** A sum whose items all evaluate has a value. *)
Lemma py_sum_ok (f : Page -> result Z) (g : Page -> Z) pages :
  (forall p, f p = Ok (g p)) ->
  py_sum f pages = Ok (foldr (fun p total => (g p + total)%Z) 0%Z pages).
Proof.
  intros Hf. induction pages as [|p pages IH]; simpl; [done|].
  by rewrite Hf, IH.
Qed.

(** The count of pages with code reads the name [page] where the loop
    variable is [p]: its first item raises. *)
Lemma pages_with_code_unbound p pages :
  py_count (fun p => page ← resolve "p" p "page";
                     Ok (0 <? page_code_blocks_count page)%Z) (p :: pages)
  = Raise NameError.
Proof. reflexivity. Qed.

(** On every non-empty list of pages [_generate_stats] raises
    [NameError] and returns no stats object. *)
Lemma generate_stats_raises p pages :
  _generate_stats langs (p :: pages) = Raise NameError.
Proof.
  unfold _generate_stats.
  rewrite (py_sum_ok
             (fun page => page ← resolve "page" page "page";
                          Ok (page_word_count page))
             page_word_count) by (intros; reflexivity).
  rewrite (py_sum_ok
             (fun page => page ← resolve "page" page "page";
                          Ok (page_read_time page))
             page_read_time) by (intros; reflexivity).
  unfold mbind at 1 2, result_bind.
  by rewrite pages_with_code_unbound.
Qed.

Lemma generate_stats_empty :
  _generate_stats langs [] = Ok (<["total_pages" := VInt 0]> ∅).
Proof. reflexivity. Qed.

(** C1, at the scenario of the specification: for the two pages, one
    with two code blocks and one with none, [_generate_stats] raises
    [NameError]; no stats object is returned, so [pages_with_code] is not
    1. *)
Theorem generate_stats_two_pages :
  _generate_stats langs Samples.two_pages = Raise NameError
  /\ map page_code_blocks_count Samples.two_pages = [2; 0]%Z
  /\ forall stats, _generate_stats langs Samples.two_pages <> Ok stats.
Proof.
  assert (H : _generate_stats langs Samples.two_pages = Raise NameError)
    by apply generate_stats_raises.
  split; [exact H|]. split; [reflexivity|]. intros stats. by rewrite H.
Qed.

End Aggregator.
(** ** The hash embedding *)

Section Embedding.

Import EmbeddingGenerator.

Variable md5_int : string -> Z.

(** Rounding to three places leaves a number of hundredths as it is. *)
Lemma round3_hundredths (k : Z) : round3 (k # 100) = (10 * k # 1000).
Proof.
  unfold round3, round_div. simpl Qnum. simpl Qden.
  replace (1000 * k)%Z with (10 * k * 100)%Z by lia.
  rewrite Z.div_mul, Z.mod_mul by lia. reflexivity.
Qed.

Lemma component_value hash_val i :
  component hash_val i =
  (10 * (Z.shiftr hash_val (i * 8) mod 200 - 100) # 1000).
Proof. unfold component. apply round3_hundredths. Qed.

Lemma component_hundredths hash_val i :
  (component hash_val i == (Z.shiftr hash_val (i * 8) mod 200 - 100 # 100))%Q.
Proof.
  rewrite component_value. unfold Qeq. simpl. lia.
Qed.

Lemma component_bounds hash_val i :
  (- (1) <= component hash_val i /\ component hash_val i <= 1)%Q.
Proof.
  rewrite component_value.
  pose proof (Z.mod_pos_bound (Z.shiftr hash_val (i * 8)) 200 eq_refl).
  unfold Qle. simpl. lia.
Qed.

Lemma length_range n : length (range n) = Z.to_nat n.
Proof. unfold range. by rewrite length_map, length_seq. Qed.

Lemma lookup_range (n : nat) (dimensions : Z) :
  (Z.of_nat n < dimensions)%Z -> range dimensions !! n = Some (Z.of_nat n).
Proof.
  intros Hn. unfold range. rewrite list_lookup_fmap.
  rewrite lookup_seq_lt by lia. reflexivity.
Qed.

(** C7: the hash embedding of the empty text is the all-zero vector of
    the configured length, 16 by default; for a non-empty text the
    component at position [i] (counted from 0, below the dimension) is
    [((h >> (i*8)) mod 200 - 100) / 100] rounded to three places, where
    [h] is the MD5 of the text as an integer; the rounding leaves that
    value, every component lies between -1 and 1, and the vector has the
    configured length.  [HashEmbeddings.embed] computes the same
    vector. *)
Theorem hash_embedding_spec (c : ascii) (text any : string) (dimensions : Z) :
  generate_simple_embedding md5_int EmptyString dimensions
    = replicate (Z.to_nat dimensions) (0 # 1)
  /\ length (generate_simple_embedding md5_int EmptyString 16) = 16
  /\ (forall i : nat,
        (Z.of_nat i < dimensions)%Z ->
        exists x,
          generate_simple_embedding md5_int (String c text) dimensions !! i
            = Some x
          /\ HashEmbeddings.embed md5_int (HashEmbeddings.mk dimensions)
               (String c text) !! i = Some x
          /\ x = round3 ((Z.shiftr (md5_int (String c text)) (Z.of_nat i * 8)
                           mod 200 - 100)%Z # 100)
          /\ (x == (Z.shiftr (md5_int (String c text)) (Z.of_nat i * 8)
                      mod 200 - 100 # 100))%Q)
  /\ Forall (fun x => (- (1) <= x /\ x <= 1)%Q)
       (generate_simple_embedding md5_int any dimensions)
  /\ Z.of_nat (length (generate_simple_embedding md5_int any dimensions))
     = Z.max 0 dimensions
  /\ HashEmbeddings.embed md5_int (HashEmbeddings.mk dimensions) any
     = generate_simple_embedding md5_int any dimensions
  /\ HashEmbeddings.dimensions HashEmbeddings.init = 16%Z.
Proof.
  split; [reflexivity|]. split; [reflexivity|].
  split; [|split; [|split; [|split; reflexivity]]].
  - intros i Hi. eexists. split; [|split; [|split]].
    + unfold generate_simple_embedding.
      rewrite list_lookup_fmap, (lookup_range _ _ Hi). reflexivity.
    + unfold HashEmbeddings.embed. cbn [HashEmbeddings.dimensions].
      rewrite list_lookup_fmap, (lookup_range _ _ Hi). reflexivity.
    + reflexivity.
    + apply component_hundredths.
  - destruct any as [|a any]; simpl.
    + apply Forall_forall. intros x Hx.
      apply elem_of_replicate in Hx as [-> _]. done.
    + apply Forall_forall. intros x Hx.
      apply list_elem_of_fmap in Hx as (i&->&_). apply component_bounds.
  - destruct any as [|a any]; simpl.
    + rewrite length_replicate. lia.
    + rewrite length_map, length_range. lia.
Qed.

End Embedding.

Lemma hash_embedding_spec_witness :
  (Z.of_nat 3 < 16)%Z
  /\ exists x,
       EmbeddingGenerator.generate_simple_embedding Md5Ref.md5_int "abc" 16 !! 3
         = Some x
       /\ HashEmbeddings.embed Md5Ref.md5_int HashEmbeddings.init "abc" !! 3
          = Some x
       /\ (x == 84 # 100)%Q.
Proof.
  assert (H : (Z.of_nat 3 < 16)%Z) by lia.
  split; [exact H|].
  destruct (proj1 (proj2 (proj2
              (hash_embedding_spec Md5Ref.md5_int "a" "bc" EmptyString 16))) 3 H)
    as (x&Hx&Hembed&_&Hvalue).
  exists x. split; [exact Hx|]. split; [exact Hembed|].
  rewrite Hvalue. by vm_compute.
Defined.

(** The reference hash on the test suite of RFC 1321, and the embedding
    it gives for a short text. *)
Example md5_test_vectors :
  Md5Ref.md5_int EmptyString = 0xd41d8cd98f00b204e9800998ecf8427e%Z
  /\ Md5Ref.md5_int "a" = 0x0cc175b9c0f1b6a831c399e269772661%Z
  /\ Md5Ref.md5_int "abc" = 0x900150983cd24fb0d6963f7d28e17f72%Z
  /\ Md5Ref.md5_int "message digest" = 0xf96b697d7cb7938d525a2f31aaf161d0%Z
  /\ Md5Ref.md5_int "abcdefghijklmnopqrstuvwxyz"
     = 0xc3fcd3d76192e4007dfb496cca67e13b%Z
  /\ Md5Ref.md5_int
       "12345678901234567890123456789012345678901234567890123456789012345678901234567890"
     = 0x57edf4a22be3c955ac49da2e2107b67a%Z.
Proof. by vm_compute. Qed.

Example hash_embedding_abc :
  EmbeddingGenerator.generate_simple_embedding Md5Ref.md5_int "abc" 16
  = map (fun hundredths => (10 * hundredths # 1000)%Q)
      [70; 51; 29; 84; 49; -21; -14; -94; -68; 51; 62; -8; -28; 20; -35; 44]%Z.
Proof. by vm_compute. Qed.
(** ** The keyword extractor *)

Section Keywords.

Import KeywordExtractor.

(** *** Slices *)

Lemma length_list_take {A} (n : Z) (l : list A) :
  (0 <= n)%Z -> (Z.of_nat (length (PyStr.list_take n l)) <= n)%Z.
Proof.
  intros Hn. unfold PyStr.list_take, PyStr.slice_to.
  destruct (n <? 0)%Z eqn:Hneg; [apply Z.ltb_lt in Hneg; lia|].
  rewrite length_take. lia.
Qed.


(** *** The counter *)







(** *** The sort *)







Lemma length_most_common n counts :
  (0 <= n)%Z -> (Z.of_nat (length (most_common n counts)) <= n)%Z.
Proof.
  intros Hn. unfold most_common. destruct (n <=? 0)%Z; simpl; [lia|].
  rewrite length_take. lia.
Qed.

(** *** The tokens *)



(** *** The result *)




End Keywords.


(** ** Facts about the string primitives *)

Section StringFacts.

Lemma lstrip_head s c r : PyStr.lstrip s = String c r -> PyStr.is_space c = false.
Proof.
  induction s as [|a s IH]; simpl; [done|].
  destruct (PyStr.is_space a) eqn:Ha; [done|]. intros. by simplify_eq.
Qed.

Lemma lstrip_fixed c r :
  PyStr.is_space c = false -> PyStr.lstrip (String c r) = String c r.
Proof. simpl. by intros ->. Qed.

Lemma rstrip_head c r :
  PyStr.is_space c = false -> exists r', PyStr.rstrip (String c r) = String c r'.
Proof.
  intros Hc. simpl. destruct (PyStr.rstrip r); rewrite ?Hc; eauto.
Qed.

Lemma rstrip_idem s : PyStr.rstrip (PyStr.rstrip s) = PyStr.rstrip s.
Proof.
  induction s as [|c s IH]; simpl; [done|].
  destruct (PyStr.rstrip s) as [|d r] eqn:Hr.
  - destruct (PyStr.is_space c) eqn:Hc; simpl; [done|]. by rewrite Hc.
  - simpl in *. by rewrite IH.
Qed.

(** [strip] returns the empty string or a string that starts with a
    character that is not white space. *)
Lemma strip_head s c r : PyStr.strip s = String c r -> PyStr.is_space c = false.
Proof.
  unfold PyStr.strip. destruct (PyStr.lstrip s) as [|a t] eqn:Hl; [done|].
  pose proof (lstrip_head _ _ _ Hl) as Ha.
  destruct (rstrip_head a t Ha) as [r' ->]. intros. by simplify_eq.
Qed.

Lemma strip_idem s : PyStr.strip (PyStr.strip s) = PyStr.strip s.
Proof.
  destruct (PyStr.strip s) as [|c r] eqn:Hs; [done|].
  pose proof (strip_head _ _ _ Hs) as Hc.
  unfold PyStr.strip in *. rewrite (lstrip_fixed _ _ Hc), <- Hs.
  apply rstrip_idem.
Qed.

(** A string that starts with a character that is not white space has a
    first word. *)
Lemma split_ws_nonempty c r :
  PyStr.is_space c = false -> PyStr.split_ws (String c r) <> [].
Proof.
  unfold PyStr.split_ws. simpl. intros ->.
  destruct r as [|c' r']; [done|].
  destruct (PyStr.is_space c'); [done|]. by destruct (PyStr.runs _ _).
Qed.

(** The membership test for a one-character string. *)
Lemma contains_char_cons (a c : ascii) s :
  PyStr.contains (String a EmptyString) (String c s)
  = Ascii.eqb c a || PyStr.contains (String a EmptyString) s.
Proof.
  cbn [PyStr.contains String.prefix].
  destruct (Ascii.eqb_spec c a) as [->|Hne];
    destruct (ascii_dec a _); try congruence; by destruct s.
Qed.

Lemma lstrip_no_char a s :
  PyStr.contains (String a EmptyString) s = false ->
  PyStr.contains (String a EmptyString) (PyStr.lstrip s) = false.
Proof.
  induction s as [|c s IH]; [done|]. intros H.
  change (PyStr.lstrip (String c s))
    with (if PyStr.is_space c then PyStr.lstrip s else String c s).
  destruct (PyStr.is_space c); [|done].
  rewrite contains_char_cons in H. apply orb_false_iff in H as [_ H]. auto.
Qed.

Lemma rstrip_no_char a s :
  PyStr.contains (String a EmptyString) s = false ->
  PyStr.contains (String a EmptyString) (PyStr.rstrip s) = false.
Proof.
  induction s as [|c s IH]; [done|]. intros H.
  rewrite contains_char_cons in H. apply orb_false_iff in H as [Hc H].
  specialize (IH H).
  change (PyStr.rstrip (String c s))
    with (match PyStr.rstrip s with
          | EmptyString =>
              if PyStr.is_space c then EmptyString else String c EmptyString
          | r => String c r
          end).
  destruct (PyStr.rstrip s) as [|d r].
  - destruct (PyStr.is_space c); [done|]. rewrite contains_char_cons, Hc. done.
  - by rewrite contains_char_cons, Hc, IH.
Qed.

Lemma strip_no_char a s :
  PyStr.contains (String a EmptyString) s = false ->
  PyStr.contains (String a EmptyString) (PyStr.strip s) = false.
Proof. intros H. by apply rstrip_no_char, lstrip_no_char. Qed.

(** The pieces of a split hold no separator, and there is at least one
    piece. *)
Lemma split_on_pieces a s :
  Forall (fun p => PyStr.contains (String a EmptyString) p = false)
    (PyStr.split_on a s).
Proof.
  induction s as [|c s IH]; [by repeat constructor|].
  change (PyStr.split_on a (String c s))
    with (if Ascii.eqb c a
          then EmptyString :: PyStr.split_on a s
          else match PyStr.split_on a s with
               | w :: ws => String c w :: ws
               | [] => [String c EmptyString]
               end).
  destruct (Ascii.eqb c a) eqn:Hc; [by constructor|].
  destruct (PyStr.split_on a s) as [|w ws].
  - repeat constructor. by rewrite contains_char_cons, Hc.
  - apply Forall_cons in IH as [Hw Hws]. constructor; [|done].
    by rewrite contains_char_cons, Hc.
Qed.


End StringFacts.

(** ** Further properties of the parser *)

Section ParserInvariants.

Variable json_loads : string -> result json.

Ltac fields_all :=
  cbn [pop_matching base_url title description keywords author language
       canonical_url headings paragraphs links images videos code_blocks lists
       json_ld_data microdata_items rdfa_data current_tag tag_stack in_script
       in_style current_content word_count estimated_read_time og_type
       set_title set_description set_keywords set_author set_language
       set_canonical_url set_headings set_paragraphs set_links set_images
       set_videos set_code_blocks set_json_ld_data set_microdata_items
       set_rdfa_data set_current_tag set_tag_stack set_in_script set_in_style
       set_current_content set_word_count set_estimated_read_time set_og_type]
    in *.

(** Induction over a parse, for a property that every handler call
    keeps. *)
Lemma feed_invariant (P : Parser -> Prop) :
  (forall ev s s', handle json_loads ev s = Ok s' -> P s -> P s') ->
  forall evs s s', feed json_loads evs s = Ok s' -> P s -> P s'.
Proof.
  intros Hstep evs. induction evs as [|ev evs IH]; simpl; intros s s' H HP.
  - by simplify_eq.
  - unfold mbind, result_bind in H.
    destruct (handle json_loads ev s) as [s1|] eqn:H1; [|done]. eauto.
Qed.

(** *** First write wins: the title and the Open Graph type *)

Lemma parse_meta_first_write attrs s s' :
  _parse_meta_tag attrs s = Ok s' ->
  (title s <> EmptyString -> title s' = title s)
  /\ (forall t, og_type s = Some t -> og_type s' = Some t).
Proof.
  unfold _parse_meta_tag, lower. intros H. break_step; fields_all.
  all: split; [intros Ht|intros t Ht]; try done; try congruence.
  all: match goal with
       | H : _ && negb (nonempty (title ?x)) = true |- _ =>
           apply andb_true_iff in H as [_ H]; by destruct (title x)
       end.
Qed.

Lemma handle_first_write ev s s' :
  handle json_loads ev s = Ok s' ->
  (title s <> EmptyString -> title s' = title s)
  /\ (forall t, og_type s = Some t -> og_type s' = Some t).
Proof.
  destruct ev as [tag attrs|tag|data]; simpl; intros H.
  - unfold handle_starttag, _parse_link_tag, _parse_microdata, _parse_rdfa in H.
    destruct (String.eqb tag "meta") eqn:Hmeta.
    + unfold mbind, result_bind in H.
      destruct (_parse_meta_tag _ _) as [m|] eqn:Hm; [|done].
      apply parse_meta_first_write in Hm. fields_all.
      destruct Hm as [Ht Ho].
      repeat case_match; simplify_eq; fields_all; done.
    + break_step.
  - unfold handle_endtag, load_json_ld in H. break_step.
  - simplify_eq. unfold handle_data. break_step; fields_all.
    split; [|done]. intros Ht.
    match goal with
    | H : _ && negb (nonempty (title ?x)) = true |- _ =>
        apply andb_true_iff in H as [_ H]; by destruct (title x)
    end.
Qed.

(** X1: the title, once it is not empty, and the Open Graph type, once it is
    set, are kept to the end of the parse: a later [title] element or
    [og:title] or [og:type] tag does not replace them. *)
Theorem first_write_wins evs s s' :
  feed json_loads evs s = Ok s' ->
  (title s <> EmptyString -> title s' = title s)
  /\ (forall t, og_type s = Some t -> og_type s' = Some t).
Proof.
  intros H.
  split.
  - intros Ht.
    apply (feed_invariant (fun x => title x = title s /\ title x <> EmptyString))
      with (evs := evs) (s := s) (s' := s'); [|done|done].
    intros ev a b Hab [Ha Hne]. destruct (handle_first_write _ _ _ Hab) as [Hb _].
    rewrite (Hb Hne). done.
  - intros t Ht.
    apply (feed_invariant (fun x => og_type x = Some t))
      with (evs := evs) (s := s) (s' := s'); [|done|done].
    intros ev a b Hab Ha. by apply (handle_first_write _ _ _ Hab).
Qed.

(** *** The tag stack *)

Lemma parse_meta_stack attrs s s' :
  _parse_meta_tag attrs s = Ok s' ->
  tag_stack s' = tag_stack s /\ current_tag s' = current_tag s.
Proof. intros H. by apply parse_meta_frame in H as (_&_&_&_&_&_&_&?&?). Qed.

Lemma handle_starttag_stack tag attrs s s' :
  handle_starttag tag attrs s = Ok s' ->
  tag_stack s' = tag_stack s ++ [tag] /\ current_tag s' = Some tag.
Proof.
  unfold handle_starttag, _parse_link_tag, _parse_microdata, _parse_rdfa.
  intros H. destruct (String.eqb tag "meta") eqn:Hmeta.
  - unfold mbind, result_bind in H.
    destruct (_parse_meta_tag _ _) as [m|] eqn:Hm; [|done].
    apply parse_meta_stack in Hm as [Hst Hct]. fields_all.
    repeat case_match; simplify_eq; fields_all; by rewrite Hst, Hct.
  - break_step.
Qed.

Lemma handle_endtag_stack tag s s' :
  handle_endtag json_loads tag s = Ok s' ->
  tag_stack s' =
    (if bool_decide (last (tag_stack s) = Some tag)
     then removelast (tag_stack s) else tag_stack s)
  /\ current_tag s' = last (tag_stack s').
Proof.
  unfold handle_endtag, load_json_ld. intros H.
  assert (Hpop : tag_stack (pop_matching tag s) =
    if bool_decide (last (tag_stack s) = Some tag)
    then removelast (tag_stack s) else tag_stack s).
  { unfold pop_matching. fields_all. destruct (last (tag_stack s)) as [top|]; [|done].
    destruct (String.eqb_spec top tag) as [->|Hne].
    - by rewrite bool_decide_eq_true_2.
    - rewrite bool_decide_eq_false_2; [done|congruence]. }
  rewrite <- Hpop. generalize dependent (pop_matching tag s). intros p H _.
  break_step.
Qed.

Lemma handle_data_stack data s :
  tag_stack (handle_data data s) = tag_stack s
  /\ current_tag (handle_data data s) = current_tag s.
Proof. unfold handle_data. break_step. Qed.

(** X2: after any parse the current tag is the top of the tag stack, [None]
    when the stack is empty. *)
Theorem current_tag_is_top evs s s' :
  feed json_loads evs s = Ok s' ->
  current_tag s = last (tag_stack s) ->
  current_tag s' = last (tag_stack s').
Proof.
  apply (feed_invariant (fun x => current_tag x = last (tag_stack x))).
  intros [tag attrs|tag|data] a b; simpl; intros Hab Ha.
  - apply handle_starttag_stack in Hab as [-> ->]. by rewrite last_snoc.
  - by apply handle_endtag_stack in Hab as [_ ?].
  - simplify_eq. destruct (handle_data_stack data a) as [-> ->]. done.
Qed.

(** X3: a balanced stream leaves the tag stack as it found it: every element
    pushes its tag and its closing tag pops it. *)
Theorem balanced_restores_stack evs s s' :
  Stream.balanced evs ->
  feed json_loads evs s = Ok s' ->
  tag_stack s' = tag_stack s.
Proof.
  intros Hb. revert s s'.
  induction Hb as [|data rest _ IH|tag attrs body rest _ IHbody _ IHrest];
    intros s s' H.
  - simpl in H. by simplify_eq.
  - simpl in H. rewrite (IH _ _ H). apply handle_data_stack.
  - simpl in H. unfold mbind, result_bind in H.
    destruct (handle_starttag tag attrs s) as [s1|] eqn:H1; [|done].
    rewrite feed_app in H. unfold mbind, result_bind in H.
    destruct (feed json_loads body s1) as [s2|] eqn:H2; [|done].
    simpl in H. unfold mbind, result_bind in H.
    destruct (handle_endtag json_loads tag s2) as [s3|] eqn:H3; [|done].
    apply handle_starttag_stack in H1 as [H1 _].
    apply IHbody in H2. apply handle_endtag_stack in H3 as [H3 _].
    rewrite (IHrest _ _ H), H3, H2, H1, last_snoc.
    rewrite bool_decide_eq_true_2 by done. apply removelast_last.
Qed.

(** *** The entries of the headings and of the paragraphs *)

Lemma handle_endtag_appends tag s s' :
  handle_endtag json_loads tag s = Ok s' ->
  (headings s' = headings s
   \/ buffered s <> EmptyString
      /\ headings s' =
         <[tag := default [] (headings s !! tag) ++ [buffered s]]> (headings s))
  /\ (paragraphs s' = paragraphs s /\ word_count s' = word_count s
      \/ buffered s <> EmptyString
         /\ paragraphs s' = paragraphs s ++ [buffered s]
         /\ word_count s' =
            (word_count s + Z.of_nat (length (PyStr.split_ws (buffered s))))%Z).
Proof.
  unfold handle_endtag, is_heading, load_json_ld. intros H. fields_all.
  change (buffered (pop_matching tag s)) with (buffered s) in H.
  destruct (bool_decide (is_Some (headings s !! tag))
            && negb (is_nil (current_content s))) eqn:Hh.
  { unfold mbind, result_bind in H.
    destruct (nonempty (buffered s)) eqn:Hb; simplify_eq; fields_all.
    - split; [right|left; done]. split; [by destruct (buffered s)|done].
    - split; left; done. }
  destruct (String.eqb tag "p" && negb (is_nil (current_content s))) eqn:Hp.
  { unfold mbind, result_bind in H.
    destruct (nonempty (buffered s)) eqn:Hb; simplify_eq; fields_all.
    - split; [left; done|right]. split; [by destruct (buffered s)|done].
    - split; left; done. }
  unfold mbind, result_bind in H.
  repeat case_match; simplify_eq; fields_all; split; left; done.
Qed.

(** An entry as a closing tag stores it: not empty, without surrounding
    white space. *)
Lemma buffered_clean s :
  buffered s <> EmptyString ->
  Stream.clean_entry (buffered s).
Proof.
  intros Hne. split; [done|]. unfold buffered. apply strip_idem.
Qed.

Lemma clean_entry_words p :
  Stream.clean_entry p -> PyStr.split_ws p <> [].
Proof.
  intros [Hne Hs]. destruct p as [|c r]; [done|].
  apply split_ws_nonempty. apply (strip_head (String c r) c r). exact Hs.
Qed.

Lemma paragraph_words_bound ps :
  Forall Stream.clean_entry ps ->
  (Z.of_nat (length ps) <= Spec.paragraph_words ps)%Z.
Proof.
  induction 1 as [|p ps Hp _ IH]; simpl; [lia|].
  apply clean_entry_words in Hp. destruct (PyStr.split_ws p); [done|].
  simpl length. lia.
Qed.

Lemma feed_entries base evs s :
  feed json_loads evs (init base) = Ok s ->
  Forall Stream.clean_entry (paragraphs s)
  /\ (forall level entries,
        headings s !! level = Some entries -> Forall Stream.clean_entry entries)
  /\ word_count s = Spec.paragraph_words (paragraphs s).
Proof.
  intros H.
  apply (feed_invariant (fun x =>
    Forall Stream.clean_entry (paragraphs x)
    /\ (forall level entries,
          headings x !! level = Some entries -> Forall Stream.clean_entry entries)
    /\ word_count x = Spec.paragraph_words (paragraphs x)))
    with (evs := evs) (s := init base) (s' := s); [|done|].
  - intros [tag attrs|tag|data] a b; simpl; intros Hab (Hp&Hh&Hw).
    + apply handle_starttag_frame in Hab as (->&->&_&->&_). done.
    + apply handle_endtag_appends in Hab as (Hhead&Hpar).
      split; [|split].
      * destruct Hpar as [[-> _]|(Hb&->&_)]; [done|].
        apply Forall_app. split; [done|]. repeat constructor; by apply buffered_clean.
      * intros level entries. destruct Hhead as [->|(Hb&->)]; [apply Hh|].
        destruct (decide (tag = level)) as [->|Hne].
        -- rewrite lookup_insert_eq. intros [= <-]. apply Forall_app. split.
           ++ destruct (headings a !! level) eqn:Hl; [by eapply Hh|constructor].
           ++ repeat constructor; by apply buffered_clean.
        -- rewrite lookup_insert_ne by done. apply Hh.
      * destruct Hpar as [[-> ->]|(Hb&->&->)]; [done|].
        rewrite paragraph_words_app. lia.
    + simplify_eq. destruct (handle_data_frame data a) as (->&->&_&_&_&->&_).
      done.
  - split; [constructor|]. split; [|done].
    intros level entries Hl.
    assert (entries = []) as ->; [|constructor].
    unfold init in Hl. fields_all.
    repeat (rewrite lookup_insert in Hl; case_decide; [by simplify_eq|]).
    by rewrite lookup_empty in Hl.
Qed.

(** X4: every paragraph and every heading of the record is a non-empty text
    without surrounding white space; the word count is the number of
    words of the paragraphs, so it is at least the number of paragraphs. *)
Theorem entries_clean base evs s :
  feed json_loads evs (init base) = Ok s ->
  Forall Stream.clean_entry (paragraphs s)
  /\ (forall level entries,
        headings s !! level = Some entries -> Forall Stream.clean_entry entries)
  /\ word_count s = Spec.paragraph_words (paragraphs s)
  /\ (Z.of_nat (length (paragraphs s)) <= word_count s)%Z.
Proof.
  intros H. destruct (feed_entries _ _ _ H) as (Hp&Hh&Hw).
  repeat split; try done.
  rewrite Hw. by apply paragraph_words_bound.
Qed.

(** *** What each start tag records *)

Lemma parse_meta_media attrs s s' :
  _parse_meta_tag attrs s = Ok s' ->
  images s' = images s /\ videos s' = videos s
  /\ microdata_items s' = microdata_items s /\ rdfa_data s' = rdfa_data s.
Proof. unfold _parse_meta_tag, lower. intros H. break_step. Qed.

Lemma handle_starttag_records tag attrs s s' :
  handle_starttag tag attrs s = Ok s' ->
  length (images s') =
    length (images s) + (if String.eqb tag "img" then 1 else 0)
  /\ length (videos s') =
     length (videos s) + (if String.eqb tag "video" then 1 else 0)
  /\ length (links s') =
     length (links s)
     + (if String.eqb tag "a" && has_key (dict attrs) "href" then 1 else 0)
  /\ length (code_blocks s') =
     length (code_blocks s) + (if is_code_tag tag then 1 else 0).
Proof.
  unfold handle_starttag, _parse_link_tag, _parse_microdata, _parse_rdfa.
  intros H. destruct (String.eqb tag "meta") eqn:Hmeta.
  - unfold mbind, result_bind in H.
    destruct (_parse_meta_tag _ _) as [m|] eqn:Hm; [|done].
    pose proof (parse_meta_media _ _ _ Hm) as (Hi&Hv&_).
    apply parse_meta_frame in Hm as (_&_&Hl&Hc&_). fields_all.
    apply String.eqb_eq in Hmeta. subst tag.
    change (String.eqb "meta" "img") with false.
    change (String.eqb "meta" "video") with false.
    change (String.eqb "meta" "a") with false.
    change (is_code_tag "meta") with false. cbn [andb].
    repeat case_match; simplify_eq; fields_all; rewrite Hi, Hv, Hl, Hc; lia.
  - unfold mbind, result_bind in H.
    destruct (String.eqb tag "link") eqn:Hlink.
    { apply String.eqb_eq in Hlink. subst tag.
      change (String.eqb "link" "img") with false.
      change (String.eqb "link" "video") with false.
      change (String.eqb "link" "a") with false.
      change (is_code_tag "link") with false. cbn [andb].
      repeat case_match; simplify_eq; fields_all; lia. }
    destruct (String.eqb tag "a" && has_key (dict attrs) "href") eqn:Ha.
    { apply andb_true_iff in Ha as [Ha _]. apply String.eqb_eq in Ha. subst tag.
      change (String.eqb "a" "img") with false.
      change (String.eqb "a" "video") with false.
      change (is_code_tag "a") with false.
      repeat case_match; simplify_eq; fields_all; rewrite ?length_app; simpl; lia. }
    destruct (String.eqb tag "img") eqn:Himg.
    { apply String.eqb_eq in Himg. subst tag.
      change (String.eqb "img" "video") with false.
      change (is_code_tag "img") with false.
      repeat case_match; simplify_eq; fields_all; rewrite ?length_app; simpl; lia. }
    destruct (String.eqb tag "video") eqn:Hvideo.
    { apply String.eqb_eq in Hvideo. subst tag.
      change (is_code_tag "video") with false.
      repeat case_match; simplify_eq; fields_all; rewrite ?length_app; simpl; lia. }
    destruct (String.eqb tag "script") eqn:Hscript.
    { apply String.eqb_eq in Hscript. subst tag.
      change (is_code_tag "script") with false.
      repeat case_match; simplify_eq; fields_all; lia. }
    destruct (String.eqb tag "style") eqn:Hstyle.
    { apply String.eqb_eq in Hstyle. subst tag.
      change (is_code_tag "style") with false.
      repeat case_match; simplify_eq; fields_all; lia. }
    destruct (is_code_tag tag) eqn:Hcode;
      repeat case_match; simplify_eq; fields_all; rewrite ?length_app; simpl; lia.
Qed.

Lemma update_last_length {A} (f : A -> A) l : length (update_last f l) = length l.
Proof.
  induction l as [|x [|y l] IH]; simpl in *; [done..|]. by rewrite IH.
Qed.

Lemma handle_endtag_records tag s s' :
  handle_endtag json_loads tag s = Ok s' ->
  images s' = images s /\ videos s' = videos s
  /\ length (links s') = length (links s)
  /\ length (code_blocks s') = length (code_blocks s).
Proof.
  unfold handle_endtag, load_json_ld. intros H.
  break_step; fields_all; rewrite ?update_last_length; done.
Qed.

Lemma handle_data_records data s :
  images (handle_data data s) = images s
  /\ videos (handle_data data s) = videos s
  /\ links (handle_data data s) = links s
  /\ code_blocks (handle_data data s) = code_blocks s.
Proof. unfold handle_data. break_step. Qed.

Lemma feed_records evs a b :
  feed json_loads evs a = Ok b ->
  length (images b) = length (images a) + length (filter (Stream.opens "img") evs)
  /\ length (videos b) =
     length (videos a) + length (filter (Stream.opens "video") evs)
  /\ length (links b) = length (links a) + length (filter Stream.opens_link evs)
  /\ length (code_blocks b) =
     length (code_blocks a) + length (filter Stream.opens_code evs).
Proof.
  revert a b. induction evs as [|ev evs IH]; simpl; intros a b H.
  - simplify_eq. repeat split; lia.
  - unfold mbind, result_bind in H.
    destruct (handle json_loads ev a) as [a1|] eqn:H1; [|done].
    destruct (IH _ _ H) as (Hi&Hv&Hl&Hc). rewrite Hi, Hv, Hl, Hc.
    rewrite !filter_cons.
    destruct ev as [tag attrs|tag|data]; simpl in H1.
    + apply handle_starttag_records in H1 as (->&->&->&->).
      unfold Stream.opens, Stream.opens_link, Stream.opens_code.
      destruct (String.eqb tag "img"), (String.eqb tag "video"),
        (String.eqb tag "a" && has_key (dict attrs) "href"), (is_code_tag tag);
        repeat case_decide; simpl; try lia; try done.
    + apply handle_endtag_records in H1 as (->&->&->&->).
      repeat case_decide; simpl; try lia; done.
    + simplify_eq. destruct (handle_data_records data a) as (->&->&->&->).
      repeat case_decide; simpl; try lia; done.
Qed.

(** X5: the record holds one image per [img] start tag, one video per
    [video] start tag, one link per [a] start tag with an [href] and one
    code block per [pre] or [code] start tag of the document. *)
Theorem media_counts base evs s :
  feed json_loads evs (init base) = Ok s ->
  length (images s) = length (filter (Stream.opens "img") evs)
  /\ length (videos s) = length (filter (Stream.opens "video") evs)
  /\ length (links s) = length (filter Stream.opens_link evs)
  /\ length (code_blocks s) = length (filter Stream.opens_code evs).
Proof.
  intros H. apply feed_records in H. simpl in H. exact H.
Qed.

(** *** A [meta] tag with a valueless attribute *)

Lemma handle_meta_without_value ev s :
  Stream.meta_without_value ev = true ->
  handle json_loads ev s = Raise AttributeError.
Proof.
  destruct ev as [tag attrs|tag|data]; simpl; [|done..].
  intros [Htag Hattr]%andb_true_iff. unfold handle_starttag.
  rewrite Htag. unfold _parse_meta_tag, get, lower.
  apply orb_true_iff in Hattr as [Hn%bool_decide_eq_true|Hp%bool_decide_eq_true].
  - by rewrite Hn.
  - rewrite Hp. simpl. by destruct (default (Some EmptyString) (dict attrs !! "name")).
Qed.

(** X6: a [meta] start tag that carries [name] or [property] without a value
    ends the parse with an [AttributeError], whatever comes before and
    after it and whatever its content. *)
Theorem meta_without_value_raises pre ev post s s1 :
  feed json_loads pre s = Ok s1 ->
  Stream.meta_without_value ev = true ->
  feed json_loads (pre ++ ev :: post) s = Raise AttributeError.
Proof.
  intros Hpre Hev. rewrite feed_app, Hpre. simpl.
  by rewrite (handle_meta_without_value _ _ Hev).
Qed.

(** *** The declared keywords *)

Lemma parse_meta_keywords attrs s s' :
  _parse_meta_tag attrs s = Ok s' ->
  Forall Stream.clean_keyword (keywords s) ->
  Forall Stream.clean_keyword (keywords s').
Proof.
  unfold _parse_meta_tag, lower. intros H Hk. break_step; fields_all.
  apply Forall_forall. intros k [Hne Hin]%list_elem_of_filter.
  apply list_elem_of_fmap in Hin as (piece&->&Hpiece).
  split; [by destruct (PyStr.strip piece)|]. split; [apply strip_idem|].
  apply (strip_no_char ",").
  match goal with
  | _ : get attrs "content" = Some ?c |- _ =>
      pose proof (split_on_pieces "," c) as Hall
  end.
  rewrite Forall_forall in Hall. by apply Hall.
Qed.

(** X7: the declared keywords of the record are never empty, carry no
    surrounding white space and hold no comma. *)
Theorem keywords_clean base evs s :
  feed json_loads evs (init base) = Ok s ->
  Forall Stream.clean_keyword (keywords s).
Proof.
  intros H.
  apply (feed_invariant (fun x => Forall Stream.clean_keyword (keywords x)))
    with (evs := evs) (s := init base) (s' := s); [|done|constructor].
  intros [tag attrs|tag|data] a b; simpl; intros Hab Ha.
  - unfold handle_starttag, _parse_link_tag, _parse_microdata, _parse_rdfa in Hab.
    destruct (String.eqb tag "meta") eqn:Hmeta.
    + unfold mbind, result_bind in Hab.
      destruct (_parse_meta_tag _ _) as [m|] eqn:Hm; [|done].
      apply parse_meta_keywords in Hm; [|by fields_all].
      repeat case_match; simplify_eq; by fields_all.
    + break_step.
  - unfold handle_endtag, load_json_ld in Hab. break_step.
  - simplify_eq. unfold handle_data. break_step.
Qed.

(** *** Collections only grow *)

Lemma handle_grows ev s s' :
  handle json_loads ev s = Ok s' ->
  paragraphs s `prefix_of` paragraphs s'
  /\ json_ld_data s `prefix_of` json_ld_data s'
  /\ images s `prefix_of` images s'
  /\ videos s `prefix_of` videos s'
  /\ microdata_items s `prefix_of` microdata_items s'
  /\ rdfa_data s `prefix_of` rdfa_data s'.
Proof.
  destruct ev as [tag attrs|tag|data]; simpl; intros H.
  - unfold handle_starttag, _parse_link_tag, _parse_microdata, _parse_rdfa in H.
    destruct (String.eqb tag "meta") eqn:Hmeta.
    + unfold mbind, result_bind in H.
      destruct (_parse_meta_tag _ _) as [m|] eqn:Hm; [|done].
      pose proof (parse_meta_media _ _ _ Hm) as (Hi&Hv&Hmd&Hr).
      apply parse_meta_frame in Hm as (_&Hp&_&_&Hj&_). fields_all.
      repeat case_match; simplify_eq; fields_all;
        rewrite ?Hp, ?Hj, ?Hi, ?Hv, ?Hmd, ?Hr;
        repeat split; first [ done | by apply prefix_app_r ].
    + break_step; fields_all; repeat split; first [ done | by apply prefix_app_r ].
  - unfold handle_endtag, load_json_ld in H.
    break_step; fields_all; repeat split; first [ done | by apply prefix_app_r ].
  - simplify_eq. unfold handle_data. break_step.
Qed.

(** X8: no handler removes or rewrites a stored paragraph, JSON-LD value,
    image, video, microdata item or RDFa item: what a parse has collected
    so far is a prefix of what it collects in the end. *)
Theorem collections_grow evs s s' :
  feed json_loads evs s = Ok s' ->
  paragraphs s `prefix_of` paragraphs s'
  /\ json_ld_data s `prefix_of` json_ld_data s'
  /\ images s `prefix_of` images s'
  /\ videos s `prefix_of` videos s'
  /\ microdata_items s `prefix_of` microdata_items s'
  /\ rdfa_data s `prefix_of` rdfa_data s'.
Proof.
  intros H.
  apply (feed_invariant (fun x =>
    paragraphs s `prefix_of` paragraphs x
    /\ json_ld_data s `prefix_of` json_ld_data x
    /\ images s `prefix_of` images x
    /\ videos s `prefix_of` videos x
    /\ microdata_items s `prefix_of` microdata_items x
    /\ rdfa_data s `prefix_of` rdfa_data x))
    with (evs := evs) (s := s) (s' := s'); [|done|done].
  intros ev a b Hab (?&?&?&?&?&?).
  apply handle_grows in Hab as (?&?&?&?&?&?).
  repeat split; by etrans.
Qed.

End ParserInvariants.

Lemma first_write_wins_witness :
  exists s',
    feed JsonRef.loads Documents.doc_retitle (set_title "First" (init EmptyString))
      = Ok s'
    /\ title s' = "First".
Proof.
  destruct (feed JsonRef.loads Documents.doc_retitle
              (set_title "First" (init EmptyString))) as [s'|] eqn:H;
    [|vm_compute in H; discriminate H].
  exists s'. split; [reflexivity|].
  apply (proj1 (first_write_wins JsonRef.loads Documents.doc_retitle
                  (set_title "First" (init EmptyString)) s' H)).
  discriminate.
Defined.

Lemma current_tag_is_top_witness :
  exists s',
    feed JsonRef.loads Samples.doc_paragraph_break (init EmptyString) = Ok s'
    /\ current_tag s' = last (tag_stack s').
Proof.
  destruct (feed JsonRef.loads Samples.doc_paragraph_break (init EmptyString))
    as [s'|] eqn:H; [|vm_compute in H; discriminate H].
  exists s'. split; [reflexivity|].
  apply (current_tag_is_top JsonRef.loads Samples.doc_paragraph_break
           (init EmptyString) s' H).
  reflexivity.
Defined.

Lemma balanced_restores_stack_witness :
  Stream.balanced Documents.doc_nested
  /\ exists s',
       feed JsonRef.loads Documents.doc_nested (init EmptyString) = Ok s'
       /\ tag_stack s' = [].
Proof.
  assert (Hb : Stream.balanced Documents.doc_nested).
  { apply (Stream.balanced_element "p" []
             [Data "plain"; StartTag "b" []; Data "bold"; EndTag "b"] []);
      [|constructor].
    constructor.
    apply (Stream.balanced_element "b" [] [Data "bold"] []); repeat constructor. }
  split; [exact Hb|].
  destruct (feed JsonRef.loads Documents.doc_nested (init EmptyString))
    as [s'|] eqn:H; [|vm_compute in H; discriminate H].
  exists s'. split; [reflexivity|].
  apply (balanced_restores_stack JsonRef.loads Documents.doc_nested
           (init EmptyString) s' Hb H).
Defined.

Lemma entries_clean_witness :
  exists s,
    feed JsonRef.loads Documents.doc_media (init EmptyString) = Ok s
    /\ Forall Stream.clean_entry (paragraphs s)
    /\ (Z.of_nat (length (paragraphs s)) <= word_count s)%Z.
Proof.
  destruct (feed JsonRef.loads Documents.doc_media (init EmptyString))
    as [s|] eqn:H; [|vm_compute in H; discriminate H].
  exists s. split; [reflexivity|].
  destruct (entries_clean JsonRef.loads EmptyString Documents.doc_media s H)
    as (Hp&_&_&Hw).
  split; [exact Hp|exact Hw].
Defined.

Lemma media_counts_witness :
  exists s,
    feed JsonRef.loads Documents.doc_media (init EmptyString) = Ok s
    /\ length (images s) = 1 /\ length (links s) = 1
    /\ length (code_blocks s) = 1.
Proof.
  destruct (feed JsonRef.loads Documents.doc_media (init EmptyString))
    as [s|] eqn:H; [|vm_compute in H; discriminate H].
  exists s. split; [reflexivity|].
  destruct (media_counts JsonRef.loads EmptyString Documents.doc_media s H)
    as (Hi&_&Hl&Hc).
  rewrite Hi, Hl, Hc. vm_compute. repeat split.
Defined.

Lemma meta_without_value_raises_witness :
  (exists s1,
     feed JsonRef.loads Samples.doc_two_descriptions (init EmptyString) = Ok s1)
  /\ Stream.meta_without_value Documents.meta_name_without_value = true
  /\ feed JsonRef.loads
       (Samples.doc_two_descriptions
        ++ Documents.meta_name_without_value :: Documents.doc_media)
       (init EmptyString)
     = Raise AttributeError.
Proof.
  assert (Hev : Stream.meta_without_value Documents.meta_name_without_value = true)
    by (vm_compute; reflexivity).
  destruct (feed JsonRef.loads Samples.doc_two_descriptions (init EmptyString))
    as [s1|] eqn:H; [|vm_compute in H; discriminate H].
  split; [by exists s1|]. split; [exact Hev|].
  exact (meta_without_value_raises JsonRef.loads Samples.doc_two_descriptions
           Documents.meta_name_without_value Documents.doc_media
           (init EmptyString) s1 H Hev).
Defined.

Lemma keywords_clean_witness :
  exists s,
    feed JsonRef.loads Documents.doc_keywords (init EmptyString) = Ok s
    /\ keywords s = ["rocq"; "proof"; "html"]
    /\ Forall Stream.clean_keyword (keywords s).
Proof.
  destruct (feed JsonRef.loads Documents.doc_keywords (init EmptyString))
    as [s|] eqn:H; [|vm_compute in H; discriminate H].
  exists s. split; [reflexivity|].
  split; [vm_compute in H; injection H as <-; reflexivity|].
  exact (keywords_clean JsonRef.loads EmptyString Documents.doc_keywords s H).
Defined.

Lemma collections_grow_witness :
  exists s',
    feed JsonRef.loads Documents.doc_media
      (set_paragraphs ["kept"] (init EmptyString)) = Ok s'
    /\ ["kept"] `prefix_of` paragraphs s'.
Proof.
  destruct (feed JsonRef.loads Documents.doc_media
              (set_paragraphs ["kept"] (init EmptyString))) as [s'|] eqn:H;
    [|vm_compute in H; discriminate H].
  exists s'. split; [reflexivity|].
  apply (collections_grow JsonRef.loads Documents.doc_media
           (set_paragraphs ["kept"] (init EmptyString)) s' H).
Defined.

(** ** Further properties of the content-type classifier *)

Section ClassifierFacts.

Import ContentTypeDetector.

(** *** The keyword table *)

Lemma detect_keyword_first table url text :
  match detect_keyword table url text with
  | Some schema_type =>
      exists pre kws post,
        table = pre ++ (schema_type, kws) :: post
        /\ existsb (triggers url text) kws = true
        /\ Forall (fun entry => existsb (triggers url text) entry.2 = false) pre
  | None =>
      Forall (fun entry => existsb (triggers url text) entry.2 = false) table
  end.
Proof.
  induction table as [|[name kws] table IH]; simpl; [constructor|].
  destruct (existsb (triggers url text) kws) eqn:Hk.
  - exists [], kws, table. by repeat split.
  - destruct (detect_keyword table url text) as [schema_type|].
    + destruct IH as (pre&kws'&post&->&Hk'&Hpre).
      exists ((name, kws) :: pre), kws', post. repeat split; [done|].
      by constructor.
    + by constructor.
Qed.

(** X9: the keyword fallback returns the first type of [SCHEMA_TYPES] that
    has a keyword occurring in the URL or in the content text, and no
    type when no keyword occurs.  It never returns [BlogPosting]: both
    keywords of that entry are keywords of [Article], which comes first. *)
Theorem detect_keyword_spec url text :
  match detect_keyword SCHEMA_TYPES url text with
  | Some schema_type =>
      exists pre kws post,
        SCHEMA_TYPES = pre ++ (schema_type, kws) :: post
        /\ existsb (triggers url text) kws = true
        /\ Forall (fun entry => existsb (triggers url text) entry.2 = false) pre
  | None =>
      Forall (fun entry => existsb (triggers url text) entry.2 = false)
        SCHEMA_TYPES
  end
  /\ detect_keyword SCHEMA_TYPES url text <> Some "BlogPosting".
Proof.
  split; [apply detect_keyword_first|].
  unfold SCHEMA_TYPES. cbn [detect_keyword existsb].
  destruct (triggers url text "article"), (triggers url text "blog"),
    (triggers url text "post"), (triggers url text "news"); cbn [orb]; try done.
  repeat case_match; done.
Qed.

(** *** Totality on well-formed JSON-LD *)

Lemma detect_json_ld_total data :
  forallb SchemaData.typed_object data = true ->
  exists r, detect_json_ld data = Ok r.
Proof.
  induction data as [|ld data IH]; simpl; [eauto|].
  intros [Hld Hdata]%andb_true_iff.
  destruct ld as [| | | | | |members]; try done.
  cbn [PyJson.contains PyJson.getitem]. unfold mbind, result_bind.
  unfold SchemaData.typed_object in Hld.
  destruct (PyJson.lookup "@type" members) as [v|] eqn:Hv.
  - rewrite bool_decide_eq_true_2 by eauto.
    destruct v as [| | | | |[|x items]|]; try done; eauto.
  - rewrite bool_decide_eq_false_2 by (by intros [? ?]). by apply IH.
Qed.

(** X10: when every JSON-LD entry is an object and no [@type] is an empty
    list, the classifier returns a type and raises nothing. *)
Theorem detect_type_total parser url :
  forallb SchemaData.typed_object (UniversalHTMLParser.json_ld_data parser) = true ->
  exists content_type, detect_type parser url = Ok content_type.
Proof.
  intros H. unfold detect_type.
  destruct (detect_json_ld_total _ H) as [r ->]. simpl.
  repeat case_match; eauto.
Qed.

(** *** The microdata type *)




(** *** The schema data *)

Lemma copy_keys_lookup_go members keys (data : gmap string json) key :
  foldl (fun data key =>
           match PyJson.lookup key members with
           | Some v => <[key := v]> data
           | None => data
           end) data keys !! key
  = if bool_decide (key ∈ keys)
    then match PyJson.lookup key members with
         | Some v => Some v
         | None => data !! key
         end
    else data !! key.
Proof.
  revert data. induction keys as [|k keys IH]; intros data; simpl; [done|].
  rewrite IH. destruct (decide (k = key)) as [->|Hne].
  - rewrite (bool_decide_eq_true_2 (key ∈ key :: keys)) by set_solver.
    destruct (PyJson.lookup key members) as [v|] eqn:Hv;
      [rewrite lookup_insert_eq|]; by case_bool_decide.
  - destruct (decide (key ∈ keys)) as [Hin|Hnin].
    + rewrite !bool_decide_eq_true_2 by set_solver.
      destruct (PyJson.lookup key members); [done|].
      destruct (PyJson.lookup k members); [by rewrite lookup_insert_ne|done].
    + rewrite !bool_decide_eq_false_2 by set_solver.
      destruct (PyJson.lookup k members); [by rewrite lookup_insert_ne|done].
Qed.

Lemma last_omap_cons {A B} (f : A -> option B) x l :
  last (omap f (x :: l))
  = match last (omap f l) with Some v => Some v | None => f x end.
Proof.
  cbn [omap list_omap]. destruct (f x) as [y|].
  - rewrite last_cons. by destruct (last (omap f l)).
  - by destruct (last (omap f l)).
Qed.

(** X12: in the schema data a recognized key holds the value of the last
    JSON-LD object that has it, and the value set from the record when no
    object has it; the other keys keep the value set from the record.
    Entries of the JSON-LD collection that are not objects are skipped. *)
Theorem extract_schema_data_lookup parser content_type key :
  SchemaData.extract_schema_data parser content_type !! key
  = if bool_decide (key ∈ SchemaData.recognized)
    then match SchemaData.last_value key (UniversalHTMLParser.json_ld_data parser) with
         | Some v => Some v
         | None => SchemaData.base parser content_type !! key
         end
    else SchemaData.base parser content_type !! key.
Proof.
  unfold SchemaData.extract_schema_data, SchemaData.last_value.
  generalize (SchemaData.base parser content_type).
  induction (UniversalHTMLParser.json_ld_data parser) as [|ld data IH];
    intros d; [by case_bool_decide|].
  cbn [foldl]. rewrite IH, last_omap_cons.
  destruct (bool_decide (key ∈ SchemaData.recognized)) eqn:Hkey.
  - destruct (last (omap _ data)); [done|].
    destruct ld; try done. unfold SchemaData.copy_keys.
    rewrite copy_keys_lookup_go, Hkey. done.
  - destruct ld; try done. unfold SchemaData.copy_keys.
    by rewrite copy_keys_lookup_go, Hkey.
Qed.

End ClassifierFacts.

Lemma detect_type_total_witness :
  exists parser content_type,
    UniversalHTMLParser.parse JsonRef.loads EmptyString Samples.doc_two_types
      = Ok parser
    /\ forallb SchemaData.typed_object (UniversalHTMLParser.json_ld_data parser)
       = true
    /\ ContentTypeDetector.detect_type parser "/" = Ok content_type.
Proof.
  destruct (UniversalHTMLParser.parse JsonRef.loads EmptyString Samples.doc_two_types)
    as [parser|] eqn:H; [|vm_compute in H; discriminate H].
  assert (Hld : forallb SchemaData.typed_object
                  (UniversalHTMLParser.json_ld_data parser) = true).
  { vm_compute in H. injection H as <-. reflexivity. }
  destruct (detect_type_total parser "/" Hld) as [content_type Hct].
  exists parser, content_type. split; [reflexivity|]. split; [exact Hld|exact Hct].
Defined.


(** ** Further properties of the keyword extractor *)

Section KeywordFacts.

Import KeywordExtractor.

Lemma list_take_all {A} (n : Z) (l : list A) :
  (Z.of_nat (length l) <= n)%Z -> PyStr.list_take n l = l.
Proof.
  intros Hn. unfold PyStr.list_take, PyStr.slice_to.
  destruct (n <? 0)%Z eqn:Hneg; [apply Z.ltb_lt in Hneg; lia|].
  apply take_ge. lia.
Qed.

Lemma NoDup_iter order l : NoDup (iter order l).
Proof. rewrite (iter_perm order). apply NoDup_remove_dups. Qed.

(** X13: the extractor returns no keyword twice. *)
Theorem extract_keywords_distinct order parser (N : Z) :
  NoDup (extract_keywords order parser N).
Proof.
  unfold extract_keywords, PyStr.list_take.
  eapply sublist_NoDup; [apply NoDup_iter|apply sublist_take].
Qed.

(** X14: when the declared keywords and the top words make at most [N]
    distinct words together, nothing is cut: the result holds exactly
    these words, so every declared keyword is kept. *)
Theorem declared_keywords_kept order parser (N : Z) :
  (Z.of_nat (length (remove_dups
     (UniversalHTMLParser.keywords parser ++ top_words parser N))) <= N)%Z ->
  extract_keywords order parser N
    ≡ₚ remove_dups (UniversalHTMLParser.keywords parser ++ top_words parser N)
  /\ forall k, k ∈ UniversalHTMLParser.keywords parser ->
       k ∈ extract_keywords order parser N.
Proof.
  intros Hsize.
  assert (HN : (0 <= N)%Z) by lia.
  assert (Hperm : extract_keywords order parser N
    ≡ₚ remove_dups (UniversalHTMLParser.keywords parser ++ top_words parser N)).
  { unfold extract_keywords.
    rewrite (list_take_all N (top_words parser N)).
    - rewrite list_take_all; [apply iter_perm|].
      by rewrite (iter_perm order).
    - unfold top_words. rewrite length_map. by apply length_most_common. }
  split; [exact Hperm|]. intros k Hk.
  rewrite Hperm, elem_of_remove_dups. set_solver.
Qed.

End KeywordFacts.

Lemma declared_keywords_kept_witness :
  (Z.of_nat (length (remove_dups
     (UniversalHTMLParser.keywords Samples.parser_two_keywords
      ++ KeywordExtractor.top_words Samples.parser_two_keywords 10))) <= 10)%Z
  /\ "beta" ∈ KeywordExtractor.extract_keywords insertion_order
               Samples.parser_two_keywords 10.
Proof.
  assert (H : (Z.of_nat (length (remove_dups
     (UniversalHTMLParser.keywords Samples.parser_two_keywords
      ++ KeywordExtractor.top_words Samples.parser_two_keywords 10))) <= 10)%Z)
    by (vm_compute; discriminate).
  split; [exact H|].
  apply (proj2 (declared_keywords_kept insertion_order
                  Samples.parser_two_keywords 10 H)).
  vm_compute. apply list_elem_of_In. right. left. reflexivity.
Defined.

(** ** Further properties of the hash embedding *)

Section EmbeddingFacts.

Import EmbeddingGenerator.

Variable md5_int : string -> Z.

(** Past the sixteen bytes of the hash every component is -1: the shifted
    hash is 0 there. *)
Lemma component_past_hash hash_val i :
  (0 <= hash_val < 2 ^ 128)%Z -> (16 <= i)%Z ->
  component hash_val i = (-1000 # 1000)%Q.
Proof.
  intros Hh Hi. rewrite component_value.
  rewrite Z.shiftr_div_pow2 by lia.
  assert (Hpow : (2 ^ 128 <= 2 ^ (i * 8))%Z)
    by (apply Z.pow_le_mono_r; lia).
  rewrite Z.div_small by lia. reflexivity.
Qed.

Lemma range_drop_ge (n : nat) (dimensions i : Z) :
  i ∈ drop n (range dimensions) -> (Z.of_nat n <= i)%Z.
Proof.
  unfold range. intros (k&Hk)%list_elem_of_lookup.
  rewrite lookup_drop, list_lookup_fmap in Hk.
  destruct (seq 0 (Z.to_nat dimensions) !! (n + k)) as [m|] eqn:Hm;
    simplify_eq/=.
  apply lookup_seq in Hm as [-> _]. lia.
Qed.

(** X15: for a hash of 128 bits, as MD5 is, a vector of more than sixteen
    dimensions holds -1 in every component after the sixteenth, in
    [generate_simple_embedding] and in [HashEmbeddings.embed] alike. *)
Theorem embedding_tail_constant (c : ascii) (text : string) (dimensions : Z) :
  (0 <= md5_int (String c text) < 2 ^ 128)%Z ->
  Forall (fun x => x = (-1000 # 1000)%Q /\ (x == - (1))%Q)
    (drop 16 (generate_simple_embedding md5_int (String c text) dimensions))
  /\ Forall (fun x => x = (-1000 # 1000)%Q /\ (x == - (1))%Q)
       (drop 16 (HashEmbeddings.embed md5_int (HashEmbeddings.mk dimensions)
                   (String c text))).
Proof.
  intros Hh.
  assert (Hall : Forall (fun x => x = (-1000 # 1000)%Q /\ (x == - (1))%Q)
            (drop 16 (map (component (md5_int (String c text)))
                        (range dimensions)))).
  { rewrite <- fmap_drop. apply Forall_forall. intros x Hx.
    apply list_elem_of_fmap in Hx as (i&->&Hi).
    apply range_drop_ge in Hi.
    rewrite (component_past_hash _ _ Hh) by lia. done. }
  split; exact Hall.
Qed.

Lemma list_take_app_ge {A} (n : nat) (l more : list A) :
  n <= length l ->
  PyStr.list_take (Z.of_nat n) (l ++ more) = PyStr.list_take (Z.of_nat n) l.
Proof.
  intros Hn. unfold PyStr.list_take, PyStr.slice_to.
  destruct (Z.of_nat n <? 0)%Z eqn:Hneg; [apply Z.ltb_lt in Hneg; lia|].
  rewrite Nat2Z.id, length_app.
  rewrite !Nat.min_l by lia. by rewrite take_app_le.
Qed.

Lemma content_embedding_length parser :
  length (generate_content_embedding md5_int parser) = 16.
Proof.
  unfold generate_content_embedding, generate_simple_embedding.
  destruct (PyStr.join _ _); [done|]. by rewrite length_map, length_range.
Qed.

(** X16: the embedding of a record has sixteen components between -1 and 1,
    and the paragraphs after the fifth play no part in it. *)
Theorem content_embedding_spec parser more :
  length (generate_content_embedding md5_int parser) = 16
  /\ Forall (fun x => (- (1) <= x /\ x <= 1)%Q)
       (generate_content_embedding md5_int parser)
  /\ (5 <= length (UniversalHTMLParser.paragraphs parser) ->
      generate_content_embedding md5_int
        (UniversalHTMLParser.set_paragraphs
           (UniversalHTMLParser.paragraphs parser ++ more) parser)
      = generate_content_embedding md5_int parser).
Proof.
  split; [|split].
  - unfold generate_content_embedding, generate_simple_embedding.
    destruct (PyStr.join _ _); [done|]. by rewrite length_map, length_range.
  - unfold generate_content_embedding, generate_simple_embedding.
    destruct (PyStr.join _ _).
    + apply Forall_forall. intros x [-> _]%elem_of_replicate. done.
    + apply Forall_forall. intros x (i&->&_)%list_elem_of_fmap.
      apply component_bounds.
  - intros Hlen. unfold generate_content_embedding. fields.
    cbn [UniversalHTMLParser.title UniversalHTMLParser.description
         UniversalHTMLParser.headings UniversalHTMLParser.paragraphs
         UniversalHTMLParser.set_paragraphs].
    by rewrite (list_take_app_ge 5).
Qed.

End EmbeddingFacts.

(** The reference hash has 128 bits. *)
Lemma md5_ref_range text : (0 <= Md5Ref.md5_int text < 2 ^ 128)%Z.
Proof.
  unfold Md5Ref.md5_int, Md5Ref.digest.
  destruct (Md5Ref.blocks _ _ _) as [[[a b] c] d].
  unfold Md5Ref.bytes_of_word. cbn [seq map app foldl].
  repeat match goal with
         | |- context [(?x mod 256)%Z] =>
             let H := fresh in
             pose proof (Z.mod_pos_bound x 256 eq_refl) as H;
             generalize dependent (x mod 256)%Z; intros
         end.
  lia.
Qed.

Lemma embedding_tail_constant_witness :
  (0 <= Md5Ref.md5_int "abc" < 2 ^ 128)%Z
  /\ Forall (fun x => x = (-1000 # 1000)%Q /\ (x == - (1))%Q)
       (drop 16 (EmbeddingGenerator.generate_simple_embedding
                   Md5Ref.md5_int "abc" 18)).
Proof.
  assert (H : (0 <= Md5Ref.md5_int "abc" < 2 ^ 128)%Z)
    by (vm_compute; split; congruence).
  split; [exact H|].
  exact (proj1 (embedding_tail_constant Md5Ref.md5_int "a" "bc" 18 H)).
Defined.

Lemma content_embedding_spec_witness :
  5 <= length (UniversalHTMLParser.paragraphs
                 (UniversalHTMLParser.set_paragraphs ["a"; "b"; "c"; "d"; "e"]
                    (UniversalHTMLParser.init EmptyString)))
  /\ EmbeddingGenerator.generate_content_embedding Md5Ref.md5_int
       (UniversalHTMLParser.set_paragraphs ["a"; "b"; "c"; "d"; "e"; "f"]
          (UniversalHTMLParser.init EmptyString))
     = EmbeddingGenerator.generate_content_embedding Md5Ref.md5_int
         (UniversalHTMLParser.set_paragraphs ["a"; "b"; "c"; "d"; "e"]
            (UniversalHTMLParser.init EmptyString)).
Proof.
  assert (H : 5 <= length (UniversalHTMLParser.paragraphs
                 (UniversalHTMLParser.set_paragraphs ["a"; "b"; "c"; "d"; "e"]
                    (UniversalHTMLParser.init EmptyString)))) by (simpl; lia).
  split; [exact H|].
  exact (proj2 (proj2 (content_embedding_spec Md5Ref.md5_int
           (UniversalHTMLParser.set_paragraphs ["a"; "b"; "c"; "d"; "e"]
              (UniversalHTMLParser.init EmptyString)) ["f"])) H).
Defined.

(** ** From the files to the output *)

Section SiteFacts.

Import WebsiteScanner LLMRGenerator Site.

Variable json_loads : string -> result json.
Variable md5_int : string -> Z.
Variable order : KeywordExtractor.SetIter.
Variable counter : list json -> list (json * Z).
Variable langs : list (option string) -> list (option string).
Variable generated : string.
Variable timestamp : Z.
Variable base_url : string.

Local Abbreviation process f evs :=
  (_process_page json_loads md5_int order base_url (stem f) (url f) evs).
Local Abbreviation scan_file := (Site.scan_file json_loads md5_int order base_url).
Local Abbreviation scan_pages := (Site.scan_pages json_loads md5_int order base_url).
Local Abbreviation scan := (Site.scan json_loads md5_int order counter base_url).
Local Abbreviation generate :=
  (Site.generate langs generated timestamp base_url).
Local Abbreviation main_local :=
  (Site.main_local json_loads md5_int order counter langs generated timestamp
     base_url).

(** *** The loop of [scan] *)

Lemma scan_file_acc acc html_files :
  foldl scan_file acc html_files = acc ++ foldl scan_file [] html_files.
Proof.
  revert acc. induction html_files as [|f fs IH]; intros acc; simpl.
  - by rewrite app_nil_r.
  - rewrite IH. rewrite (IH (Site.scan_file _ _ _ _ [] f)).
    unfold Site.scan_file. repeat case_match; simpl;
      rewrite ?app_nil_r, <- ?app_assoc; done.
Qed.

Lemma scan_pages_cons f html_files :
  scan_pages (f :: html_files) = scan_file [] f ++ scan_pages html_files.
Proof. unfold Site.scan_pages. simpl. apply scan_file_acc. Qed.

Lemma scan_pages_app before after :
  scan_pages (before ++ after) = scan_pages before ++ scan_pages after.
Proof.
  unfold Site.scan_pages. rewrite foldl_app. apply scan_file_acc.
Qed.

(** X17: a file that cannot be read, or whose processing raises, leaves no
    trace in the pages of the scan: the other files give the pages they
    give without it. *)
Theorem scan_skips_failed_file before f after :
  (content f = None
   \/ exists evs e, content f = Some evs /\ process f evs = Raise e) ->
  scan_pages (before ++ f :: after) = scan_pages (before ++ after).
Proof.
  intros Hf. rewrite !scan_pages_app, scan_pages_cons.
  assert (scan_file [] f = []) as ->; [|done].
  unfold Site.scan_file. destruct Hf as [->|(evs&e&->&->)]; done.
Qed.

(** X18: the pages of a scan follow the order of the files: their ids are,
    in order, stems of the files, and their URLs the URLs of these
    files. *)
Theorem scan_pages_in_file_order html_files :
  map (fun p => (page_id p, page_url p)) (scan_pages html_files)
    `sublist_of` map (fun f => (stem f, url f)) html_files.
Proof.
  induction html_files as [|f fs IH]; [done|].
  rewrite scan_pages_cons. unfold Site.scan_file.
  destruct (content f) as [evs|]; [|by apply sublist_cons].
  destruct (process f evs) as [page|e] eqn:Hp; [|by apply sublist_cons].
  unfold _process_page, mbind, result_bind in Hp.
  destruct (parse json_loads base_url evs) as [parser|]; [|done].
  destruct (ContentTypeDetector.detect_type parser (url f)); [|done].
  simplify_eq. simpl. by apply sublist_skip.
Qed.

Lemma scan_pages_elem f html_files evs page :
  f ∈ html_files -> content f = Some evs -> process f evs = Ok page ->
  page ∈ scan_pages html_files.
Proof.
  intros (before&after&->)%list_elem_of_split Hc Hp.
  rewrite scan_pages_app, scan_pages_cons. unfold Site.scan_file.
  rewrite Hc, Hp. set_solver.
Qed.

(** *** A type that cannot be counted *)

(** X19: one page whose type is a JSON object or a list makes the whole scan
    raise [TypeError]: the counter of the content types is outside the
    [try] that isolates the pages. *)
Theorem scan_fails_on_unhashable_type html_files f evs page :
  f ∈ html_files -> content f = Some evs -> process f evs = Ok page ->
  hashable (page_type page) = false ->
  scan html_files = Raise TypeError
  /\ main_local html_files = Raise TypeError.
Proof.
  intros Hf Hc Hp Hh.
  pose proof (scan_pages_elem _ _ _ _ Hf Hc Hp) as Hin.
  assert (Hscan : scan html_files = Raise TypeError).
  { unfold Site.scan, _extract_site_metadata.
    destruct (forallb _ _) eqn:Hall; [|done].
    rewrite forallb_forall in Hall. apply list_elem_of_In in Hin.
    apply Hall in Hin. congruence. }
  split; [done|]. unfold Site.main_local. by rewrite Hscan.
Qed.

(** *** The output of the local mode *)

Lemma generate_nonempty p pages site_metadata :
  generate (p :: pages) site_metadata = Raise NameError.
Proof. unfold Site.generate. by rewrite generate_stats_raises. Qed.

(** X20: the local mode gets through [generate], and so writes its file,
    only for a site without a single processed page: the output then has
    no page and the stats [{total_pages: 0}].  As soon as one file is
    processed the run ends with [TypeError] when a page type is not
    hashable, and with the [NameError] of the stats otherwise. *)
Theorem main_local_outcome html_files :
  match main_local html_files with
  | Ok out =>
      scan_pages html_files = []
      /\ llmr_pages out = []
      /\ llmr_stats out = <["total_pages" := VInt 0]> ∅
      /\ llmr_site_total_pages out = 0%Z
      /\ llmr_site_title out = EmptyString
      /\ llmr_site_content_types out = counter []
  | Raise e =>
      scan_pages html_files <> []
      /\ e = (if forallb (fun p => hashable (page_type p)) (scan_pages html_files)
              then NameError else TypeError)
  end.
Proof.
  unfold Site.main_local, Site.scan, _extract_site_metadata.
  destruct (scan_pages html_files) as [|p pages] eqn:Hpages.
  - simpl. by repeat split.
  - destruct (forallb _ (p :: pages)) eqn:Hall.
    + unfold mbind at 1 2, result_bind. cbn [fst snd].
      rewrite generate_nonempty. done.
    + done.
Qed.

(** *** The summary of a processed page *)

Lemma str_take_all (n : nat) s :
  String.length s <= n -> PyStr.str_take (Z.of_nat n) s = s.
Proof.
  intros Hn. unfold PyStr.str_take, PyStr.slice_to.
  destruct (Z.of_nat n <? 0)%Z eqn:Hneg; [apply Z.ltb_lt in Hneg; lia|].
  rewrite Nat2Z.id, Nat.min_r by lia. clear.
  induction s as [|c s IH]; [done|]. simpl. by rewrite IH.
Qed.

Lemma str_take_nonempty (n : nat) s :
  0 < n -> s <> EmptyString -> PyStr.str_take (Z.of_nat n) s <> EmptyString.
Proof.
  intros Hn Hs. unfold PyStr.str_take, PyStr.slice_to.
  destruct (Z.of_nat n <? 0)%Z eqn:Hneg; [apply Z.ltb_lt in Hneg; lia|].
  rewrite Nat2Z.id. destruct s as [|c s]; [done|].
  destruct n as [|n]; [lia|]. done.
Qed.

Ltac summary_key key :=
  unfold compress_page; cbv zeta;
  match goal with
  | |- context [<["id" := ?v]> ?m] =>
      let base := fresh "base" in
      let Hbase := fresh "Hbase" in
      set (base := <["id" := v]> m);
      assert (Hbase : base !! key = (<["id" := v]> m : gmap string value) !! key)
        by reflexivity;
      repeat rewrite lookup_insert_ne in Hbase by done;
      rewrite ?lookup_insert_eq, ?lookup_empty in Hbase;
      clearbody base
  end;
  repeat case_match;
  repeat first [ rewrite lookup_insert_eq | rewrite lookup_insert_ne by done ];
  try done.

Lemma compress_page_id page :
  compress_page page !! "id" = Some (VStr (page_id page)).
Proof. summary_key "id"; simplify_eq; simpl; try congruence. Qed.

Lemma compress_page_u page :
  compress_page page !! "u" = Some (VStr (page_url page)).
Proof. summary_key "u"; simplify_eq; simpl; try congruence. Qed.

Lemma compress_page_kw page :
  compress_page page !! "kw" =
  Some (VStrs (PyStr.list_take 10 (page_keywords page))).
Proof. summary_key "kw"; simplify_eq; simpl; try congruence. Qed.

Lemma compress_page_emb page :
  compress_page page !! "emb" = Some (VFloats (page_embedding page)).
Proof. summary_key "emb"; simplify_eq; simpl; try congruence. Qed.

(** X21: in the summary of a page that the scanner has processed, the second
    cut of the description and of the keywords removes nothing; the
    vector has sixteen components; [cb] is the number of [pre] and
    [code] start tags of the document, present when there is one; and
    an [h1] entry is never the empty string. *)
Theorem summary_of_processed_page stem url evs page :
  _process_page json_loads md5_int order base_url stem url evs = Ok page ->
  compress_page page !! "id" = Some (VStr stem)
  /\ compress_page page !! "u" = Some (VStr url)
  /\ compress_page page !! "d" = Some (VStr (page_description page))
  /\ String.length (page_description page) <= 200
  /\ compress_page page !! "kw" = Some (VStrs (page_keywords page))
  /\ length (page_keywords page) <= 10
  /\ compress_page page !! "emb" = Some (VFloats (page_embedding page))
  /\ length (page_embedding page) = 16
  /\ compress_page page !! "cb" =
     (let n := length (filter Stream.opens_code evs) in
      if decide (n = 0) then None else Some (VInt (Z.of_nat n)))
  /\ (forall v, compress_page page !! "h1" = Some v ->
      exists text, v = VStr text /\ text <> EmptyString).
Proof.
  intros Hp. unfold _process_page, parse, mbind, result_bind in Hp.
  destruct (feed json_loads evs (init base_url)) as [s|] eqn:Hfeed; [|done].
  destruct (ContentTypeDetector.detect_type _ url) as [content_type|]; [|done].
  injection Hp as <-.
  rewrite compress_page_id, compress_page_u, compress_page_d,
    compress_page_kw, compress_page_emb, compress_page_cb, compress_page_h1.
  cbn [page_id page_url page_description page_keywords page_embedding
       page_code_blocks_count page_headings].
  assert (Hd : String.length
                 (PyStr.str_take 200 (description (calculate_read_time s))) <= 200).
  { rewrite (length_str_take 200). lia. }
  assert (Hk : length (KeywordExtractor.extract_keywords order
                         (calculate_read_time s) 10) <= 10).
  { pose proof (length_list_take 10
        (KeywordExtractor.iter order
           (keywords (calculate_read_time s) ++
            PyStr.list_take 10
              (KeywordExtractor.top_words (calculate_read_time s) 10)))) as H.
    unfold KeywordExtractor.extract_keywords. lia. }
  repeat split; try done.
  - by rewrite (str_take_all 200).
  - by rewrite (list_take_all 10) by lia.
  - apply (content_embedding_length md5_int).
  - assert (Hcb : code_blocks (calculate_read_time s) = code_blocks s)
      by (unfold calculate_read_time; case_match; done).
    rewrite Hcb. destruct (feed_records _ _ _ _ Hfeed) as (_&_&_&->).
    simpl. case_decide as Hn.
    + rewrite Hn. done.
    + destruct (0 <? _)%Z eqn:Hlt; [done|]. apply Z.ltb_ge in Hlt. lia.
  - intros v Hv.
    destruct (filter _ (headings (calculate_read_time s)) !! "h1")
      as [[|first rest]|] eqn:Hh; try done.
    simplify_eq. eexists. split; [done|].
    apply map_lookup_filter_Some in Hh as [Hh _].
    assert (Hs : headings (calculate_read_time s) = headings s)
      by (unfold calculate_read_time; case_match; done).
    rewrite Hs in Hh.
    destruct (feed_entries _ _ _ _ Hfeed) as (_&Hclean&_).
    apply Hclean in Hh. apply Forall_cons in Hh as [[Hne _] _].
    by apply (str_take_nonempty 100); [lia|].
Qed.

End SiteFacts.

Lemma scan_skips_failed_file_witness :
  (Site.content Site.valueless_meta_file = None
   \/ exists evs e,
        Site.content Site.valueless_meta_file = Some evs
        /\ WebsiteScanner._process_page JsonRef.loads Md5Ref.md5_int
             insertion_order EmptyString (Site.stem Site.valueless_meta_file)
             (Site.url Site.valueless_meta_file) evs = Raise e)
  /\ Site.scan_pages JsonRef.loads Md5Ref.md5_int insertion_order EmptyString
       ([Site.plain_file "index"] ++ Site.valueless_meta_file
          :: [Site.plain_file "about"])
     = Site.scan_pages JsonRef.loads Md5Ref.md5_int insertion_order EmptyString
         ([Site.plain_file "index"] ++ [Site.plain_file "about"]).
Proof.
  assert (H : Site.content Site.valueless_meta_file = None
   \/ exists evs e,
        Site.content Site.valueless_meta_file = Some evs
        /\ WebsiteScanner._process_page JsonRef.loads Md5Ref.md5_int
             insertion_order EmptyString (Site.stem Site.valueless_meta_file)
             (Site.url Site.valueless_meta_file) evs = Raise e).
  { right. eexists _, AttributeError. split; [reflexivity|].
    vm_compute. reflexivity. }
  split; [exact H|].
  exact (scan_skips_failed_file JsonRef.loads Md5Ref.md5_int insertion_order
           EmptyString [Site.plain_file "index"] Site.valueless_meta_file
           [Site.plain_file "about"] H).
Defined.

Lemma scan_fails_on_unhashable_type_witness :
  Site.scan JsonRef.loads Md5Ref.md5_int insertion_order (fun _ => [])
    EmptyString [Site.plain_file "index"; Site.object_type_file]
  = Raise TypeError
  /\ Site.main_local JsonRef.loads Md5Ref.md5_int insertion_order (fun _ => [])
       (fun l => l) "2026-01-01T00:00:00" 0 EmptyString
       [Site.plain_file "index"; Site.object_type_file]
     = Raise TypeError.
Proof.
  destruct (WebsiteScanner._process_page JsonRef.loads Md5Ref.md5_int
              insertion_order EmptyString (Site.stem Site.object_type_file)
              (Site.url Site.object_type_file)
              (Samples.json_ld_script
                 ("{" ++ Samples.dq ++ "@type" ++ Samples.dq ++ ": {}}")%string))
    as [page|e] eqn:Hp.
  - assert (Ht : WebsiteScanner.page_type page = JObj []).
    { pose proof Hp as Hp'. vm_compute in Hp'. by injection Hp' as <-. }
    apply (scan_fails_on_unhashable_type JsonRef.loads Md5Ref.md5_int
             insertion_order (fun _ => []) (fun l => l) "2026-01-01T00:00:00" 0
             EmptyString _ Site.object_type_file
             (Samples.json_ld_script
                ("{" ++ Samples.dq ++ "@type" ++ Samples.dq ++ ": {}}")%string)
             page).
    + apply list_elem_of_In. right. left. reflexivity.
    + reflexivity.
    + exact Hp.
    + by rewrite Ht.
  - vm_compute in Hp. discriminate Hp.
Defined.

Lemma summary_of_processed_page_witness :
  exists page,
    WebsiteScanner._process_page JsonRef.loads Md5Ref.md5_int insertion_order
      EmptyString "index" "/index.html"
      [StartTag "h1" []; Data "Welcome"; EndTag "h1";
       StartTag "pre" []; Data "x = 1"; EndTag "pre"] = Ok page
    /\ LLMRGenerator.compress_page page !! "cb" = Some (LLMRGenerator.VInt 1)
    /\ length (WebsiteScanner.page_embedding page) = 16.
Proof.
  destruct (WebsiteScanner._process_page JsonRef.loads Md5Ref.md5_int
              insertion_order EmptyString "index" "/index.html"
              [StartTag "h1" []; Data "Welcome"; EndTag "h1";
               StartTag "pre" []; Data "x = 1"; EndTag "pre"])
    as [page|e] eqn:Hp.
  - exists page. split; [reflexivity|].
    pose proof (summary_of_processed_page JsonRef.loads Md5Ref.md5_int
                  insertion_order EmptyString _ _ _ _ Hp)
      as (_&_&_&_&_&_&_&Hemb&Hcb&_).
    split; [exact Hcb|exact Hemb].
  - vm_compute in Hp. discriminate Hp.
Defined.

(** The two sample sites: a site with one readable page ends with the
    [NameError] of the stats; a site whose only file fails is written
    with no page. *)
Lemma main_local_outcome_witness :
  Site.main_local JsonRef.loads Md5Ref.md5_int insertion_order (fun _ => [])
    (fun l => l) "2026-01-01T00:00:00" 0 EmptyString
    [Site.plain_file "index"] = Raise NameError
  /\ exists out,
       Site.main_local JsonRef.loads Md5Ref.md5_int insertion_order (fun _ => [])
         (fun l => l) "2026-01-01T00:00:00" 0 EmptyString
         [Site.valueless_meta_file] = Ok out
       /\ Site.llmr_pages out = [].
Proof.
  split.
  - pose proof (main_local_outcome JsonRef.loads Md5Ref.md5_int insertion_order
                  (fun _ => []) (fun l => l) "2026-01-01T00:00:00" 0 EmptyString
                  [Site.plain_file "index"]) as H.
    destruct (Site.main_local _ _ _ _ _ _ _ _ _) as [out|e].
    + destruct H as [H _]. vm_compute in H. discriminate H.
    + destruct H as [_ ->]. vm_compute. reflexivity.
  - eexists. split; [vm_compute; reflexivity|reflexivity].
Defined.

(** ** The batches of the API providers *)

Section BatchFacts.

Import Providers.

Variable request : list string -> option (list (list Q)).
Variable dimensions : Z.

(** The batches cover the texts: cut at the steps of [range], the list
    is the concatenation of its slices. *)
Lemma slices_concat {A} (step n : nat) (l : list A) :
  0 < step -> length l <= n * step ->
  concat (map (fun i => take step (drop i l)) (map (fun k => k * step) (seq 0 n)))
  = l.
Proof.
  intros Hstep. revert l. induction n as [|n IH]; intros l Hl.
  - simpl in *. destruct l; [done|simpl in Hl; lia].
  - rewrite <- cons_seq, <- fmap_S_seq. simpl.
    rewrite drop_0. etrans; [|apply (take_drop step l)]. f_equal.
    etrans; [|apply (IH (drop step l)); rewrite length_drop; lia].
    f_equal. rewrite <- !list_fmap_compose. apply list_fmap_ext.
    intros _ k _. simpl. by rewrite drop_drop, (Nat.add_comm step).
Qed.

Lemma range_step_covers (n step : nat) :
  0 < step -> n <= ((n + step - 1) / step) * step.
Proof.
  intros Hstep.
  pose proof (Nat.div_mod (n + step - 1) step ltac:(lia)) as Hdiv.
  pose proof (Nat.mod_upper_bound (n + step - 1) step ltac:(lia)) as Hmod.
  nia.
Qed.

Lemma range_step_lt (n step i : nat) :
  0 < step -> i ∈ range_step n step -> i < n.
Proof.
  intros Hstep (k&->&Hk)%list_elem_of_fmap.
  apply elem_of_seq in Hk as [_ Hk]. simpl in Hk.
  pose proof (Nat.div_mod (n + step - 1) step ltac:(lia)) as Hdiv.
  pose proof (Nat.mod_upper_bound (n + step - 1) step ltac:(lia)) as Hmod.
  nia.
Qed.

Lemma range_step_concat {A} (step : nat) (l : list A) :
  0 < step ->
  concat (map (fun i => take step (drop i l)) (range_step (length l) step)) = l.
Proof.
  intros Hstep. unfold range_step. apply slices_concat; [done|].
  by apply range_step_covers.
Qed.

Lemma batches_compose {A} (f : list string -> list A) (step : nat) texts starts :
  map (fun i => f (take step (drop i texts))) starts
  = map f (map (fun i => take step (drop i texts)) starts).
Proof. by rewrite <- list_fmap_compose. Qed.

Lemma foldl_batches (f : list string -> list (list Q)) starts texts step acc :
  foldl (fun embeddings i => embeddings ++ f (take step (drop i texts))) acc starts
  = acc ++ concat (map (fun i => f (take step (drop i texts))) starts).
Proof.
  revert acc. induction starts as [|i starts IH]; intros acc; simpl.
  - by rewrite app_nil_r.
  - by rewrite IH, app_assoc.
Qed.

Lemma length_concat_batches (f : list string -> list (list Q))
  (batches : list (list string)) :
  Forall (fun batch => length (f batch) = length batch) batches ->
  length (concat (map f batches)) = length (concat batches).
Proof.
  induction 1 as [|batch batches Hb _ IH]; simpl; [done|].
  by rewrite !length_app, Hb, IH.
Qed.

(** X22: with an API that answers every batch it accepts with one vector per
    text, [embed_batch] returns one vector per text for a positive batch
    size, whichever batches fail; for a negative batch size it returns
    no vector at all, and for a batch size of zero it raises
    [ValueError] unless there is no text. *)
Theorem embed_batch_length texts batch_size :
  (forall batch embeddings,
     request batch = Some embeddings -> length embeddings = length batch) ->
  match embed_batch request dimensions texts batch_size with
  | Returns embeddings =>
      length embeddings = (if (batch_size <? 0)%Z then 0 else length texts)
  | Raises e => e = ValueError /\ batch_size = 0%Z /\ texts <> []
  end.
Proof.
  intros Hreq. unfold embed_batch.
  destruct texts as [|text texts]; [by destruct (batch_size <? 0)%Z|].
  destruct (Z.eqb_spec batch_size 0) as [->|Hne]; [done|].
  destruct (batch_size <? 0)%Z eqn:Hneg; [done|].
  apply Z.ltb_ge in Hneg.
  set (cut := map (PyStr.str_take 8000) (text :: texts)).
  set (step := Z.to_nat batch_size).
  assert (Hstep : 0 < step) by (unfold step; lia).
  rewrite foldl_batches, app_nil_l.
  rewrite (batches_compose (batch_embeddings request dimensions)).
  rewrite length_concat_batches.
  - rewrite range_step_concat by done. unfold cut. by rewrite length_map.
  - apply Forall_forall. intros batch _.
    unfold batch_embeddings. destruct (request batch) eqn:Hb; [by eapply Hreq|].
    by rewrite length_replicate.
Qed.

(** X23: when every call fails, [embed_batch] with a positive batch size
    returns one zero vector per text. *)
Theorem embed_batch_all_failed texts batch_size :
  (forall batch, request batch = None) -> (0 < batch_size)%Z ->
  embed_batch request dimensions texts batch_size
  = Returns (replicate (length texts) (zero_vector dimensions)).
Proof.
  intros Hreq Hpos. unfold embed_batch.
  destruct texts as [|text texts]; [done|].
  destruct (Z.eqb_spec batch_size 0) as [->|Hne]; [lia|].
  destruct (batch_size <? 0)%Z eqn:Hneg; [apply Z.ltb_lt in Hneg; lia|].
  set (cut := map (PyStr.str_take 8000) (text :: texts)).
  set (step := Z.to_nat batch_size).
  assert (Hstep : 0 < step) by (unfold step; lia).
  f_equal. rewrite foldl_batches, app_nil_l.
  assert (Hall : forall batches : list (list string),
            concat (map (batch_embeddings request dimensions) batches)
            = replicate (length (concat batches)) (zero_vector dimensions)).
  { induction batches as [|b bs IH]; simpl; [done|].
    rewrite IH, length_app, replicate_add. f_equal.
    unfold batch_embeddings. by rewrite Hreq. }
  rewrite (batches_compose (batch_embeddings request dimensions)), Hall.
  rewrite range_step_concat by done. unfold cut. by rewrite length_map.
Qed.

Lemma substring_length_le n s : String.length (String.substring 0 n s) <= n.
Proof.
  revert s. induction n as [|n IH]; intros [|c s]; simpl; try lia.
  specialize (IH s). lia.
Qed.

(** X24: the API is called only with batches that are not empty, hold at most
    [batch_size] texts, and whose texts have at most 8000 characters:
    two APIs that agree on these batches give the same result. *)
Theorem embed_batch_requests request' texts batch_size :
  (forall batch,
     batch <> [] ->
     (Z.of_nat (length batch) <= batch_size)%Z ->
     Forall (fun text => (Z.of_nat (String.length text) <= 8000)%Z) batch ->
     request batch = request' batch) ->
  embed_batch request dimensions texts batch_size
  = embed_batch request' dimensions texts batch_size.
Proof.
  intros Hreq. unfold embed_batch.
  destruct texts as [|text texts]; [done|].
  destruct (Z.eqb_spec batch_size 0) as [->|Hne]; [done|].
  destruct (batch_size <? 0)%Z eqn:Hneg; [done|].
  apply Z.ltb_ge in Hneg.
  set (cut := map (PyStr.str_take 8000) (text :: texts)).
  set (step := Z.to_nat batch_size).
  assert (Hstep : 0 < step) by (unfold step; lia).
  f_equal. rewrite !foldl_batches. f_equal. f_equal.
  apply list_fmap_ext. intros _ i Hi%list_elem_of_lookup_2.
  apply range_step_lt in Hi; [|done].
  unfold batch_embeddings. rewrite Hreq; [done|..].
  - intros Hnil. apply (f_equal length) in Hnil.
    rewrite length_take, length_drop in Hnil.
    change (length (@nil string)) with 0 in Hnil. lia.
  - rewrite length_take. unfold step. lia.
  - apply Forall_take, Forall_drop. unfold cut. apply Forall_fmap.
    apply Forall_forall. intros t _. simpl.
    unfold PyStr.str_take, PyStr.slice_to.
    change (8000 <? 0)%Z with false. cbv iota.
    pose proof (substring_length_le
                  (Nat.min (Z.to_nat 8000) (String.length t)) t).
    lia.
Qed.

End BatchFacts.

Lemma embed_batch_length_witness :
  (forall batch embeddings,
     (fun batch : list string =>
        if Nat.eqb (length batch) 2 then Some (map (fun _ => [1 # 2]%Q) batch)
        else None) batch = Some embeddings ->
     length embeddings = length batch)
  /\ exists embeddings,
       Providers.embed_batch
         (fun batch : list string =>
            if Nat.eqb (length batch) 2 then Some (map (fun _ => [1 # 2]%Q) batch)
            else None) 1 ["a"; "b"; "c"] 2
       = Providers.Returns embeddings
       /\ length embeddings = 3.
Proof.
  assert (H : forall batch embeddings,
     (fun batch : list string =>
        if Nat.eqb (length batch) 2 then Some (map (fun _ => [1 # 2]%Q) batch)
        else None) batch = Some embeddings ->
     length embeddings = length batch).
  { intros batch embeddings. simpl. destruct (Nat.eqb _ _); [|done].
    intros [= <-]. by rewrite length_map. }
  split; [exact H|].
  pose proof (embed_batch_length _ 1 ["a"; "b"; "c"] 2 H) as Hlen.
  destruct (Providers.embed_batch _ _ _ _) as [embeddings|e].
  - exists embeddings. split; [reflexivity|exact Hlen].
  - destruct Hlen as (_&Hz&_). discriminate Hz.
Defined.

Lemma embed_batch_all_failed_witness :
  (forall batch : list string, (fun _ => None) batch = @None (list (list Q)))
  /\ (0 < 2)%Z
  /\ Providers.embed_batch (fun _ => None) 2 ["a"; "b"; "c"] 2
     = Providers.Returns [[0 # 1; 0 # 1]; [0 # 1; 0 # 1]; [0 # 1; 0 # 1]]%Q.
Proof.
  split; [reflexivity|]. split; [lia|].
  exact (embed_batch_all_failed (fun _ => None) 2 ["a"; "b"; "c"] 2
           (fun _ => eq_refl) ltac:(lia)).
Defined.

Lemma embed_batch_requests_witness :
  Providers.embed_batch
    (fun batch => if Nat.leb (length batch) 2 then Some [] else None)
    4 ["a"; "b"; "c"] 2
  = Providers.embed_batch (fun _ => Some []) 4 ["a"; "b"; "c"] 2.
Proof.
  apply embed_batch_requests. intros batch _ Hlen _. simpl.
  destruct (Nat.leb_spec (length batch) 2); [done|lia].
Defined.

(** ** The provider factory *)

Section FactoryFacts.

Import Providers.

Variable HAS_SENTENCE_TRANSFORMERS : bool.
Variable HAS_OPENAI : bool.
Variable HAS_COHERE : bool.
Variable HAS_ANTHROPIC : bool.
Variable load_model : string -> string -> outcome Z.
Variable cohere_Client : string -> outcome unit.

Local Abbreviation create :=
  (Providers.create HAS_SENTENCE_TRANSFORMERS HAS_OPENAI HAS_COHERE
     HAS_ANTHROPIC load_model cohere_Client).

Lemma cohere_returns kwargs v :
  CohereEmbeddings cohere_Client kwargs = Returns v ->
  truthy (api_key kwargs) = true
  /\ exists model dimensions,
       v = Cohere model dimensions /\ (dimensions = 1024 \/ dimensions = 384)%Z.
Proof.
  unfold CohereEmbeddings. destruct (api_key kwargs) as [[|c key]|]; try done.
  destruct (cohere_Client _); [|done]. intros [= <-]. split; [done|].
  eexists _, _. split; [done|]. destruct (negb _); auto.
Qed.

Lemma sentence_transformer_returns kwargs v :
  SentenceTransformerEmbeddings load_model kwargs = Returns v ->
  exists model dimensions, v = SentenceTransformer model dimensions.
Proof.
  unfold SentenceTransformerEmbeddings. destruct (load_model _ _); [|done].
  intros [= <-]. eauto.
Qed.

(** X25: what the factory returns, it returns for one of five provider names,
    and only with the library of that provider installed: a name it does
    not know and the name [anthropic] never give a provider.  A Cohere
    provider needs a non-empty [api_key], also when it was chosen by
    [auto] for its [cohere_api_key]; a hash provider has the dimensions
    asked for, 16 by default. *)
Theorem create_returns provider kwargs v :
  create provider kwargs = Returns v ->
  match v with
  | SentenceTransformer _ _ =>
      HAS_SENTENCE_TRANSFORMERS = true
      /\ (provider = "auto" \/ provider = "sentence-transformers")
  | OpenAI _ dimensions =>
      HAS_OPENAI = true
      /\ (provider = "openai"
          \/ provider = "auto" /\ HAS_SENTENCE_TRANSFORMERS = false
             /\ truthy (openai_api_key kwargs) = true)
      /\ (dimensions = 1536 \/ dimensions = 3072)%Z
  | Cohere _ dimensions =>
      HAS_COHERE = true
      /\ truthy (api_key kwargs) = true
      /\ (provider = "cohere"
          \/ provider = "auto" /\ HAS_SENTENCE_TRANSFORMERS = false
             /\ truthy (cohere_api_key kwargs) = true)
      /\ (dimensions = 1024 \/ dimensions = 384)%Z
  | Hash self =>
      (provider = "hash"
       \/ provider = "auto" /\ HAS_SENTENCE_TRANSFORMERS = false)
      /\ HashEmbeddings.dimensions self = default 16%Z (dimensions kwargs)
  end.
Proof.
  unfold Providers.create.
  destruct (String.eqb_spec provider "auto") as [->|_].
  { destruct HAS_SENTENCE_TRANSFORMERS.
    - intros (?&?&->)%sentence_transformer_returns. auto.
    - destruct (HAS_OPENAI && _) eqn:Ho.
      + apply andb_true_iff in Ho as [-> Ho]. unfold OpenAIEmbeddings.
        intros [= <-]. repeat split; auto. destruct (_ || _); auto.
      + destruct (HAS_COHERE && _) eqn:Hc.
        * apply andb_true_iff in Hc as [-> Hc].
          intros (Hk&?&?&->&Hd)%cohere_returns. auto 10.
        * unfold HashEmbeddings_. intros [= <-]. auto. }
  destruct (String.eqb_spec provider "sentence-transformers") as [->|_].
  { destruct HAS_SENTENCE_TRANSFORMERS; [|done].
    intros (?&?&->)%sentence_transformer_returns. auto. }
  destruct (String.eqb_spec provider "openai") as [->|_].
  { destruct HAS_OPENAI; [|done]. unfold OpenAIEmbeddings.
    intros [= <-]. repeat split; auto. destruct (_ || _); auto. }
  destruct (String.eqb_spec provider "cohere") as [->|_].
  { destruct HAS_COHERE; [|done].
    intros (Hk&?&?&->&Hd)%cohere_returns. auto 10. }
  destruct (String.eqb_spec provider "anthropic") as [->|_].
  { by destruct HAS_ANTHROPIC. }
  destruct (String.eqb_spec provider "hash") as [->|_]; [|done].
  unfold HashEmbeddings_. intros [= <-]. auto.
Qed.

(** X26: from the command line the provider [auto] never reaches an API
    provider, whatever keys are given: both keys are passed as
    [api_key], which [auto] does not look at.  It gives the sentence
    transformer when that library is installed and the hash provider
    with 16 dimensions otherwise. *)
Theorem create_auto_from_cli openai_key cohere_key model_name :
  create "auto" (cli_kwargs openai_key cohere_key model_name)
  = if HAS_SENTENCE_TRANSFORMERS
    then SentenceTransformerEmbeddings load_model
           (cli_kwargs openai_key cohere_key model_name)
    else Returns (Hash HashEmbeddings.init).
Proof.
  unfold Providers.create. change (String.eqb "auto" "auto") with true.
  cbv iota. destruct HAS_SENTENCE_TRANSFORMERS; [done|].
  assert (Ho : Providers.openai_api_key
                 (cli_kwargs openai_key cohere_key model_name) = None)
    by (unfold cli_kwargs; repeat case_match; done).
  assert (Hc : Providers.cohere_api_key
                 (cli_kwargs openai_key cohere_key model_name) = None)
    by (unfold cli_kwargs; repeat case_match; done).
  assert (Hd : dimensions (cli_kwargs openai_key cohere_key model_name) = None)
    by (unfold cli_kwargs; repeat case_match; done).
  rewrite Ho, Hc. simpl truthy. rewrite !andb_false_r.
  unfold HashEmbeddings_. by rewrite Hd.
Qed.

(** X27: with only the Cohere library usable, [auto] chooses Cohere for a
    [cohere_api_key] and then raises [ValueError] when no [api_key] was
    passed with it: the constructor reads the key under that other
    name. *)
Theorem create_auto_cohere_key kwargs :
  HAS_SENTENCE_TRANSFORMERS = false ->
  HAS_OPENAI && truthy (openai_api_key kwargs) = false ->
  HAS_COHERE = true ->
  truthy (cohere_api_key kwargs) = true ->
  truthy (api_key kwargs) = false ->
  create "auto" kwargs = Raises ValueError.
Proof.
  intros Hst Ho Hco Hkey Hapi. unfold Providers.create.
  change (String.eqb "auto" "auto") with true. cbv iota.
  rewrite Hst, Ho, Hco, Hkey. simpl. unfold CohereEmbeddings.
  by destruct (api_key kwargs) as [[|c key]|].
Qed.

End FactoryFacts.

Lemma create_returns_witness :
  Providers.create false false false false
    (fun _ _ => Providers.Raises Providers.LibraryError)
    (fun _ => Providers.Returns tt) "hash"
    (Providers.mkKwargs None None None (Some 32%Z) None None)
  = Providers.Returns (Providers.Hash (HashEmbeddings.mk 32))
  /\ HashEmbeddings.dimensions (HashEmbeddings.mk 32) = 32%Z.
Proof.
  assert (H : Providers.create false false false false
    (fun _ _ => Providers.Raises Providers.LibraryError)
    (fun _ => Providers.Returns tt) "hash"
    (Providers.mkKwargs None None None (Some 32%Z) None None)
  = Providers.Returns (Providers.Hash (HashEmbeddings.mk 32)))
    by reflexivity.
  split; [exact H|].
  exact (proj2 (create_returns _ _ _ _ _ _ _ _ _ H)).
Defined.

Lemma create_auto_cohere_key_witness :
  Providers.create false true true false
    (fun _ _ => Providers.Raises Providers.LibraryError)
    (fun _ => Providers.Returns tt) "auto"
    (Providers.mkKwargs None None None None None (Some "secret"))
  = Providers.Raises Providers.ValueError.
Proof.
  apply create_auto_cohere_key; reflexivity.
Defined.
